(** * XCDF python bindings: a shallow embedding and its properties

    The development follows [src/pybindings/PyXCDF.cc] and
    [python/XCDFTupleSetter.h].  The record engine behind [XCDFFile]
    (headers under [xcdf/]) is described by the design document only; the
    part of it the bindings call is modelled from that document and every
    such definition says so in its comment.

    The bindings compile against Python 2 or 3 by [#if PY_MAJOR_VERSION];
    in the functions followed here the two branches differ only in the
    names of the conversions ([PyString_]/[PyInt_] against
    [PyBytes_]/[PyLong_]); the Python 2 names are used.  What a
    conversion accepts is taken from Python 3: a bool is an integer, and
    no other object stands for one. *)

From Stdlib Require Import ZArith QArith String DecimalString Bool Lia Arith
  List.
Import ListNotations.
Open Scope Z_scope.
Set Warnings "-register-all".

(* ===================================================================== *)
(** * Exceptions of the record engine and the error monad                 *)
(* ===================================================================== *)

(** Modelled from the spec: the error taxonomy of section 7, restricted to
    the kinds that travel as C++ exceptions ([XCDFException]); an
    out-of-range seek and the end of the file are a boolean and a count. *)
Inductive XCDFException : Type :=
| SchemaError
| RecordIncompleteError
| CorruptBlockError
| SchemaMismatchError
| InvalidModeError.

(** Modelled from the spec: [XCDFException::GetMessage]; the texts are not
    given, the kind's name stands for them. *)
Definition GetMessage (e : XCDFException) : string :=
  match e with
  | SchemaError => "SchemaError"
  | RecordIncompleteError => "RecordIncompleteError"
  | CorruptBlockError => "CorruptBlockError"
  | SchemaMismatchError => "SchemaMismatchError"
  | InvalidModeError => "InvalidModeError"
  end.

(** A call into the engine either returns or throws. *)
Inductive Res (A : Type) : Type :=
| Ok (a : A)
| Throw (e : XCDFException).
Arguments Ok {A} a.
Arguments Throw {A} e.

Definition bind {A B : Type} (m : Res A) (k : A -> Res B) : Res B :=
  match m with
  | Ok a => k a
  | Throw e => Throw e
  end.

Notation "x <- m ;; k" := (bind m (fun x => k))
  (at level 61, m at next level, right associativity).

(* ===================================================================== *)
(** * Python values, as far as the bindings build and inspect them        *)
(* ===================================================================== *)

(** A tuple under construction has NULL slots, hence [option]. *)
Inductive PyObject : Type :=
| Py_None
| Py_True
| Py_False
| PyInt (z : Z)
| PyFloat (q : Q)
| PyString (s : string)
| PyTuple (items : list (option PyObject)).

Inductive PyErr : Type :=
| PyExc_StopIteration
| PyExc_AttributeError (msg : string)
| PyExc_TypeError (msg : string)
| pyxcdf_XCDFException (msg : string).

(** What a conversion of the C API leaves in the error indicator when it
    fails: the kind of the exception (its text is the interpreter's). *)
Inductive ConversionError : Type :=
| ConvTypeError
| ConvOverflowError.

(** What a binding function hands back to the interpreter: an object, NULL
    with an exception set, an object while the error indicator is still
    set by a conversion nobody checked (Python 3 reports such a return as
    a [SystemError]), or a call whose C++ behaviour is undefined (a NULL
    [char*] given to a string constructor, a [strcpy] past its buffer). *)
Inductive PyResult : Type :=
| PyReturn (o : PyObject)
| PyRaise (e : PyErr)
| PyReturnWithError (o : PyObject) (e : ConversionError)
| PyUndefined.

(** [PyString_AsString] ([PyBytes_AsString] under Python 3): NULL on an
    object that is not a string, with a [TypeError] left behind. *)
Definition PyString_AsString (o : PyObject) : option string :=
  match o with
  | PyString s => Some s
  | _ => None
  end.

Definition PyString_AsString_error (o : PyObject) : option ConversionError :=
  match o with
  | PyString _ => None
  | _ => Some ConvTypeError
  end.

Definition UINT64_MOD : Z := 2 ^ 64.
Definition LONG_MIN : Z := - 2 ^ 63.
Definition LONG_MAX : Z := 2 ^ 63 - 1.
Definition INT_MIN : Z := - 2 ^ 31.
Definition INT_MAX : Z := 2 ^ 31 - 1.

(** A record number stored into a C [int]: kept when it fits, wrapped
    modulo 2^32 otherwise (the conversion of two's complement machines). *)
Definition int_of (z : Z) : Z := (z - INT_MIN) mod 2 ^ 32 + INT_MIN.

(** The integer an object stands for: an int, or a bool as 1 or 0. *)
Definition integerOf (o : PyObject) : option Z :=
  match o with
  | PyInt z => Some z
  | Py_True => Some 1
  | Py_False => Some 0
  | _ => None
  end.

(** [PyInt_AsUnsignedLongLongMask]: the integer reduced modulo 2^64; on
    another object the error value [(unsigned long long)-1], with a
    [TypeError] left behind. *)
Definition PyInt_AsUnsignedLongLongMask (o : PyObject) : Z :=
  match integerOf o with
  | Some z => z mod UINT64_MOD
  | None => UINT64_MOD - 1
  end.

Definition PyInt_AsUnsignedLongLongMask_error (o : PyObject)
  : option ConversionError :=
  match integerOf o with
  | Some _ => None
  | None => Some ConvTypeError
  end.

(** [PyInt_AsLong]: the integer when it fits a C long; otherwise the error
    value -1, with an [OverflowError] left behind for an integer and a
    [TypeError] for another object.  The callers do not look at the error
    indicator. *)
Definition PyInt_AsLong (o : PyObject) : Z :=
  match integerOf o with
  | Some z => if (LONG_MIN <=? z) && (z <=? LONG_MAX) then z else -1
  | None => -1
  end.

Definition PyInt_AsLong_error (o : PyObject) : option ConversionError :=
  match integerOf o with
  | Some z =>
      if (LONG_MIN <=? z) && (z <=? LONG_MAX) then None
      else Some ConvOverflowError
  | None => Some ConvTypeError
  end.

(** The double nearest to an integer, as an integer: 53 significant bits,
    a tie going to the even neighbour. *)
Definition nearestDouble (z : Z) : Z :=
  let a := Z.abs z in
  let e := Z.log2 a + 1 - 53 in
  if e <=? 0 then z
  else
    let q := a / 2 ^ e in
    let r := a mod 2 ^ e in
    let half := 2 ^ (e - 1) in
    let q' := if (half <? r) || ((r =? half) && Z.odd q) then q + 1 else q in
    Z.sgn z * (q' * 2 ^ e).

(** Whether an integer is too large for a double. *)
Definition overflowsDouble (z : Z) : bool :=
  2 ^ 1024 <=? Z.abs (nearestDouble z).

(** [PyFloat_AsDouble], doubles taken as the rationals they are: the value
    of a float, the nearest double of an integer; the error value -1.0
    with an [OverflowError] left behind for an integer too large, and
    with a [TypeError] for an object that is not a number. *)
Definition PyFloat_AsDouble (o : PyObject) : Q :=
  match o with
  | PyFloat q => q
  | _ =>
      match integerOf o with
      | Some z =>
          if overflowsDouble z then inject_Z (-1)
          else inject_Z (nearestDouble z)
      | None => inject_Z (-1)
      end
  end.

Definition PyFloat_AsDouble_error (o : PyObject) : option ConversionError :=
  match o with
  | PyFloat _ => None
  | _ =>
      match integerOf o with
      | Some z => if overflowsDouble z then Some ConvOverflowError else None
      | None => Some ConvTypeError
      end
  end.

(** The error indicator after one more conversion: a conversion that
    fails replaces what was there, one that succeeds leaves it. *)
Definition latest (before after : option ConversionError)
  : option ConversionError :=
  match after with
  | Some e => Some e
  | None => before
  end.

(** A non-NULL return under the error indicator as it stands. *)
Definition returnWith (o : PyObject) (pending : option ConversionError)
  : PyResult :=
  match pending with
  | None => PyReturn o
  | Some e => PyReturnWithError o e
  end.

(** [PyTuple_New n]: [n] NULL slots. *)
Definition PyTuple_New (n : Z) : list (option PyObject) :=
  repeat None (Z.to_nat n).

Fixpoint set_nth {A : Type} (l : list A) (n : nat) (x : A) : list A :=
  match l, n with
  | [], _ => []
  | _ :: t, O => x :: t
  | h :: t, S n' => h :: set_nth t n' x
  end.

(** [PyTuple_SetItem]: stores at [pos]; out of range it reports -1 and the
    tuple is as before. *)
Definition PyTuple_SetItem (t : list (option PyObject)) (pos : Z)
    (o : PyObject) : Z * list (option PyObject) :=
  if (0 <=? pos) && (pos <? Z.of_nat (length t))
  then (0, set_nth t (Z.to_nat pos) (Some o))
  else (-1, t).

(* ===================================================================== *)
(** * The record engine, read side and schema registry                    *)
(* ===================================================================== *)

(** The three enumerators the bindings name; their declaration and
    integer values are in a header of the engine. *)
Inductive XCDFFieldType : Type :=
| XCDF_UNSIGNED_INTEGER
| XCDF_SIGNED_INTEGER
| XCDF_FLOATING_POINT.

Definition XCDFFieldType_eqb (a b : XCDFFieldType) : bool :=
  match a, b with
  | XCDF_UNSIGNED_INTEGER, XCDF_UNSIGNED_INTEGER => true
  | XCDF_SIGNED_INTEGER, XCDF_SIGNED_INTEGER => true
  | XCDF_FLOATING_POINT, XCDF_FLOATING_POINT => true
  | _, _ => false
  end.

(** Modelled from the spec: the FieldDescriptor of section 3: name, type,
    resolution, and the parent's name for a vector field. *)
Record XCDFFieldDescriptor : Type := mkDescriptor {
  fd_name : string;
  fd_type : XCDFFieldType;
  fd_resolution : Q;
  fd_parent : option string
}.

(** Modelled from the spec: the decoded values one field holds in the
    current record, a closed variant over the three column types
    (section 9); [XCDFField<T>] in the bindings. *)
Inductive XCDFField : Type :=
| UnsignedField (vs : list Z)
| SignedField (vs : list Z)
| FloatingPointField (vs : list Q).

(** Modelled from the spec: [XCDFField<T>::GetSize], the count of the
    values the field holds. *)
Definition GetSize (fld : XCDFField) : Z :=
  match fld with
  | UnsignedField vs => Z.of_nat (length vs)
  | SignedField vs => Z.of_nat (length vs)
  | FloatingPointField vs => Z.of_nat (length vs)
  end.

(** Modelled from the spec: a declared field before any record is
    loaded. *)
Definition emptyField (t : XCDFFieldType) : XCDFField :=
  match t with
  | XCDF_UNSIGNED_INTEGER => UnsignedField []
  | XCDF_SIGNED_INTEGER => SignedField []
  | XCDF_FLOATING_POINT => FloatingPointField []
  end.

(** A record: one entry per field, in declaration order. *)
Definition Record_ : Type := list XCDFField.

(** Modelled from the spec: the open modes of the file controller
    (section 4.6). *)
Inductive OpenMode : Type :=
| OpenForRead
| OpenForWrite
| OpenForAppend.

(** Modelled from the spec: a block of the backing store (sections 3 and
    6): the record count of its header and its decoded payload. *)
Record Block : Type := mkBlock {
  blk_count : nat;
  blk_records : list Record_
}.

(** Modelled from the spec: a seek-table entry, the id of the block's first
    record and the block's place in the store. *)
Record SeekEntry : Type := mkSeekEntry {
  se_first : Z;
  se_offset : nat
}.

(** Modelled from the spec: the state of an open file as the bindings see
    it.  [fields_] is the registry in declaration order, each field with
    the values it holds for the record last loaded; [eventCount_] is the
    total record count; the cursor is the place of the next record to read
    ([blockIndex_], [posInBlock_]) and the id of the record last loaded
    ([eventNumber_], -1 when none is); [mode_] is the mode the file was
    opened in. *)
Record XCDFFile : Type := mkFile {
  fields_ : list (XCDFFieldDescriptor * XCDFField);
  blocks_ : list Block;
  seekTable_ : list SeekEntry;
  eventCount_ : Z;
  blockIndex_ : nat;
  posInBlock_ : nat;
  eventNumber_ : Z;
  mode_ : OpenMode
}.

(** Modelled from the spec: schema introspection, the number of declared
    fields. *)
Definition GetNFields (f : XCDFFile) : Z := Z.of_nat (length (fields_ f)).

(** Modelled from the spec: the total record count of the trailer. *)
Definition GetEventCount (f : XCDFFile) : Z := eventCount_ f.

(** Modelled from the spec: the id of the record last loaded; record ids
    start at 0. *)
Definition GetCurrentEventNumber (f : XCDFFile) : Z := eventNumber_ f.

Definition descriptors (f : XCDFFile) : list XCDFFieldDescriptor :=
  map fst (fields_ f).

Definition currentRecord (f : XCDFFile) : Record_ :=
  map snd (fields_ f).

(** Current field values by name, as the selection evaluator is given
    them. *)
Definition currentByName (f : XCDFFile) : list (string * XCDFField) :=
  map (fun df => (fd_name (fst df), snd df)) (fields_ f).

(** Modelled from the spec: the field visitor traversal of section 6, an
    ordered callback over all declared fields in schema order. *)
Definition ApplyFieldVisitor {V : Type} (f : XCDFFile)
    (visit : V -> XCDFField -> V) (v : V) : V :=
  fold_left visit (currentRecord f) v.

(** ** Sequential reading (section 4.4) *)

(** Modelled from the spec: the next record at or after position [pos] of
    the first block of [rest], which is block number [b] of the store, the
    following blocks being entered at a block boundary; a block whose
    header count disagrees with its payload is corrupt. *)
Fixpoint nextRecord (rest : list Block) (b pos : nat)
  : Res (option (nat * nat * Record_)) :=
  match rest with
  | [] => Ok None
  | blk :: rest' =>
      if Nat.eqb (blk_count blk) (length (blk_records blk)) then
        match nth_error (blk_records blk) pos with
        | Some r => Ok (Some (b, S pos, r))
        | None => nextRecord rest' (S b) 0
        end
      else Throw CorruptBlockError
  end.

Definition setCursor (f : XCDFFile) (b pos : nat) (ev : Z) : XCDFFile :=
  mkFile (fields_ f) (blocks_ f) (seekTable_ f) (eventCount_ f) b pos ev
         (mode_ f).

Definition setFields (f : XCDFFile)
    (fl : list (XCDFFieldDescriptor * XCDFField)) : XCDFFile :=
  mkFile fl (blocks_ f) (seekTable_ f) (eventCount_ f)
         (blockIndex_ f) (posInBlock_ f) (eventNumber_ f) (mode_ f).

(** Modelled from the spec: [readRecord] of section 4.4 under the name the
    bindings call, [XCDFFile::Read]: the number of records read, 1 with the
    fields populated in declaration order, 0 when no further block
    exists. *)
Definition Read (f : XCDFFile) : Res (Z * XCDFFile) :=
  r <- nextRecord (skipn (blockIndex_ f) (blocks_ f))
                  (blockIndex_ f) (posInBlock_ f) ;;
  match r with
  | None => Ok (0, f)
  | Some (b, pos, rec) =>
      if Nat.eqb (length rec) (length (fields_ f)) then
        Ok (1, setFields (setCursor f b pos (eventNumber_ f + 1))
                         (combine (descriptors f) rec))
      else Throw CorruptBlockError
  end.

(** ** Random access (section 4.5) *)

Definition firstAt (tbl : list SeekEntry) (k : nat) : Z :=
  match nth_error tbl k with
  | Some e => se_first e
  | None => 0
  end.

(** Modelled from the spec: the binary search for the greatest entry whose
    first id is at most [id], between [lo] (which qualifies) and [hi]
    (which does not). *)
Fixpoint bsearch (fuel : nat) (tbl : list SeekEntry) (id : Z)
    (lo hi : nat) : nat :=
  match fuel with
  | O => lo
  | S fuel' =>
      if (hi - lo <=? 1)%nat then lo
      else
        let mid := ((lo + hi) / 2)%nat in
        if firstAt tbl mid <=? id
        then bsearch fuel' tbl id mid hi
        else bsearch fuel' tbl id lo mid
  end.

Definition findBlock (tbl : list SeekEntry) (id : Z) : nat :=
  bsearch (length tbl) tbl id 0 (length tbl).

(** Modelled from the spec: the linear advance to the target, [n] records
    read one after the other; running out of records on the way
    contradicts the record counts. *)
Fixpoint advance (n : nat) (f : XCDFFile) : Res XCDFFile :=
  match n with
  | O => Ok f
  | S n' =>
      r <- Read f ;;
      if 0 <? fst r then advance n' (snd r) else Throw CorruptBlockError
  end.

(** Modelled from the spec: [seek] of section 4.5, [XCDFFile::Seek] in the
    bindings: false and the cursor as it was for an id that is negative or
    not below the record count; otherwise the block found through the seek
    table is entered at its first record and the cursor advanced to the
    target, which is then the record loaded. *)
Definition Seek (f : XCDFFile) (id : Z) : Res (bool * XCDFFile) :=
  if (id <? 0) || (eventCount_ f <=? id) then Ok (false, f)
  else
    match nth_error (seekTable_ f) (findBlock (seekTable_ f) id) with
    | None => Throw CorruptBlockError
    | Some e =>
        if se_first e <=? id then
          f' <- advance (Z.to_nat (id - se_first e + 1))
                        (setCursor f (se_offset e) 0 (se_first e - 1)) ;;
          Ok (true, f')
        else Throw CorruptBlockError
    end.

(** Modelled from the spec: [rewind] of section 4.5: the cursor goes back
    to record 0 through the first seek-table entry. *)
Definition Rewind (f : XCDFFile) : XCDFFile :=
  match seekTable_ f with
  | [] => setCursor f 0 0 (-1)
  | e :: _ => setCursor f (se_offset e) 0 (se_first e - 1)
  end.

(** ** Schema registry (section 4.1) *)

(** Modelled from the spec: lookup of a declared field by its name. *)
Definition findField (f : XCDFFile) (name : string)
  : option XCDFFieldDescriptor :=
  find (fun d => String.eqb (fd_name d) name) (descriptors f).

Definition nameUsed (f : XCDFFile) (name : string) : bool :=
  match findField f name with
  | Some _ => true
  | None => false
  end.

(** Modelled from the spec: the parent of a vector field must be declared
    already, unsigned and scalar. *)
Definition parentOk (f : XCDFFile) (parent : option string) : bool :=
  match parent with
  | None => true
  | Some p =>
      match findField f p with
      | Some d =>
          XCDFFieldType_eqb (fd_type d) XCDF_UNSIGNED_INTEGER &&
          match fd_parent d with None => true | Some _ => false end
      | None => false
      end
  end.

(** Modelled from the spec: a floating-point field needs a resolution
    above 0. *)
Definition badResolution (t : XCDFFieldType) (res : Q) : bool :=
  XCDFFieldType_eqb t XCDF_FLOATING_POINT && Qle_bool res 0.

(** Modelled from the spec: the schema is frozen once a record is
    committed, that is once the record count is above 0. *)
Definition recordCommitted (f : XCDFFile) : bool := 0 <? eventCount_ f.

(** Modelled from the spec: a file open for reading takes no write
    operation (section 4.6). *)
Definition readOnly (f : XCDFFile) : bool :=
  match mode_ f with
  | OpenForRead => true
  | _ => false
  end.

(** Modelled from the spec: [declareField] of section 4.1, under the mode
    rule of section 4.6: on a file open for reading it fails with
    [InvalidModeError] like every write operation. *)
Definition declareField (f : XCDFFile) (name : string) (t : XCDFFieldType)
    (res : Q) (parent : option string) : Res XCDFFile :=
  if readOnly f then Throw InvalidModeError
  else if nameUsed f name then Throw SchemaError
  else if negb (parentOk f parent) then Throw SchemaError
  else if badResolution t res then Throw SchemaError
  else if recordCommitted f then Throw SchemaError
  else Ok (setFields f
             (fields_ f ++ [(mkDescriptor name t res parent, emptyField t)])).

(** Modelled from the spec: the optional parent; the bindings give it as
    a C string, empty for a scalar field. *)
Definition parentOfCString (parent : string) : option string :=
  if String.eqb parent "" then None else Some parent.

(** Modelled from the spec: the three typed entry points of [declareField]
    that the bindings call. *)
Definition AllocateUnsignedIntegerField (f : XCDFFile) (name : string)
    (res : Z) (parent : string) : Res XCDFFile :=
  declareField f name XCDF_UNSIGNED_INTEGER (inject_Z res)
               (parentOfCString parent).

Definition AllocateSignedIntegerField (f : XCDFFile) (name : string)
    (res : Z) (parent : string) : Res XCDFFile :=
  declareField f name XCDF_SIGNED_INTEGER (inject_Z res)
               (parentOfCString parent).

Definition AllocateFloatingPointField (f : XCDFFile) (name : string)
    (res : Q) (parent : string) : Res XCDFFile :=
  declareField f name XCDF_FLOATING_POINT res (parentOfCString parent).

(** Records still ahead of the cursor, in reading order: the measure that
    bounds the iteration loops below. *)
Definition remaining (f : XCDFFile) : list Record_ :=
  match skipn (blockIndex_ f) (blocks_ f) with
  | [] => []
  | blk :: rest =>
      skipn (posInBlock_ f) (blk_records blk) ++ concat (map blk_records rest)
  end.

(* ===================================================================== *)
(** * Collaborators of the bindings that are declared elsewhere           *)
(* ===================================================================== *)

(** The selection evaluator ([EventSelectExpression]) sees the current
    field values by name. *)
Definition EventSelectExpression : Type := list (string * XCDFField) -> bool.

(** [EventSelectExpression::SelectEvent], on the file the expression was
    built for. *)
Definition SelectEvent (ev : EventSelectExpression) (f : XCDFFile) : bool :=
  ev (currentByName f).

(** What the bindings use without defining it: the conversion of a field to
    a Python object ([XCDFTypeConversion.h]), the by-name field selector
    ([XCDFFieldsByNameSelector.h]) with its throwing constructor, and the
    integer values of the [XCDFFieldType] enumerators. *)
Class Externals : Type := {
  xcdf2python : XCDFField -> PyObject;
  FieldsByNameSelector : Type;
  FieldsByNameSelector_new : string -> XCDFFile -> Res FieldsByNameSelector;
  FieldsByNameSelector_GetTuple : FieldsByNameSelector -> XCDFFile -> PyObject;
  typeCode : XCDFFieldType -> Z
}.

(* ===================================================================== *)
(** * python/XCDFTupleSetter.h                                            *)
(* ===================================================================== *)

(** [class TupleSetter]: the number of slots, the number of calls so far,
    the tuple.  Both are C [int]s; they hold a number of fields. *)
Record TupleSetter : Type := mkTupleSetter {
  nfields_ : Z;
  ifield_ : Z;
  tuple_ : list (option PyObject)
}.

(** [TupleSetter::TupleSetter(const int nfields)].  The copy constructor
    and the assignment make copies that share the one tuple object; the
    traversal is followed on the setter it fills. *)
Definition TupleSetter_new (nfields : Z) : TupleSetter :=
  mkTupleSetter nfields 0 (PyTuple_New nfields).

(** [TupleSetter::operator()]: the slot is [ifield_++ % nfields_]; the
    status of [PyTuple_SetItem] is stored in [err] and not read.  (With
    [nfields_ = 0] the C++ remainder is undefined; a setter built for the
    fields it visits is never called then.) *)
Definition TupleSetter_call `{Externals} (ts : TupleSetter)
    (field : XCDFField) : TupleSetter :=
  let n := GetSize field in
  if 0 <? n then
    let result := xcdf2python field in
    mkTupleSetter (nfields_ ts) (ifield_ ts + 1)
      (snd (PyTuple_SetItem (tuple_ ts)
              (Z.rem (ifield_ ts) (nfields_ ts)) result))
  else
    mkTupleSetter (nfields_ ts) (ifield_ ts + 1)
      (snd (PyTuple_SetItem (tuple_ ts)
              (Z.rem (ifield_ ts) (nfields_ ts)) Py_None)).

(** [TupleSetter::GetTuple]; the setter is a local of its caller and is
    dropped after the call. *)
Definition TupleSetter_GetTuple (ts : TupleSetter) : PyObject :=
  PyTuple (tuple_ ts).

Definition TupleSetter_GetNFields (ts : TupleSetter) : Z := nfields_ ts.

(** What a field puts into its slot of the tuple. *)
Definition slotOf `{Externals} (fld : XCDFField) : PyObject :=
  if 0 <? GetSize fld then xcdf2python fld else Py_None.

(** The tuple of the record currently loaded, as both callers build it:
    [TupleSetter tsetter(file->GetNFields());
     file->ApplyFieldVisitor(tsetter); tsetter.GetTuple()]. *)
Definition recordTuple `{Externals} (f : XCDFFile) : PyObject :=
  TupleSetter_GetTuple
    (ApplyFieldVisitor f TupleSetter_call (TupleSetter_new (GetNFields f))).

(* ===================================================================== *)
(** * src/pybindings/PyXCDF.cc                                            *)
(* ===================================================================== *)

(** [pyxcdf_XCDFFile]: [file_] is NULL until a file is opened. *)
Record pyxcdf_XCDFFile : Type := mkPyFile {
  filename_ : PyObject;
  file_ : option XCDFFile
}.

(** [XCDFRecordIterator].  Its [file_] member points to the file of the
    [pyxcdf_XCDFFile] it came from; that one file is the state every
    function below takes and returns.  [iCurrent_] and [iTotal_] are C
    [int]s, while record numbers are 64-bit (the [uint64_t id] of
    [XCDFFile_getRecord]): what is stored into them goes through
    [int_of]. *)
Record XCDFRecordIterator `{Externals} : Type := mkIterator {
  iCurrent_ : Z;
  iTotal_ : Z;
  selectField_ : option FieldsByNameSelector;
  selectEvent_ : EventSelectExpression
}.

(** The assignments of [XCDFRecord_iterator] to a new iterator, for an
    evaluator and a selector already built from its [select] and [fields]
    arguments. *)
Definition XCDFRecord_iterator `{Externals} (f : XCDFFile)
    (select : EventSelectExpression) (fields : option FieldsByNameSelector)
  : XCDFRecordIterator :=
  mkIterator _ 0 (int_of (GetEventCount f)) fields select.

(** The default selection, the expression [true]. *)
Definition selectAll : EventSelectExpression := fun _ => true.

(** One call of the evaluator: the record it was consulted on and its
    verdict. *)
Definition Consultation : Type := (Z * bool)%type.

(** What one [next()] leaves behind: the result, the iterator, the file,
    and the consultations of the evaluator in the order they happened. *)
Record NextOutcome `{Externals} : Type := mkOutcome {
  out_result : PyResult;
  out_iter : XCDFRecordIterator;
  out_file : XCDFFile;
  out_consulted : list Consultation
}.

(** The [for (;;)] of [XCDFRecordIterator_iternext]; [continue] is the
    recursive call, and [None] is a loop cut short by [fuel]. *)
Fixpoint iternext_loop `{Externals} (fuel : nat) (p : XCDFRecordIterator)
    (f : XCDFFile) (log : list Consultation) : option NextOutcome :=
  match fuel with
  | O => None
  | S fuel' =>
      if iCurrent_ p <? iTotal_ p then
        match Read f with
        | Throw e =>
            Some (mkOutcome _
                    (PyRaise (pyxcdf_XCDFException (GetMessage e))) p f log)
        | Ok (n, f1) =>
            if 0 <? n then
              let p1 := mkIterator _ (int_of (GetCurrentEventNumber f1))
                                   (iTotal_ p) (selectField_ p)
                                   (selectEvent_ p) in
              if iCurrent_ p1 <? 0 then
                Some (mkOutcome _ (PyRaise PyExc_StopIteration) p1 f1 log)
              else
                let verdict := SelectEvent (selectEvent_ p1) f1 in
                let log1 := log ++ [(iCurrent_ p1, verdict)] in
                if negb verdict then iternext_loop fuel' p1 f1 log1
                else
                  match selectField_ p1 with
                  | Some s =>
                      Some (mkOutcome _
                              (PyReturn (FieldsByNameSelector_GetTuple s f1))
                              p1 f1 log1)
                  | None =>
                      Some (mkOutcome _ (PyReturn (recordTuple f1)) p1 f1 log1)
                  end
            else
              Some (mkOutcome _ (PyRaise PyExc_StopIteration) p (Rewind f1) log)
        end
      else
        Some (mkOutcome _ (PyRaise PyExc_StopIteration) p (Rewind f) log)
  end.

(** [XCDFRecordIterator_iternext]: every turn of the loop but the last
    consumes a record, so one more turn than there are records ahead is
    enough. *)
Definition XCDFRecordIterator_iternext `{Externals} (p : XCDFRecordIterator)
    (f : XCDFFile) : option NextOutcome :=
  iternext_loop (S (length (remaining f))) p f [].

(** A whole iteration as the interpreter drives it: [next()] until it
    raises.  The records surfaced come with their ids. *)
Record IterationOutcome `{Externals} : Type := mkIteration {
  it_yielded : list (Z * PyObject);
  it_consulted : list Consultation;
  it_end : PyResult;
  it_iter : XCDFRecordIterator;
  it_file : XCDFFile
}.

Fixpoint iterate_loop `{Externals} (fuel : nat) (p : XCDFRecordIterator)
    (f : XCDFFile) : option IterationOutcome :=
  match fuel with
  | O => None
  | S fuel' =>
      match XCDFRecordIterator_iternext p f with
      | None => None
      | Some o =>
          match out_result o with
          | PyReturn t =>
              match iterate_loop fuel' (out_iter o) (out_file o) with
              | None => None
              | Some r =>
                  Some (mkIteration _
                          ((iCurrent_ (out_iter o), t) :: it_yielded r)
                          (out_consulted o ++ it_consulted r)
                          (it_end r) (it_iter r) (it_file r))
              end
          | other =>
              Some (mkIteration _ [] (out_consulted o) other
                                (out_iter o) (out_file o))
          end
      end
  end.

Definition iterate `{Externals} (p : XCDFRecordIterator) (f : XCDFFile)
  : option IterationOutcome :=
  iterate_loop (S (length (remaining f))) p f.

(** The values by name that record [r] gives the evaluator. *)
Definition byName (ds : list XCDFFieldDescriptor) (r : Record_)
  : list (string * XCDFField) :=
  map (fun df => (fd_name (fst df), snd df)) (combine ds r).

(** Records with their ids, [k] being the id of the first. *)
Fixpoint numbered (k : Z) (rs : list Record_) : list (Z * Record_) :=
  match rs with
  | [] => []
  | r :: t => (k, r) :: numbered (k + 1) t
  end.

(** The tuple of all fields of record [r]. *)
Definition tupleOfRecord `{Externals} (r : Record_) : PyObject :=
  PyTuple (map (fun x => Some (slotOf x)) r).

(** Reference for one [next()]: the consultations up to the first record
    the evaluator accepts, and that record with its id and the records
    after it. *)
Fixpoint scan (ev : EventSelectExpression) (ds : list XCDFFieldDescriptor)
    (k : Z) (rs : list Record_)
  : list Consultation * option (Z * Record_ * list Record_) :=
  match rs with
  | [] => ([], None)
  | r :: t =>
      if ev (byName ds r) then ([(k, true)], Some (k, r, t))
      else let res := scan ev ds (k + 1) t in ((k, false) :: fst res, snd res)
  end.

(** Reference for a whole iteration over the records [rs], the first of
    which has id [k]: every record is put to the evaluator once, in order,
    and those it accepts are surfaced. *)
Definition consultationsOf (ev : EventSelectExpression)
    (ds : list XCDFFieldDescriptor) (k : Z) (rs : list Record_)
  : list Consultation :=
  map (fun jr => (fst jr, ev (byName ds (snd jr)))) (numbered k rs).

Definition acceptedOf (ev : EventSelectExpression)
    (ds : list XCDFFieldDescriptor) (k : Z) (rs : list Record_)
  : list (Z * Record_) :=
  filter (fun jr => ev (byName ds (snd jr))) (numbered k rs).

(** What the caller of [next()] receives for the record loaded in [f]. *)
Definition surfaced `{Externals} (p : XCDFRecordIterator) (f : XCDFFile)
  : PyObject :=
  match selectField_ p with
  | Some s => FieldsByNameSelector_GetTuple s f
  | None => recordTuple f
  end.

(** [PyArg_ParseTuple(args, "O|O", ...)]. *)
Definition parse_O_O (args : list PyObject)
  : option (PyObject * option PyObject) :=
  match args with
  | [a] => Some (a, None)
  | [a; b] => Some (a, Some b)
  | _ => None
  end.

(** [PyArg_ParseTuple(args, "OOO|O:addField", ...)]. *)
Definition parse_OOO_O (args : list PyObject)
  : option (PyObject * PyObject * PyObject * option PyObject) :=
  match args with
  | [a; b; c] => Some (a, b, c, None)
  | [a; b; c; d] => Some (a, b, c, Some d)
  | _ => None
  end.

(** [errMsg << "Invalid event number " << id]. *)
Definition invalidEventNumber (id : Z) : string :=
  "Invalid event number " ++ NilZero.string_of_uint (N.to_uint (Z.to_N id)).

(** [XCDFFile_getRecord]. *)
Definition XCDFFile_getRecord `{Externals} (self : pyxcdf_XCDFFile)
    (args : list PyObject) : PyResult * pyxcdf_XCDFFile :=
  match parse_O_O args with
  | None =>
      (PyRaise (PyExc_TypeError "getRecord(number [field CSV list])"), self)
  | Some (recordId, fields) =>
      match file_ self with
      | None => (PyRaise (PyExc_AttributeError "file: not open"), self)
      | Some f =>
          let id := PyInt_AsUnsignedLongLongMask recordId in
          match Seek f id with
          | Throw e =>
              (PyRaise (pyxcdf_XCDFException (GetMessage e)), self)
          | Ok (true, f1) =>
              match fields with
              | None =>
                  let result := recordTuple f1 in
                  (PyReturn result,
                   mkPyFile (filename_ self) (Some (Rewind f1)))
              | Some fl =>
                  match PyString_AsString fl with
                  | None =>
                      (PyUndefined, mkPyFile (filename_ self) (Some f1))
                  | Some csv =>
                      match FieldsByNameSelector_new csv f1 with
                      | Throw e =>
                          (PyRaise (pyxcdf_XCDFException (GetMessage e)),
                           mkPyFile (filename_ self) (Some f1))
                      | Ok selector =>
                          let result :=
                            FieldsByNameSelector_GetTuple selector f1 in
                          (PyReturn result,
                           mkPyFile (filename_ self) (Some (Rewind f1)))
                      end
                  end
              end
          | Ok (false, f1) =>
              (PyRaise (pyxcdf_XCDFException (invalidEventNumber id)),
               mkPyFile (filename_ self) (Some f1))
          end
      end
  end.

(** The [switch (ftype)] of [XCDFFile_addField]: the case a value
    selects, [None] for [default].  [ftype] is what
    [static_cast<XCDFFieldType>] makes of the C long, a value of the
    32-bit type under the enumeration: the caller gives it through
    [int_of], and an enumerator is met by its own 32-bit value. *)
Definition switchFieldType `{Externals} (ftype : Z) : option XCDFFieldType :=
  if ftype =? int_of (typeCode XCDF_UNSIGNED_INTEGER)
  then Some XCDF_UNSIGNED_INTEGER
  else if ftype =? int_of (typeCode XCDF_SIGNED_INTEGER)
  then Some XCDF_SIGNED_INTEGER
  else if ftype =? int_of (typeCode XCDF_FLOATING_POINT)
  then Some XCDF_FLOATING_POINT
  else None.

(** [char parent[80]] filled by [strcpy]: the parent's name, empty when
    the argument is absent; [None] when the argument is not a string or
    does not fit the buffer with its terminator. *)
Definition parentBuffer (pnam : option PyObject) : option string :=
  match pnam with
  | None => Some ""%string
  | Some o =>
      match PyString_AsString o with
      | None => None
      | Some s => if (String.length s <? 80)%nat then Some s else None
      end
  end.

(** The call of the engine in each case of the switch. *)
Definition allocateField `{Externals} (f : XCDFFile) (t : XCDFFieldType)
    (nameStr : string) (reso : PyObject) (parent : string) : Res XCDFFile :=
  match t with
  | XCDF_UNSIGNED_INTEGER =>
      let res := PyInt_AsUnsignedLongLongMask reso in
      AllocateUnsignedIntegerField f nameStr res parent
  | XCDF_SIGNED_INTEGER =>
      let res := PyInt_AsLong reso in
      AllocateSignedIntegerField f nameStr res parent
  | XCDF_FLOATING_POINT =>
      let res := PyFloat_AsDouble reso in
      AllocateFloatingPointField f nameStr res parent
  end.

(** The resolution the engine receives for a field of type [t]. *)
Definition resolutionOf (t : XCDFFieldType) (reso : PyObject) : Q :=
  match t with
  | XCDF_UNSIGNED_INTEGER => inject_Z (PyInt_AsUnsignedLongLongMask reso)
  | XCDF_SIGNED_INTEGER => inject_Z (PyInt_AsLong reso)
  | XCDF_FLOATING_POINT => PyFloat_AsDouble reso
  end.

(** What the conversion of the resolution leaves in the error indicator,
    for a field of type [t]. *)
Definition resolutionError (t : XCDFFieldType) (reso : PyObject)
  : option ConversionError :=
  match t with
  | XCDF_UNSIGNED_INTEGER => PyInt_AsUnsignedLongLongMask_error reso
  | XCDF_SIGNED_INTEGER => PyInt_AsLong_error reso
  | XCDF_FLOATING_POINT => PyFloat_AsDouble_error reso
  end.

(** The four reasons of section 4.1 for refusing a declaration. *)
Definition schemaErrorCondition (f : XCDFFile) (name : string)
    (t : XCDFFieldType) (res : Q) (parent : option string) : Prop :=
  nameUsed f name = true \/ parentOk f parent = false \/
  badResolution t res = true \/ recordCommitted f = true.

(** The registry with one more field at its end. *)
Definition withField (f : XCDFFile) (name : string) (t : XCDFFieldType)
    (res : Q) (parent : option string) : XCDFFile :=
  setFields f (fields_ f ++ [(mkDescriptor name t res parent, emptyField t)]).

(** [XCDFFile_addField].  None of the conversions is checked: [nameStr]
    is NULL for a name that is not a string, which matters only where it
    is handed to the engine, and whatever a failed conversion left in the
    error indicator is still there when the function returns [Py_True] or
    [Py_False].  An exception of the engine replaces it. *)
Definition XCDFFile_addField `{Externals} (self : pyxcdf_XCDFFile)
    (args : list PyObject) : PyResult * pyxcdf_XCDFFile :=
  match file_ self with
  | None => (PyRaise (PyExc_AttributeError "file: not open"), self)
  | Some f =>
      match parse_OOO_O args with
      | None =>
          (PyRaise (PyExc_TypeError
                      "addField(name, type, resolution, [parent name])"),
           self)
      | Some (name, type, reso, pnam) =>
          let nameStr := PyString_AsString name in
          let ftype := int_of (PyInt_AsLong type) in
          let pending :=
            latest (PyString_AsString_error name) (PyInt_AsLong_error type) in
          match parentBuffer pnam with
          | None => (PyUndefined, self)
          | Some parent =>
              match switchFieldType ftype with
              | Some t =>
                  match nameStr with
                  | None => (PyUndefined, self)
                  | Some nameStr =>
                      match allocateField f t nameStr reso parent with
                      | Throw e =>
                          (PyRaise (pyxcdf_XCDFException (GetMessage e)),
                           self)
                      | Ok f1 =>
                          (returnWith Py_True
                             (latest pending (resolutionError t reso)),
                           mkPyFile (filename_ self) (Some f1))
                      end
                  end
              | None => (returnWith Py_False pending, self)
              end
          end
      end
  end.

(* ===================================================================== *)
(** * Files as the write path leaves them                                 *)
(* ===================================================================== *)

Definition allRecords (f : XCDFFile) : list Record_ :=
  concat (map blk_records (blocks_ f)).

Definition countOk (b : Block) : bool :=
  Nat.eqb (blk_count b) (length (blk_records b)).

(** Modelled from the spec: the seek table as section 4.3 builds it, one
    entry per flushed block with the id of its first record and the place
    the block went to. *)
Fixpoint buildSeekTable (blocks : list Block) (first : Z) (off : nat)
  : list SeekEntry :=
  match blocks with
  | [] => []
  | b :: bs =>
      mkSeekEntry first off
        :: buildSeekTable bs (first + Z.of_nat (blk_count b)) (S off)
  end.

Definition SeekEntry_eqb (a b : SeekEntry) : bool :=
  (se_first a =? se_first b) && Nat.eqb (se_offset a) (se_offset b).

Fixpoint seekTable_eqb (a b : list SeekEntry) : bool :=
  match a, b with
  | [], [] => true
  | x :: a', y :: b' => SeekEntry_eqb x y && seekTable_eqb a' b'
  | _, _ => false
  end.

(** A finalized file: every block holds as many records as its header
    says, every record has one entry per declared field, the seek table
    and the record count (a 64-bit counter) are those of the blocks. *)
Definition wf_file (f : XCDFFile) : bool :=
  forallb countOk (blocks_ f)
  && forallb (fun r => Nat.eqb (length r) (length (fields_ f)))
             (allRecords f)
  && seekTable_eqb (seekTable_ f) (buildSeekTable (blocks_ f) 0 0)
  && (eventCount_ f =? Z.of_nat (length (allRecords f)))
  && (eventCount_ f <? UINT64_MOD).

(** The records of [rest] from position [pos] of its first block on. *)
Definition restRecords (rest : list Block) (pos : nat) : list Record_ :=
  match rest with
  | [] => []
  | blk :: rest' =>
      skipn pos (blk_records blk) ++ concat (map blk_records rest')
  end.

(** The part of well-formedness that reading relies on. *)
Definition readable (f : XCDFFile) : Prop :=
  forallb countOk (blocks_ f) = true /\
  forallb (fun r => Nat.eqb (length r) (length (fields_ f))) (allRecords f)
    = true.

(** Same store, same schema: what a move of the cursor keeps. *)
Definition sameStore (f f' : XCDFFile) : Prop :=
  blocks_ f' = blocks_ f /\ seekTable_ f' = seekTable_ f /\
  eventCount_ f' = eventCount_ f /\ descriptors f' = descriptors f.

(** The cursor stands before record [k]: the records ahead are those from
    [k] on and the record last loaded was number [k - 1]. *)
Definition atPos (f : XCDFFile) (k : nat) : Prop :=
  remaining f = skipn k (allRecords f) /\ eventNumber_ f = Z.of_nat k - 1.

(** Records held by the first [k] blocks. *)
Definition countBefore (bs : list Block) (k : nat) : nat :=
  length (concat (map blk_records (firstn k bs))).

(** The file after a successful [Read] that found record [r] at [b], [pos]. *)
Definition afterRead (f : XCDFFile) (b pos : nat) (r : Record_) : XCDFFile :=
  setFields (setCursor f b pos (eventNumber_ f + 1))
            (combine (descriptors f) r).

(* ===================================================================== *)
(** * A small file and stand-ins for the collaborators                    *)
(* ===================================================================== *)

Definition sample_xcdf2python (fld : XCDFField) : PyObject :=
  match fld with
  | UnsignedField [v] => PyInt v
  | SignedField [v] => PyInt v
  | FloatingPointField [v] => PyFloat v
  | UnsignedField vs => PyTuple (map (fun v => Some (PyInt v)) vs)
  | SignedField vs => PyTuple (map (fun v => Some (PyInt v)) vs)
  | FloatingPointField vs => PyTuple (map (fun v => Some (PyFloat v)) vs)
  end.

(** A selector for one field name. *)
Definition sample_selector_new (csv : string) (f : XCDFFile) : Res string :=
  if nameUsed f csv then Ok csv else Throw SchemaError.

Definition sample_selector_GetTuple (nm : string) (f : XCDFFile) : PyObject :=
  PyTuple
    (map (fun nv => Some (sample_xcdf2python (snd nv)))
         (filter (fun nv => String.eqb (fst nv) nm) (currentByName f))).

Definition sample_typeCode (t : XCDFFieldType) : Z :=
  match t with
  | XCDF_UNSIGNED_INTEGER => 0
  | XCDF_SIGNED_INTEGER => 1
  | XCDF_FLOATING_POINT => 2
  end.

Definition sampleExternals : Externals :=
  Build_Externals sample_xcdf2python string sample_selector_new
                  sample_selector_GetTuple sample_typeCode.

Definition nhit : XCDFFieldDescriptor :=
  mkDescriptor "nhit" XCDF_UNSIGNED_INTEGER 1 None.

Definition pe : XCDFFieldDescriptor :=
  mkDescriptor "pe" XCDF_FLOATING_POINT (1 # 100) (Some "nhit"%string).

Definition sampleRecords : list Record_ :=
  [ [UnsignedField [3]; FloatingPointField [111 # 100; 222 # 100; 333 # 100]];
    [UnsignedField [0]; FloatingPointField []];
    [UnsignedField [1]; FloatingPointField [1 # 2]] ].

(** Three records in two blocks, opened for reading, cursor at the
    start. *)
Definition sampleFile : XCDFFile :=
  mkFile [(nhit, UnsignedField []); (pe, FloatingPointField [])]
         [mkBlock 2 (firstn 2 sampleRecords); mkBlock 1 (skipn 2 sampleRecords)]
         [mkSeekEntry 0 0; mkSeekEntry 2 1]
         3 0 0 (-1) OpenForRead.

(** The sample file with record [i] loaded by [Seek]. *)
Definition loadedSample (i : Z) : XCDFFile :=
  match Seek sampleFile i with
  | Ok (_, f) => f
  | Throw _ => sampleFile
  end.

Definition samplePyFile : pyxcdf_XCDFFile :=
  mkPyFile (PyString "sample.xcd") (Some sampleFile).

(** A file opened for writing, nothing declared or committed yet. *)
Definition emptyFile : XCDFFile :=
  mkFile [] [] [] 0 0 0 (-1) OpenForWrite.

Definition emptyPyFile : pyxcdf_XCDFFile :=
  mkPyFile (PyString "new.xcd") (Some emptyFile).

(** Selection on the sample: records with at least one hit. *)
Definition sampleSelect : EventSelectExpression :=
  fun vals =>
    match vals with
    | (_, UnsignedField [n]) :: _ => 0 <? n
    | _ => false
    end.

(* ===================================================================== *)
(** * src/pybindings/PyXCDF.cc: the getters, the field iterator and the   *)
(** * method [records] in full                                            *)
(* ===================================================================== *)

(** [Py_BuildValue("l", v)]: the value as a C long. *)
Definition long_of (z : Z) : Z := (z - LONG_MIN) mod 2 ^ 64 + LONG_MIN.

(** [XCDFFile_getfilename]. *)
Definition XCDFFile_getfilename (self : pyxcdf_XCDFFile) : PyResult :=
  PyReturn (filename_ self).

(** [XCDFFile_getcount]; [file_] is dereferenced without a test. *)
Definition XCDFFile_getcount (self : pyxcdf_XCDFFile) : PyResult :=
  match file_ self with
  | None => PyUndefined
  | Some f => PyReturn (PyInt (long_of (GetEventCount f)))
  end.

(** [XCDFFile_getnfields]; [file_] is dereferenced without a test. *)
Definition XCDFFile_getnfields (self : pyxcdf_XCDFFile) : PyResult :=
  match file_ self with
  | None => PyUndefined
  | Some f => PyReturn (PyInt (long_of (GetNFields f)))
  end.

(** [XCDFFieldIterator]; as for the record iterator, its [file_] is the
    file passed along and its counters are C [int]s.  The members keep
    their names, inside a module since the record iterator has the same. *)
Module XCDFFieldIterator.
Record t `{Externals} : Type := make {
  iCurrent_ : Z;
  iTotal_ : Z;
  selector_ : option FieldsByNameSelector
}.
End XCDFFieldIterator.

Record FieldNextOutcome `{Externals} : Type := mkFieldOutcome {
  fo_result : PyResult;
  fo_iter : XCDFFieldIterator.t;
  fo_file : XCDFFile
}.

(** [XCDFFieldIterator_iternext]; [selector_] is NULL in an iterator that
    did not come from [fields]. *)
Definition XCDFFieldIterator_iternext `{Externals} (p : XCDFFieldIterator.t)
    (f : XCDFFile) : FieldNextOutcome :=
  if XCDFFieldIterator.iCurrent_ p <? XCDFFieldIterator.iTotal_ p then
    match Read f with
    | Throw e =>
        mkFieldOutcome _ (PyRaise (pyxcdf_XCDFException (GetMessage e))) p f
    | Ok (n, f1) =>
        if 0 <? n then
          let p1 :=
            XCDFFieldIterator.make _ (int_of (GetCurrentEventNumber f1))
              (XCDFFieldIterator.iTotal_ p) (XCDFFieldIterator.selector_ p) in
          if XCDFFieldIterator.iCurrent_ p1 <? 0 then
            mkFieldOutcome _ (PyRaise PyExc_StopIteration) p1 f1
          else
            match XCDFFieldIterator.selector_ p1 with
            | Some s =>
                mkFieldOutcome _
                  (PyReturn (FieldsByNameSelector_GetTuple s f1)) p1 f1
            | None => mkFieldOutcome _ PyUndefined p1 f1
            end
        else mkFieldOutcome _ (PyRaise PyExc_StopIteration) p (Rewind f1)
    end
  else mkFieldOutcome _ (PyRaise PyExc_StopIteration) p (Rewind f).

(** What a method that makes an iterator hands back. *)
Inductive NewIterator (A : Type) : Type :=
| IterOk (it : A)
| IterRaise (e : PyErr)
| IterUndefined.
Arguments IterOk {A} it.
Arguments IterRaise {A} e.
Arguments IterUndefined {A}.

(** [XCDFField_iterator], the method [fields] (one argument, [METH_O]). *)
Definition XCDFField_iterator `{Externals} (self : pyxcdf_XCDFFile)
    (fieldName : PyObject) : NewIterator XCDFFieldIterator.t :=
  match file_ self with
  | None => IterRaise (PyExc_AttributeError "file: not open")
  | Some f =>
      match PyString_AsString fieldName with
      | None => IterUndefined
      | Some csv =>
          match FieldsByNameSelector_new csv f with
          | Throw e => IterRaise (pyxcdf_XCDFException (GetMessage e))
          | Ok s =>
              IterOk (XCDFFieldIterator.make _ 0 (int_of (GetEventCount f))
                                             (Some s))
          end
      end
  end.

(** A whole iteration over fields as the interpreter drives it. *)
Record FieldIterationOutcome `{Externals} : Type := mkFieldIteration {
  fit_yielded : list (Z * PyObject);
  fit_end : PyResult;
  fit_iter : XCDFFieldIterator.t;
  fit_file : XCDFFile
}.

Fixpoint iterateFields_loop `{Externals} (fuel : nat)
    (p : XCDFFieldIterator.t) (f : XCDFFile) : option FieldIterationOutcome :=
  match fuel with
  | O => None
  | S fuel' =>
      let o := XCDFFieldIterator_iternext p f in
      match fo_result o with
      | PyReturn t =>
          match iterateFields_loop fuel' (fo_iter o) (fo_file o) with
          | None => None
          | Some r =>
              Some (mkFieldIteration _
                      ((XCDFFieldIterator.iCurrent_ (fo_iter o), t)
                         :: fit_yielded r)
                      (fit_end r) (fit_iter r) (fit_file r))
          end
      | other => Some (mkFieldIteration _ [] other (fo_iter o) (fo_file o))
      end
  end.

Definition iterateFields `{Externals} (p : XCDFFieldIterator.t)
    (f : XCDFFile) : option FieldIterationOutcome :=
  iterateFields_loop (S (length (remaining f))) p f.

(** The record iterator with the same counters and selector and the
    default selection. *)
Definition asRecordIterator `{Externals} (p : XCDFFieldIterator.t)
  : XCDFRecordIterator :=
  mkIterator _ (XCDFFieldIterator.iCurrent_ p) (XCDFFieldIterator.iTotal_ p)
             (XCDFFieldIterator.selector_ p) selectAll.

(** The constructor of the selection evaluator, declared with the engine
    ([utility/EventSelectExpression.h]); it throws on an expression it
    cannot read. *)
Class SelectionParser : Type := {
  EventSelectExpression_new : string -> XCDFFile -> Res EventSelectExpression
}.

(** [PyArg_ParseTupleAndKeywords(args, kwargs, "|OO", {"select", "fields"},
    ...)]: at most two arguments by position, the others by one of the two
    names, none given twice. *)
Definition kwArg (kwargs : list (string * PyObject)) (key : string)
  : option PyObject :=
  match find (fun kv => String.eqb (fst kv) key) kwargs with
  | Some kv => Some (snd kv)
  | None => None
  end.

Definition parse_kw_OO (args : list PyObject)
    (kwargs : list (string * PyObject))
  : option (option PyObject * option PyObject) :=
  if forallb (fun kv => String.eqb (fst kv) "select"
                        || String.eqb (fst kv) "fields") kwargs
  then
    match args, kwArg kwargs "select", kwArg kwargs "fields" with
    | [], s, fl => Some (s, fl)
    | [a], None, fl => Some (Some a, fl)
    | [a; b], None, None => Some (Some a, Some b)
    | _, _, _ => None
    end
  else None.

(** The text of the [TypeError] of [records], with the word [expression]
    between double quotes. *)
Definition recordsUsage : string :=
  "records([select=" ++ String (Ascii.ascii_of_nat 34) "expression"
  ++ String (Ascii.ascii_of_nat 34) "])".

(** [XCDFRecord_iterator] in full, the method [records]: the parsing of
    its arguments and the two constructors around the assignments modelled
    above.  The selection defaults to the expression [true]; the evaluator
    is built before the selector. *)
Definition pyxcdf_records `{Externals} `{SelectionParser}
    (self : pyxcdf_XCDFFile) (args : list PyObject)
    (kwargs : list (string * PyObject)) : NewIterator XCDFRecordIterator :=
  match file_ self with
  | None => IterRaise (PyExc_AttributeError "file: not open")
  | Some f =>
      match parse_kw_OO args kwargs with
      | None => IterRaise (PyExc_TypeError recordsUsage)
      | Some (select, fields) =>
          let selectExpression :=
            match select with
            | None => Some "true"%string
            | Some o => PyString_AsString o
            end in
          match selectExpression with
          | None => IterUndefined
          | Some expr =>
              match EventSelectExpression_new expr f with
              | Throw e => IterRaise (pyxcdf_XCDFException (GetMessage e))
              | Ok ev =>
                  match fields with
                  | None => IterOk (XCDFRecord_iterator f ev None)
                  | Some fl =>
                      match PyString_AsString fl with
                      | None => IterUndefined
                      | Some csv =>
                          match FieldsByNameSelector_new csv f with
                          | Throw e =>
                              IterRaise
                                (pyxcdf_XCDFException (GetMessage e))
                          | Ok s => IterOk (XCDFRecord_iterator f ev (Some s))
                          end
                      end
                  end
              end
          end
      end
  end.

(** Calls of [getRecord] one after the other on the same object. *)
Fixpoint getRecords `{Externals} (self : pyxcdf_XCDFFile) (ids : list Z)
  : list PyResult * pyxcdf_XCDFFile :=
  match ids with
  | [] => ([], self)
  | i :: rest =>
      let r := XCDFFile_getRecord self [PyInt i] in
      let rs := getRecords (snd r) rest in
      (fst r :: fst rs, snd rs)
  end.

(** Calls of [addField] one after the other on the same object. *)
Fixpoint addFields `{Externals} (self : pyxcdf_XCDFFile)
    (calls : list (list PyObject)) : list PyResult * pyxcdf_XCDFFile :=
  match calls with
  | [] => ([], self)
  | args :: rest =>
      let r := XCDFFile_addField self args in
      let rs := addFields (snd r) rest in
      (fst r :: fst rs, snd rs)
  end.

(** Whether a call returned [True], with the error indicator clear or
    not. *)
Definition returnedTrue (r : PyResult) : bool :=
  match r with
  | PyReturn Py_True => true
  | PyReturnWithError Py_True _ => true
  | _ => false
  end.

(** A parser for the samples: the two constants. *)
Definition sampleParser : SelectionParser :=
  Build_SelectionParser
    (fun expr _ =>
       if String.eqb expr "true" then Ok selectAll
       else if String.eqb expr "false" then Ok (fun _ => false)
       else Throw SchemaError).

(** Three fields for a setter of two slots. *)
Definition threeFields : list XCDFField :=
  [UnsignedField [7]; FloatingPointField []; SignedField [-1]].

(** A finalized file of [n] records in one block, each with one hit. *)
Definition manyRecords (n : nat) : XCDFFile :=
  mkFile [(nhit, UnsignedField [])]
         [mkBlock n (repeat [UnsignedField [1]] n)]
         [mkSeekEntry 0 0]
         (Z.of_nat n) 0 0 (-1) OpenForRead.

(** One record more than a C [int] counts. *)
Definition beyondInt : nat := Z.to_nat (INT_MAX + 1).

Definition manyRecordsPyFile : pyxcdf_XCDFFile :=
  mkPyFile (PyString "many.xcd") (Some (manyRecords beyondInt)).

(** A finalized file with one field and no record, open for reading. *)
Definition emptyReadFile : XCDFFile :=
  mkFile [(nhit, UnsignedField [])] [] [] 0 0 0 (-1) OpenForRead.

(** The sample file opened for appending: its records are committed. *)
Definition appendFile : XCDFFile :=
  mkFile (fields_ sampleFile) (blocks_ sampleFile) (seekTable_ sampleFile)
         3 0 0 (-1) OpenForAppend.

(* ===================================================================== *)
(** * Lists                                                               *)
(* ===================================================================== *)

Lemma skipn_nth_error_cons (A : Type) (l : list A) (n : nat) (x : A) :
  nth_error l n = Some x -> skipn n l = x :: skipn (S n) l.
Proof.
  revert n; induction l as [|a l IH]; intros [|n] Hn; simpl in *;
    try discriminate.
  - now inversion Hn.
  - now apply IH.
Qed.

Lemma skipn_nth_error_nil (A : Type) (l : list A) (n : nat) :
  nth_error l n = None -> skipn n l = [].
Proof.
  intros Hn. apply skipn_all2. now apply nth_error_None.
Qed.

Lemma forallb_skipn (A : Type) (p : A -> bool) (n : nat) (l : list A) :
  forallb p l = true -> forallb p (skipn n l) = true.
Proof.
  revert l; induction n as [|n IH]; intros [|a l] H; simpl in *; auto.
  apply andb_true_iff in H. now apply IH.
Qed.

Lemma map_fst_combine_same (A B : Type) (l : list A) (l' : list B) :
  length l' = length l -> map fst (combine l l') = l.
Proof.
  revert l'; induction l as [|a l IH]; intros [|b l'] H; simpl in *;
    try discriminate; auto.
  f_equal. apply IH. lia.
Qed.

Lemma map_snd_combine_same (A B : Type) (l : list A) (l' : list B) :
  length l' = length l -> map snd (combine l l') = l'.
Proof.
  revert l'; induction l as [|a l IH]; intros [|b l'] H; simpl in *;
    try discriminate; auto.
  f_equal. apply IH. lia.
Qed.

Lemma set_nth_app (A : Type) (l1 l2 : list A) (y x : A) :
  set_nth (l1 ++ y :: l2) (length l1) x = l1 ++ x :: l2.
Proof.
  induction l1 as [|a l1 IH]; simpl; auto. now rewrite IH.
Qed.

(* ===================================================================== *)
(** * Sequential reading                                                  *)
(* ===================================================================== *)

Lemma restRecords_0 (rest : list Block) :
  restRecords rest 0 = concat (map blk_records rest).
Proof. destruct rest; reflexivity. Qed.

Lemma remaining_restRecords (f : XCDFFile) :
  remaining f = restRecords (skipn (blockIndex_ f) (blocks_ f)) (posInBlock_ f).
Proof. reflexivity. Qed.

Lemma nextRecord_spec (rest : list Block) :
  forall b pos,
    forallb countOk rest = true ->
    match restRecords rest pos with
    | [] => nextRecord rest b pos = Ok None
    | r :: tl =>
        exists b' pos',
          nextRecord rest b pos = Ok (Some (b', pos', r)) /\
          restRecords (skipn (b' - b) rest) pos' = tl /\ (b <= b')%nat
    end.
Proof.
  induction rest as [|blk rest IH]; intros b pos Hc; simpl in *; auto.
  apply andb_true_iff in Hc. destruct Hc as [Hc1 Hc].
  unfold countOk in Hc1. rewrite Hc1.
  destruct (nth_error (blk_records blk) pos) as [r|] eqn:Hn.
  - rewrite (skipn_nth_error_cons _ _ _ _ Hn). simpl.
    exists b, (S pos). rewrite Nat.sub_diag. simpl. auto.
  - rewrite (skipn_nth_error_nil _ _ _ Hn). simpl.
    specialize (IH (S b) 0%nat Hc). rewrite restRecords_0 in IH.
    destruct (concat (map blk_records rest)) as [|r tl]; auto.
    destruct IH as (b' & pos' & H1 & H2 & H3).
    exists b', pos'. split; [assumption|]. split; [|lia].
    replace (b' - b)%nat with (S (b' - S b)) by lia. exact H2.
Qed.

Lemma restRecords_incl (rest : list Block) (pos : nat) (r : Record_) :
  In r (restRecords rest pos) -> In r (concat (map blk_records rest)).
Proof.
  destruct rest as [|blk rest]; simpl; auto.
  intros H. apply in_app_or in H. apply in_or_app.
  destruct H as [H|H]; auto. left.
  rewrite <- (firstn_skipn pos). apply in_or_app. now right.
Qed.

Lemma concat_skipn_incl (bs : list Block) (n : nat) (r : Record_) :
  In r (concat (map blk_records (skipn n bs))) ->
  In r (concat (map blk_records bs)).
Proof.
  intros H. rewrite <- (firstn_skipn n bs), map_app, concat_app.
  apply in_or_app. now right.
Qed.

Lemma remaining_incl (f : XCDFFile) (r : Record_) :
  In r (remaining f) -> In r (allRecords f).
Proof.
  intros H. rewrite remaining_restRecords in H.
  apply restRecords_incl in H. now apply concat_skipn_incl in H.
Qed.

Lemma sameStore_refl (f : XCDFFile) : sameStore f f.
Proof. repeat split. Qed.

Lemma sameStore_trans (f g h : XCDFFile) :
  sameStore f g -> sameStore g h -> sameStore f h.
Proof.
  unfold sameStore. intros (A & B & C & D) (A' & B' & C' & D').
  repeat split; congruence.
Qed.

Lemma descriptors_length (f : XCDFFile) :
  length (descriptors f) = length (fields_ f).
Proof. unfold descriptors. apply length_map. Qed.

Lemma sameStore_fields_length (f f' : XCDFFile) :
  sameStore f f' -> length (fields_ f') = length (fields_ f).
Proof.
  intros (_ & _ & _ & D). rewrite <- !descriptors_length. now rewrite D.
Qed.

Lemma readable_sameStore (f f' : XCDFFile) :
  readable f -> sameStore f f' -> readable f'.
Proof.
  intros [R1 R2] S. pose proof (sameStore_fields_length _ _ S) as L.
  destruct S as (B & _ & _ & _). unfold readable, allRecords in *.
  rewrite B, L. auto.
Qed.

Lemma wf_file_readable (f : XCDFFile) : wf_file f = true -> readable f.
Proof.
  unfold wf_file. intros H. repeat (apply andb_true_iff in H; destruct H as [H ?]).
  split; assumption.
Qed.

Lemma wf_file_sameStore (f f' : XCDFFile) :
  wf_file f = true -> sameStore f f' -> wf_file f' = true.
Proof.
  intros W S. pose proof (sameStore_fields_length _ _ S) as L.
  destruct S as (B & T & C & _). unfold wf_file, allRecords in *.
  rewrite B, T, C, L. exact W.
Qed.

Lemma afterRead_sameStore (f : XCDFFile) (b pos : nat) (r : Record_) :
  length r = length (fields_ f) -> sameStore f (afterRead f b pos r).
Proof.
  intros L. repeat split. unfold descriptors at 1. simpl.
  apply map_fst_combine_same. now rewrite descriptors_length.
Qed.

Lemma Read_spec (f : XCDFFile) :
  readable f ->
  match remaining f with
  | [] => Read f = Ok (0, f)
  | r :: tl =>
      exists b pos,
        Read f = Ok (1, afterRead f b pos r) /\
        remaining (afterRead f b pos r) = tl /\
        length r = length (fields_ f)
  end.
Proof.
  intros [R1 R2].
  pose proof (nextRecord_spec (skipn (blockIndex_ f) (blocks_ f))
                (blockIndex_ f) (posInBlock_ f)
                (forallb_skipn _ _ _ _ R1)) as H.
  pose proof (remaining_incl f) as Hin.
  rewrite remaining_restRecords in *.
  destruct (restRecords (skipn (blockIndex_ f) (blocks_ f)) (posInBlock_ f))
    as [|r tl] eqn:E.
  - unfold Read. rewrite H. reflexivity.
  - destruct H as (b & pos & H1 & H2 & H3).
    assert (L : length r = length (fields_ f)).
    { rewrite forallb_forall in R2. apply Nat.eqb_eq, R2, Hin. now left. }
    exists b, pos. unfold Read. rewrite H1. simpl.
    rewrite (proj2 (Nat.eqb_eq _ _) L). split; [reflexivity|].
    split; [|exact L].
    unfold remaining. simpl. rewrite skipn_skipn in H2.
    replace (b - blockIndex_ f + blockIndex_ f)%nat with b in H2 by lia.
    exact H2.
Qed.

Lemma skipn_tail (A : Type) (l : list A) (k : nat) (x : A) (t : list A) :
  skipn k l = x :: t -> skipn (S k) l = t /\ nth_error l k = Some x.
Proof.
  revert k; induction l as [|a l IH]; intros [|k] H; simpl in *;
    try discriminate.
  - inversion H. auto.
  - now apply IH.
Qed.

Lemma skipn_nonempty (A : Type) (l : list A) (k : nat) :
  (k < length l)%nat -> exists x t, skipn k l = x :: t.
Proof.
  intros H. destruct (skipn k l) as [|x t] eqn:E; eauto.
  pose proof (length_skipn k l) as L. rewrite E in L. simpl in L. lia.
Qed.

Lemma atPos_afterRead (f : XCDFFile) (k b pos : nat) (r : Record_)
    (tl : list Record_) :
  atPos f k -> remaining f = r :: tl ->
  remaining (afterRead f b pos r) = tl ->
  atPos (afterRead f b pos r) (S k) /\ nth_error (allRecords f) k = Some r.
Proof.
  intros [P1 P2] Hr Ha. rewrite P1 in Hr.
  destruct (skipn_tail _ _ _ _ _ Hr) as [T N].
  split; [|exact N]. split.
  - rewrite Ha. symmetry. exact T.
  - change (eventNumber_ (afterRead f b pos r)) with (eventNumber_ f + 1).
    rewrite P2. lia.
Qed.

(** [n] records read in a row from position [k]. *)
Lemma advance_spec (n : nat) :
  forall (f : XCDFFile) (k : nat),
    readable f -> atPos f k ->
    (k + n <= length (allRecords f))%nat ->
    exists f',
      advance n f = Ok f' /\ sameStore f f' /\ atPos f' (k + n) /\
      ((0 < n)%nat ->
       exists r, nth_error (allRecords f) (k + n - 1) = Some r /\
                 fields_ f' = combine (descriptors f) r /\
                 length r = length (fields_ f)).
Proof.
  induction n as [|n IH]; intros f k R P L.
  - exists f. rewrite Nat.add_0_r.
    split; [reflexivity|]. split; [apply sameStore_refl|].
    split; [exact P|]. intros H; inversion H.
  - pose proof (Read_spec f R) as HR.
    assert (K : (k < length (allRecords f))%nat) by lia.
    destruct (skipn_nonempty _ (allRecords f) k K) as (r & tl & E).
    assert (Hrem : remaining f = r :: tl) by (rewrite (proj1 P); exact E).
    rewrite Hrem in HR. destruct HR as (b & pos & H1 & H2 & H3).
    destruct (atPos_afterRead f k b pos r tl P Hrem H2) as [P' N].
    pose proof (afterRead_sameStore f b pos r H3) as S1.
    pose proof (readable_sameStore _ _ R S1) as R'.
    assert (A : allRecords (afterRead f b pos r) = allRecords f) by reflexivity.
    destruct (IH (afterRead f b pos r) (S k) R' P') as (f' & I1 & I2 & I3 & I4).
    { rewrite A. lia. }
    exists f'. simpl. rewrite H1. simpl. split; [exact I1|].
    split; [eapply sameStore_trans; eauto|].
    split; [now replace (k + S n)%nat with (S k + n)%nat by lia|].
    intros _. destruct n as [|n].
    + simpl in I1. inversion I1; subst f'.
      exists r. replace (k + 1 - 1)%nat with k by lia. auto.
    + destruct (I4 ltac:(lia)) as (r' & J1 & J2 & J3).
      exists r'. rewrite A in J1.
      replace (k + S (S n) - 1)%nat with (S k + S n - 1)%nat by lia.
      split; [exact J1|]. split.
      * rewrite J2. f_equal. apply S1.
      * rewrite J3. now apply sameStore_fields_length.
Qed.

(* ===================================================================== *)
(** * The seek table and random access                                    *)
(* ===================================================================== *)

Lemma bsearch_spec (tbl : list SeekEntry) (id : Z) (fuel : nat) :
  forall lo hi,
    (lo < hi <= length tbl)%nat ->
    firstAt tbl lo <= id ->
    let r := bsearch fuel tbl id lo hi in
    (lo <= r < hi)%nat /\ firstAt tbl r <= id /\
    ((hi - lo <= fuel)%nat ->
     ((hi < length tbl)%nat -> id < firstAt tbl hi) ->
     (S r < length tbl)%nat -> id < firstAt tbl (S r)).
Proof.
  induction fuel as [|fuel IH]; intros lo hi B L; cbn [bsearch].
  - split; [lia|]. split; [exact L|]. intros F; lia.
  - destruct (Nat.leb_spec (hi - lo) 1) as [D|D].
    + split; [lia|]. split; [exact L|].
      intros _ U Sr. replace (S lo) with hi in * by lia. auto.
    + assert (M : (lo < (lo + hi) / 2 < hi)%nat).
      { pose proof (Nat.div_mod_eq (lo + hi) 2) as Q.
        pose proof (Nat.mod_upper_bound (lo + hi) 2 ltac:(lia)). lia. }
      destruct (Z.leb_spec (firstAt tbl ((lo + hi) / 2)) id) as [C|C].
      * assert (B' : ((lo + hi) / 2 < hi <= length tbl)%nat) by lia.
        destruct (IH ((lo + hi) / 2)%nat hi B' C) as (A1 & A2 & A3).
        split; [lia|]. split; [exact A2|].
        intros F U Sr. apply A3; auto. lia.
      * assert (B' : (lo < (lo + hi) / 2 <= length tbl)%nat) by lia.
        destruct (IH lo ((lo + hi) / 2)%nat B' L) as (A1 & A2 & A3).
        split; [lia|]. split; [exact A2|].
        intros F U Sr. apply A3; auto. lia.
Qed.

Lemma seekTable_eqb_eq (a : list SeekEntry) :
  forall b, seekTable_eqb a b = true -> a = b.
Proof.
  induction a as [|x a IH]; intros [|y b] H; simpl in *; try discriminate; auto.
  apply andb_true_iff in H. destruct H as [H1 H2].
  unfold SeekEntry_eqb in H1. apply andb_true_iff in H1. destruct H1 as [F O].
  apply Z.eqb_eq in F. apply Nat.eqb_eq in O.
  destruct x, y; simpl in *; subst. f_equal. now apply IH.
Qed.

Lemma buildSeekTable_length (bs : list Block) :
  forall first off, length (buildSeekTable bs first off) = length bs.
Proof.
  induction bs as [|b bs IH]; intros; simpl; auto.
Qed.

Lemma buildSeekTable_nth (bs : list Block) :
  forall first off k e,
    forallb countOk bs = true ->
    nth_error (buildSeekTable bs first off) k = Some e ->
    se_first e = first + Z.of_nat (countBefore bs k) /\
    se_offset e = (off + k)%nat.
Proof.
  induction bs as [|b bs IH]; intros first off k e C H.
  - destruct k; discriminate.
  - simpl in C. apply andb_true_iff in C. destruct C as [C1 C].
    destruct k as [|k]; simpl in H.
    + inversion H; subst e. simpl. unfold countBefore. simpl. split; lia.
    + destruct (IH _ _ _ _ C H) as [A1 A2]. split; [|lia].
      rewrite A1. unfold countBefore. simpl. rewrite length_app.
      unfold countOk in C1. apply Nat.eqb_eq in C1. lia.
Qed.

Lemma skipn_countBefore (bs : list Block) (k : nat) :
  skipn (countBefore bs k) (concat (map blk_records bs))
  = concat (map blk_records (skipn k bs)).
Proof.
  unfold countBefore.
  rewrite <- (firstn_skipn k bs) at 2. rewrite map_app, concat_app.
  rewrite skipn_app, Nat.sub_diag, skipn_all. reflexivity.
Qed.

Lemma countBefore_le (bs : list Block) (k : nat) :
  (countBefore bs k <= length (concat (map blk_records bs)))%nat.
Proof.
  unfold countBefore.
  rewrite <- (firstn_skipn k bs) at 2. rewrite map_app, concat_app, length_app.
  lia.
Qed.

(** What well-formedness says, spelled out. *)
Lemma wf_file_inv (f : XCDFFile) :
  wf_file f = true ->
  readable f /\ seekTable_ f = buildSeekTable (blocks_ f) 0 0 /\
  eventCount_ f = Z.of_nat (length (allRecords f)) /\
  eventCount_ f < UINT64_MOD.
Proof.
  intros W. split; [now apply wf_file_readable|].
  unfold wf_file in W.
  repeat (apply andb_true_iff in W; destruct W as [W ?]).
  split; [now apply seekTable_eqb_eq|]. split; [now apply Z.eqb_eq|].
  now apply Z.ltb_lt.
Qed.

Lemma setCursor_sameStore (f : XCDFFile) (b pos : nat) (ev : Z) :
  sameStore f (setCursor f b pos ev).
Proof. repeat split. Qed.

Lemma atPos_blockStart (f : XCDFFile) (j : nat) :
  atPos (setCursor f j 0 (Z.of_nat (countBefore (blocks_ f) j) - 1))
        (countBefore (blocks_ f) j).
Proof.
  split; [|reflexivity].
  unfold remaining, allRecords. simpl.
  rewrite skipn_countBefore.
  destruct (skipn j (blocks_ f)); reflexivity.
Qed.

(** On a well-formed file the search ends on the block that holds the
    record: its first id is at most [id] and the next block starts beyond
    [id]. *)
Lemma findBlock_holds_record (f : XCDFFile) (id : Z) :
  wf_file f = true -> 0 <= id < eventCount_ f ->
  let j := findBlock (seekTable_ f) id in
  (j < length (blocks_ f))%nat /\
  Z.of_nat (countBefore (blocks_ f) j) <= id
  < Z.of_nat (countBefore (blocks_ f) (S j)).
Proof.
  intros W [I0 I1] j. destruct (wf_file_inv f W) as (R & T & C & _).
  assert (L : length (seekTable_ f) = length (blocks_ f))
    by (rewrite T; apply buildSeekTable_length).
  assert (FA : forall k, (k < length (blocks_ f))%nat ->
                         firstAt (seekTable_ f) k
                         = Z.of_nat (countBefore (blocks_ f) k)).
  { intros k Hk. unfold firstAt.
    destruct (nth_error (seekTable_ f) k) as [e|] eqn:E.
    - rewrite T in E. apply buildSeekTable_nth in E; [|apply R].
      destruct E as [E _]. rewrite E. lia.
    - apply nth_error_None in E. lia. }
  assert (NE : (0 < length (blocks_ f))%nat).
  { destruct (blocks_ f) eqn:E; simpl; [|lia].
    unfold allRecords in C. rewrite E in C. simpl in C. lia. }
  assert (B : (0 < length (seekTable_ f) <= length (seekTable_ f))%nat)
    by lia.
  assert (F0 : firstAt (seekTable_ f) 0 <= id).
  { rewrite FA by lia. unfold countBefore. simpl. lia. }
  destruct (bsearch_spec (seekTable_ f) id (length (seekTable_ f)) 0
              (length (seekTable_ f)) B F0) as (B1 & B2 & B3).
  fold (findBlock (seekTable_ f) id) in B1, B2, B3. fold j in B1, B2, B3.
  split; [lia|]. rewrite <- FA by lia. split; [exact B2|].
  destruct (Nat.lt_ge_cases (S j) (length (blocks_ f))) as [H|H].
  - rewrite <- FA by lia. apply B3; lia.
  - unfold countBefore. rewrite firstn_all2 by lia.
    unfold allRecords in C. lia.
Qed.

(** An id outside the file: [Seek] says no and the file is as it was. *)
Lemma Seek_out_of_range (f : XCDFFile) (id : Z) :
  id < 0 \/ eventCount_ f <= id -> Seek f id = Ok (false, f).
Proof.
  intros H. unfold Seek.
  replace ((id <? 0) || (eventCount_ f <=? id)) with true; [reflexivity|].
  symmetry. apply orb_true_iff.
  destruct H; [left; now apply Z.ltb_lt | right; now apply Z.leb_le].
Qed.

(** An id inside a well-formed file: [Seek] loads that record and leaves
    the cursor right after it. *)
Lemma Seek_spec (f : XCDFFile) (id : Z) :
  wf_file f = true -> 0 <= id < eventCount_ f ->
  exists f' r,
    Seek f id = Ok (true, f') /\ sameStore f f' /\
    atPos f' (Z.to_nat id + 1) /\
    nth_error (allRecords f) (Z.to_nat id) = Some r /\
    fields_ f' = combine (descriptors f) r /\
    length r = length (fields_ f).
Proof.
  intros W [I0 I1].
  destruct (wf_file_inv f W) as (R & T & C & _).
  unfold Seek.
  replace ((id <? 0) || (eventCount_ f <=? id)) with false.
  2:{ symmetry. apply orb_false_iff. split; [apply Z.ltb_ge | apply Z.leb_gt]; lia. }
  assert (NE : (0 < length (seekTable_ f))%nat).
  { rewrite T, buildSeekTable_length.
    destruct (blocks_ f) eqn:E; simpl; [|lia].
    unfold allRecords in C. rewrite E in C. simpl in C. lia. }
  assert (F0 : firstAt (seekTable_ f) 0 <= id).
  { unfold firstAt. destruct (nth_error (seekTable_ f) 0) as [e|] eqn:E; [|lia].
    rewrite T in E. apply buildSeekTable_nth in E; [|apply R].
    destruct E as [E _]. rewrite E. unfold countBefore. simpl. lia. }
  destruct (bsearch_spec (seekTable_ f) id (length (seekTable_ f)) 0
              (length (seekTable_ f)) ltac:(lia) F0) as (B1 & B2 & _).
  fold (findBlock (seekTable_ f) id) in B1, B2.
  set (j := findBlock (seekTable_ f) id) in *.
  destruct (nth_error (seekTable_ f) j) as [e|] eqn:E.
  2:{ apply nth_error_None in E. lia. }
  assert (Fj : firstAt (seekTable_ f) j = se_first e)
    by (unfold firstAt; now rewrite E).
  rewrite T in E. apply buildSeekTable_nth in E; [|apply R].
  destruct E as [E1 E2]. simpl in E1, E2. rewrite Fj in B2.
  rewrite (proj2 (Z.leb_le _ _) B2).
  rewrite E2, E1.
  pose proof (atPos_blockStart f j) as P.
  set (f0 := setCursor f j 0 (Z.of_nat (countBefore (blocks_ f) j) - 1)) in *.
  assert (R0 : readable f0)
    by (eapply readable_sameStore; [exact R | apply setCursor_sameStore]).
  destruct (advance_spec
              (Z.to_nat (id - Z.of_nat (countBefore (blocks_ f) j) + 1))
              f0 (countBefore (blocks_ f) j) R0 P)
    as (f' & A1 & A2 & A3 & A4).
  { change (allRecords f0) with (allRecords f). lia. }
  destruct (A4 ltac:(lia)) as (r & N1 & N2 & N3).
  exists f', r. rewrite A1. simpl. split; [reflexivity|].
  split; [exact A2|].
  split.
  { replace (Z.to_nat id + 1)%nat
      with (countBefore (blocks_ f) j
            + Z.to_nat (id - Z.of_nat (countBefore (blocks_ f) j) + 1))%nat
      by lia. exact A3. }
  split; [|split; [exact N2 | exact N3]].
  change (allRecords f0) with (allRecords f) in N1.
  replace (Z.to_nat id)
    with (countBefore (blocks_ f) j
          + Z.to_nat (id - Z.of_nat (countBefore (blocks_ f) j) + 1) - 1)%nat
    by lia. exact N1.
Qed.

(** [Rewind] on a well-formed file: the cursor stands before record 0. *)
Lemma Rewind_spec (f : XCDFFile) :
  wf_file f = true -> sameStore f (Rewind f) /\ atPos (Rewind f) 0.
Proof.
  intros W. destruct (wf_file_inv f W) as (R & T & _ & _).
  unfold Rewind. rewrite T.
  destruct (blocks_ f) as [|b bs] eqn:E; simpl.
  - split; [apply setCursor_sameStore|].
    split; [|reflexivity]. unfold remaining, allRecords. simpl. now rewrite E.
  - split; [apply setCursor_sameStore|].
    split; [|reflexivity]. unfold remaining, allRecords. simpl. now rewrite E.
Qed.

Lemma Rewind_fields (f : XCDFFile) : fields_ (Rewind f) = fields_ f.
Proof. unfold Rewind. destruct (seekTable_ f); reflexivity. Qed.

Lemma int_of_small (z : Z) : INT_MIN <= z <= INT_MAX -> int_of z = z.
Proof.
  unfold int_of, INT_MIN, INT_MAX. intros H.
  rewrite Z.mod_small by lia. lia.
Qed.

(* ===================================================================== *)
(** * The tuple setter                                                    *)
(* ===================================================================== *)

Section Bindings.
Context {E : Externals}.

Lemma TupleSetter_call_slot (ts : TupleSetter) (fld : XCDFField) :
  TupleSetter_call ts fld
  = mkTupleSetter (nfields_ ts) (ifield_ ts + 1)
      (snd (PyTuple_SetItem (tuple_ ts) (Z.rem (ifield_ ts) (nfields_ ts))
              (slotOf fld))).
Proof.
  unfold TupleSetter_call, slotOf. destruct (0 <? GetSize fld); reflexivity.
Qed.

(** The setter after [done], about to visit [rest]: the slots of [done] are
    filled in order, the others are still NULL. *)
Lemma TupleSetter_fold (rest : list XCDFField) :
  forall done : list XCDFField,
    fold_left TupleSetter_call rest
      (mkTupleSetter (Z.of_nat (length done + length rest))
                     (Z.of_nat (length done))
                     (map (fun x => Some (slotOf x)) done
                      ++ repeat None (length rest)))
    = mkTupleSetter (Z.of_nat (length done + length rest))
                    (Z.of_nat (length done + length rest))
                    (map (fun x => Some (slotOf x)) (done ++ rest)).
Proof.
  induction rest as [|x rest IH]; intros done.
  - simpl. now rewrite Nat.add_0_r, !app_nil_r.
  - cbn [fold_left]. rewrite TupleSetter_call_slot. cbn [nfields_ ifield_ tuple_].
    rewrite Z.rem_small by (simpl length; lia).
    unfold PyTuple_SetItem.
    replace ((0 <=? Z.of_nat (length done)) &&
             (Z.of_nat (length done) <?
              Z.of_nat (length (map (fun x => Some (slotOf x)) done
                                ++ repeat None (length (x :: rest))))))
      with true.
    2:{ symmetry. apply andb_true_iff. split; [apply Z.leb_le; lia|].
        apply Z.ltb_lt. rewrite length_app, length_map, repeat_length.
        simpl length. lia. }
    cbn [snd]. rewrite Nat2Z.id.
    replace (length done) with
      (length (map (fun x => Some (slotOf x)) done)) at 3
      by apply length_map.
    simpl repeat. rewrite set_nth_app.
    specialize (IH (done ++ [x])).
    rewrite length_app in IH. simpl length in IH.
    replace (length done + 1 + length rest)%nat
      with (length done + S (length rest))%nat in IH by lia.
    rewrite map_app in IH. simpl map in IH. rewrite <- !app_assoc in IH.
    simpl app in IH.
    replace (Z.of_nat (length done) + 1) with (Z.of_nat (length done + 1))
      by lia.
    simpl length. exact IH.
Qed.

Lemma recordTuple_slots (f : XCDFFile) :
  recordTuple f = PyTuple (map (fun x => Some (slotOf x)) (currentRecord f)).
Proof.
  unfold recordTuple, ApplyFieldVisitor, TupleSetter_new, PyTuple_New, GetNFields.
  rewrite Nat2Z.id.
  pose proof (TupleSetter_fold (currentRecord f) []) as H.
  simpl in H.
  replace (length (fields_ f)) with (length (currentRecord f))
    by (unfold currentRecord; apply length_map).
  rewrite H. reflexivity.
Qed.

Lemma visitor_log (f : XCDFFile) :
  ApplyFieldVisitor f (fun log fld => log ++ [fld]) [] = currentRecord f.
Proof.
  unfold ApplyFieldVisitor.
  assert (G : forall l acc,
             fold_left (fun (log : list XCDFField) fld => log ++ [fld]) l acc
             = acc ++ l).
  { induction l as [|a l IH]; intros acc; simpl.
    - now rewrite app_nil_r.
    - rewrite IH, <- app_assoc. reflexivity. }
  apply G.
Qed.

(** C5: for the record loaded, the traversal calls the visitor once per
    declared field in declaration order (the calls, paired with the
    schema, are the file's fields), and the tuple the setter builds has one
    entry per declared field, entry [i] being that of field [i]. *)
Theorem C5_tuple_one_entry_per_field_in_order (f : XCDFFile) :
  combine (descriptors f)
          (ApplyFieldVisitor f (fun log fld => log ++ [fld]) []) = fields_ f
  /\ ifield_ (ApplyFieldVisitor f TupleSetter_call
                (TupleSetter_new (GetNFields f))) = GetNFields f
  /\ recordTuple f
     = PyTuple (map (fun df => Some (slotOf (snd df))) (fields_ f)).
Proof.
  split; [|split].
  - rewrite visitor_log. unfold descriptors, currentRecord.
    induction (fields_ f) as [|[d x] l IH]; simpl; [reflexivity|].
    now rewrite IH.
  - unfold ApplyFieldVisitor, TupleSetter_new, PyTuple_New, GetNFields.
    rewrite Nat2Z.id.
    pose proof (TupleSetter_fold (currentRecord f) []) as H. simpl in H.
    replace (length (fields_ f)) with (length (currentRecord f))
      by (unfold currentRecord; apply length_map).
    rewrite H. reflexivity.
  - rewrite recordTuple_slots. unfold currentRecord. now rewrite map_map.
Qed.

(** C10: a field that holds no value in the record loaded has [None] in
    its slot of the tuple. *)
Theorem C10_empty_field_is_None (f : XCDFFile) (i : nat)
    (d : XCDFFieldDescriptor) (fld : XCDFField) :
  nth_error (fields_ f) i = Some (d, fld) ->
  GetSize fld = 0 ->
  exists items,
    recordTuple f = PyTuple items /\
    length items = length (fields_ f) /\
    nth_error items i = Some (Some Py_None).
Proof.
  intros Hn Hs.
  exists (map (fun x => Some (slotOf x)) (currentRecord f)).
  split; [apply recordTuple_slots|]. unfold currentRecord.
  split; [now rewrite !length_map|].
  rewrite map_map. rewrite nth_error_map, Hn. simpl.
  unfold slotOf. rewrite Hs. reflexivity.
Qed.

(* ===================================================================== *)
(** * The record iterator                                                 *)
(* ===================================================================== *)

Lemma nextRecord_consumes (rest : list Block) :
  forall b pos b' pos' r,
    nextRecord rest b pos = Ok (Some (b', pos', r)) ->
    (b <= b')%nat /\
    (length (restRecords (skipn (b' - b) rest) pos')
     < length (restRecords rest pos))%nat.
Proof.
  induction rest as [|blk rest IH]; intros b pos b' pos' r H; simpl in H.
  - discriminate.
  - destruct (Nat.eqb (blk_count blk) (length (blk_records blk)));
      [|discriminate].
    destruct (nth_error (blk_records blk) pos) as [x|] eqn:Hn.
    + inversion H; subst. rewrite Nat.sub_diag. simpl.
      rewrite (skipn_nth_error_cons _ _ _ _ Hn). simpl.
      split; [lia|]. rewrite !length_app. simpl. lia.
    + destruct (IH _ _ _ _ _ H) as [A B]. split; [lia|].
      replace (b' - b)%nat with (S (b' - S b)) by lia.
      simpl skipn. rewrite restRecords_0 in B. simpl.
      rewrite (skipn_nth_error_nil _ _ _ Hn). simpl. exact B.
Qed.

(** A successful [Read] uses up a record. *)
Lemma Read_consumes (f f1 : XCDFFile) (n : Z) :
  Read f = Ok (n, f1) -> 0 < n ->
  (length (remaining f1) < length (remaining f))%nat.
Proof.
  unfold Read. intros H Hn.
  destruct (nextRecord (skipn (blockIndex_ f) (blocks_ f)) (blockIndex_ f)
              (posInBlock_ f)) as [[[[b pos] r]|]|e] eqn:HN; simpl in H.
  - destruct (Nat.eqb (length r) (length (fields_ f))); [|discriminate].
    inversion H; subst. apply nextRecord_consumes in HN.
    destruct HN as [A B]. rewrite !remaining_restRecords. simpl.
    rewrite skipn_skipn in B.
    replace (b - blockIndex_ f + blockIndex_ f)%nat with b in B by lia.
    exact B.
  - inversion H; subst. lia.
  - discriminate.
Qed.

(** On a readable file [Read] does not throw, and it keeps the store. *)
Lemma Read_readable (f : XCDFFile) :
  readable f ->
  exists n f1, Read f = Ok (n, f1) /\ sameStore f f1 /\
               (n = 0 \/ n = 1) /\ (n = 0 -> f1 = f /\ remaining f = []).
Proof.
  intros R. pose proof (Read_spec f R) as H.
  destruct (remaining f) as [|r tl].
  - exists 0, f. split; [exact H|]. split; [apply sameStore_refl|]. auto.
  - destruct H as (b & pos & H1 & H2 & H3).
    exists 1, (afterRead f b pos r). split; [exact H1|].
    split; [now apply afterRead_sameStore|]. split; [auto|]. intros; lia.
Qed.

(** Each [next()] returns, whatever the file; a record it surfaces was
    taken from those ahead of the cursor; on a readable file the only
    exception it raises is [StopIteration]. *)
Lemma iternext_loop_progress (fuel : nat) :
  forall (p : XCDFRecordIterator) (f : XCDFFile) (log : list Consultation),
    (length (remaining f) < fuel)%nat ->
    exists o,
      iternext_loop fuel p f log = Some o /\
      (forall t, out_result o = PyReturn t ->
                 (length (remaining (out_file o)) < length (remaining f))%nat) /\
      (readable f ->
       readable (out_file o) /\
       (out_result o = PyRaise PyExc_StopIteration \/
        exists t, out_result o = PyReturn t)).
Proof.
  induction fuel as [|fuel IH]; intros p f log Hf; [lia|].
  cbn [iternext_loop].
  destruct (iCurrent_ p <? iTotal_ p).
  2:{ eexists. split; [reflexivity|]. simpl. split; [discriminate|].
      intros R. split; [|now left].
      eapply readable_sameStore; [exact R|].
      unfold Rewind. destruct (seekTable_ f); apply setCursor_sameStore. }
  destruct (Read f) as [[n f1]|e] eqn:HR.
  2:{ eexists. split; [reflexivity|]. simpl. split; [discriminate|].
      intros R. destruct (Read_readable f R) as (n & f1 & H & _).
      rewrite H in HR. discriminate. }
  assert (RS : readable f -> readable f1 /\ (n = 0 \/ n = 1)).
  { intros R. destruct (Read_readable f R) as (n' & f1' & H & S & N & _).
    rewrite H in HR. inversion HR; subst.
    split; [eapply readable_sameStore; eauto | exact N]. }
  destruct (Z.ltb_spec 0 n) as [Hn|Hn].
  2:{ eexists. split; [reflexivity|]. simpl. split; [discriminate|].
      intros R. split; [|now left].
      eapply readable_sameStore; [exact (proj1 (RS R))|].
      unfold Rewind. destruct (seekTable_ f1); apply setCursor_sameStore. }
  pose proof (Read_consumes f f1 n HR Hn) as Hc.
  cbn [iCurrent_ iTotal_ selectField_ selectEvent_].
  destruct (int_of (GetCurrentEventNumber f1) <? 0).
  { eexists. split; [reflexivity|]. simpl. split; [discriminate|].
    intros R. split; [exact (proj1 (RS R)) | now left]. }
  destruct (SelectEvent (selectEvent_ p) f1); cbn [negb].
  - destruct (selectField_ p) as [s|];
      (eexists; split; [reflexivity|]; simpl; split;
       [intros _ _; exact Hc
       | intros R; split; [exact (proj1 (RS R)) | right; eexists; reflexivity]]).
  - match goal with
    | |- context [iternext_loop fuel ?p1 f1 ?l1] =>
        destruct (IH p1 f1 l1 ltac:(lia)) as (o & H1 & H2 & H3)
    end.
    exists o. split; [exact H1|]. split.
    + intros t Ht. specialize (H2 t Ht). lia.
    + intros R. apply H3. exact (proj1 (RS R)).
Qed.

Lemma iternext_total (p : XCDFRecordIterator) (f : XCDFFile) :
  exists o, XCDFRecordIterator_iternext p f = Some o.
Proof.
  destruct (iternext_loop_progress (S (length (remaining f))) p f []
              ltac:(lia)) as (o & H & _).
  now exists o.
Qed.

(** A whole iteration ends, with at most as many records as were ahead of
    the cursor, and on a readable file with [StopIteration]. *)
Lemma iterate_loop_progress (fuel : nat) :
  forall (p : XCDFRecordIterator) (f : XCDFFile),
    (length (remaining f) < fuel)%nat ->
    exists o,
      iterate_loop fuel p f = Some o /\
      (length (it_yielded o) <= length (remaining f))%nat /\
      (readable f -> it_end o = PyRaise PyExc_StopIteration).
Proof.
  induction fuel as [|fuel IH]; intros p f Hf; [lia|].
  cbn [iterate_loop]. unfold XCDFRecordIterator_iternext.
  destruct (iternext_loop_progress (S (length (remaining f))) p f []
              ltac:(lia)) as (o & H1 & H2 & H3).
  rewrite H1.
  destruct (out_result o) as [t| e | t0 e0 |] eqn:Ho.
  - specialize (H2 t eq_refl).
    destruct (IH (out_iter o) (out_file o) ltac:(lia)) as (r & I1 & I2 & I3).
    rewrite I1. eexists. split; [reflexivity|]. simpl.
    split; [lia|]. intros R. apply I3. now apply H3.
  - eexists. split; [reflexivity|]. simpl. split; [lia|].
    intros R. destruct (H3 R) as [_ [H|[t H]]]; congruence.
  - eexists. split; [reflexivity|]. simpl. split; [lia|].
    intros R. destruct (H3 R) as [_ [H|[t H]]]; congruence.
  - eexists. split; [reflexivity|]. simpl. split; [lia|].
    intros R. destruct (H3 R) as [_ [H|[t H]]]; congruence.
Qed.

(** The loops of the model are cut by fuel; the fuel given is enough for
    every iterator and every file. *)
Lemma iterate_total (p : XCDFRecordIterator) (f : XCDFFile) :
  exists o, iterate p f = Some o.
Proof.
  destruct (iterate_loop_progress (S (length (remaining f))) p f
              ltac:(lia)) as (o & H & _).
  now exists o.
Qed.

(** Beyond [INT_MAX] records the total wraps in [iTotal_]: with one record
    more the first [next()] stops without a look at the file. *)
Lemma iternext_count_beyond_int (f : XCDFFile)
    (select : EventSelectExpression) (fields : option FieldsByNameSelector) :
  GetEventCount f = INT_MAX + 1 ->
  XCDFRecordIterator_iternext (XCDFRecord_iterator f select fields) f
  = Some (mkOutcome E (PyRaise PyExc_StopIteration)
                    (XCDFRecord_iterator f select fields) (Rewind f) []).
Proof.
  intros H. unfold XCDFRecordIterator_iternext. cbn [iternext_loop].
  unfold XCDFRecord_iterator at 1 2. cbn [iCurrent_ iTotal_].
  rewrite H. reflexivity.
Qed.

Lemma remaining_length_le (f : XCDFFile) :
  (length (remaining f) <= length (allRecords f))%nat.
Proof.
  rewrite remaining_restRecords. unfold allRecords.
  rewrite <- (firstn_skipn (blockIndex_ f) (blocks_ f)) at 2.
  rewrite map_app, concat_app, length_app.
  destruct (skipn (blockIndex_ f) (blocks_ f)) as [|blk rest]; simpl; [lia|].
  rewrite !length_app, length_skipn. lia.
Qed.

(** C7: at the end of the file [next()] rewinds and raises
    [StopIteration], which is not the exception of a failure; an iteration
    over a well-formed file of [n] records, whatever the iterator and
    wherever the cursor, surfaces at most [n] records and then ends with
    [StopIteration]. *)
Theorem C7_iteration_ends_with_StopIteration (p : XCDFRecordIterator)
    (f : XCDFFile) :
  wf_file f = true ->
  (remaining f = [] ->
   exists o, XCDFRecordIterator_iternext p f = Some o /\
             out_result o = PyRaise PyExc_StopIteration /\
             out_file o = Rewind f) /\
  (forall msg,
     PyRaise PyExc_StopIteration <> PyRaise (pyxcdf_XCDFException msg)) /\
  exists o,
    iterate p f = Some o /\
    it_end o = PyRaise PyExc_StopIteration /\
    Z.of_nat (length (it_yielded o)) <= GetEventCount f.
Proof.
  intros W. destruct (wf_file_inv f W) as (R & _ & C & _).
  split; [|split].
  - intros Hr. unfold XCDFRecordIterator_iternext. rewrite Hr.
    cbn [length iternext_loop].
    pose proof (Read_spec f R) as HR. rewrite Hr in HR. rewrite HR.
    cbn [Z.ltb Z.compare].
    destruct (iCurrent_ p <? iTotal_ p);
      (eexists; split; [reflexivity|]; split; reflexivity).
  - intros msg H. discriminate.
  - destruct (iterate_loop_progress (S (length (remaining f))) p f
                ltac:(lia)) as (o & H1 & H2 & H3).
    exists o. split; [exact H1|]. split; [now apply H3|].
    unfold GetEventCount. rewrite C.
    pose proof (remaining_length_le f). lia.
Qed.

Lemma currentByName_combine (f : XCDFFile) (ds : list XCDFFieldDescriptor)
    (r : Record_) :
  fields_ f = combine ds r -> currentByName f = byName ds r.
Proof. intros H. unfold currentByName, byName. now rewrite H. Qed.

Lemma recordTuple_combine (f : XCDFFile) (ds : list XCDFFieldDescriptor)
    (r : Record_) :
  fields_ f = combine ds r -> length r = length ds ->
  recordTuple f = tupleOfRecord r.
Proof.
  intros H L. rewrite recordTuple_slots. unfold currentRecord, tupleOfRecord.
  rewrite H, map_snd_combine_same by exact L. reflexivity.
Qed.

Lemma surfaced_match (p q : XCDFRecordIterator) (f1 : XCDFFile)
    (log : list Consultation) :
  match selectField_ p with
  | Some s =>
      Some (mkOutcome E (PyReturn (FieldsByNameSelector_GetTuple s f1))
                      q f1 log)
  | None => Some (mkOutcome E (PyReturn (recordTuple f1)) q f1 log)
  end
  = Some (mkOutcome E (PyReturn (surfaced p f1)) q f1 log).
Proof. unfold surfaced. destruct (selectField_ p); reflexivity. Qed.

(** One [next()] of an iterator whose total is the record count, on a
    well-formed file with the cursor before record [k]: it consults the
    evaluator on the records from [k] up to the first accepted one and
    surfaces that one, or rewinds and stops when none is accepted. *)
Lemma iternext_loop_exact (rest : list Record_) :
  forall (p : XCDFRecordIterator) (f : XCDFFile) (k : nat)
         (log : list Consultation) (fuel : nat),
    wf_file f = true -> atPos f k -> skipn k (allRecords f) = rest ->
    Z.of_nat (length (allRecords f)) <= INT_MAX ->
    iTotal_ p = Z.of_nat (length (allRecords f)) ->
    (rest <> [] -> iCurrent_ p < iTotal_ p) ->
    (length rest < fuel)%nat ->
    exists o,
      iternext_loop fuel p f log = Some o /\
      iTotal_ (out_iter o) = iTotal_ p /\
      selectField_ (out_iter o) = selectField_ p /\
      selectEvent_ (out_iter o) = selectEvent_ p /\
      wf_file (out_file o) = true /\ sameStore f (out_file o) /\
      out_consulted o
      = log ++ fst (scan (selectEvent_ p) (descriptors f) (Z.of_nat k) rest) /\
      match snd (scan (selectEvent_ p) (descriptors f) (Z.of_nat k) rest) with
      | None =>
          out_result o = PyRaise PyExc_StopIteration /\ atPos (out_file o) 0
      | Some (j, r, t) =>
          out_result o = PyReturn (surfaced p (out_file o)) /\
          exists kj, j = Z.of_nat kj /\ atPos (out_file o) (S kj) /\
                     skipn (S kj) (allRecords f) = t /\
                     fields_ (out_file o) = combine (descriptors f) r /\
                     length r = length (fields_ f) /\
                     iCurrent_ (out_iter o) = j
      end.
Proof.
  induction rest as [|r t IH];
    intros p f k log fuel W P Hrest HI HT HC Hfuel;
    (destruct fuel as [|fuel]; [simpl in Hfuel; lia|]);
    destruct (wf_file_inv f W) as (R & _ & _ & _);
    pose proof (Read_spec f R) as HR; rewrite (proj1 P), Hrest in HR;
    cbn [iternext_loop].
  - assert (RW : exists o,
               Some (mkOutcome E (PyRaise PyExc_StopIteration) p (Rewind f) log)
               = Some o /\
               iTotal_ (out_iter o) = iTotal_ p /\
               selectField_ (out_iter o) = selectField_ p /\
               selectEvent_ (out_iter o) = selectEvent_ p /\
               wf_file (out_file o) = true /\ sameStore f (out_file o) /\
               out_consulted o = log ++ [] /\
               out_result o = PyRaise PyExc_StopIteration /\
               atPos (out_file o) 0).
    { eexists. split; [reflexivity|]. simpl.
      destruct (Rewind_spec f W) as [S0 P0].
      repeat split; try apply S0; try apply P0.
      - eapply wf_file_sameStore; eauto.
      - now rewrite app_nil_r. }
    simpl scan. cbn [fst snd].
    destruct (iCurrent_ p <? iTotal_ p); [|exact RW].
    rewrite HR. cbn [Z.ltb Z.compare]. exact RW.
  - rewrite (proj2 (Z.ltb_lt _ _) (HC ltac:(discriminate))).
    destruct HR as (b & pos & H1 & H2 & H3).
    rewrite H1. cbn [Z.ltb Z.compare].
    set (f1 := afterRead f b pos r) in *.
    assert (Hrem : remaining f = r :: t) by (rewrite (proj1 P); exact Hrest).
    destruct (atPos_afterRead f k b pos r t P Hrem H2) as [P1 N1].
    pose proof (afterRead_sameStore f b pos r H3) as S1. fold f1 in S1, P1.
    pose proof (wf_file_sameStore _ _ W S1) as W1.
    assert (EV : int_of (GetCurrentEventNumber f1) = Z.of_nat k).
    { unfold GetCurrentEventNumber. rewrite (proj2 P1).
      assert (K : (k < length (allRecords f))%nat)
        by (apply nth_error_Some; congruence).
      rewrite int_of_small; unfold INT_MIN, INT_MAX in *; lia. }
    assert (F1 : fields_ f1 = combine (descriptors f) r) by reflexivity.
    cbn [iCurrent_ iTotal_ selectField_ selectEvent_].
    rewrite EV.
    replace (Z.of_nat k <? 0) with false by (symmetry; apply Z.ltb_ge; lia).
    unfold SelectEvent. rewrite (currentByName_combine _ _ _ F1).
    simpl scan.
    destruct (selectEvent_ p (byName (descriptors f) r)) eqn:V;
      cbn [negb fst snd].
    + rewrite surfaced_match.
      eexists. split; [reflexivity|]. simpl.
      repeat split; try apply S1; auto.
      exists k. repeat split; try apply P1; auto.
      exact (proj1 (skipn_tail _ _ _ _ _ Hrest)).
    + set (p1 := mkIterator E (Z.of_nat k) (iTotal_ p) (selectField_ p)
                            (selectEvent_ p)).
      destruct (IH p1 f1 (S k) (log ++ [(Z.of_nat k, false)]) fuel W1 P1)
        as (o & I1 & I2 & I3 & I4 & I5 & I6 & I7 & I8).
      { exact (proj1 (skipn_tail _ _ _ _ _ Hrest)). }
      { exact HI. }
      { exact HT. }
      { intros _. simpl. rewrite HT.
        pose proof (length_skipn k (allRecords f)) as L.
        rewrite Hrest in L. simpl in L. lia. }
      { simpl in Hfuel. lia. }
      exists o. split; [exact I1|].
      split; [exact I2|]. split; [exact I3|]. split; [exact I4|].
      split; [exact I5|].
      split; [eapply sameStore_trans; eauto|].
      assert (D : descriptors f1 = descriptors f) by apply S1.
      rewrite D in I7, I8. cbn [selectEvent_ p1] in I7, I8.
      replace (Z.of_nat (S k)) with (Z.of_nat k + 1) in I7, I8 by lia.
      split; [rewrite I7, <- app_assoc; reflexivity|].
      destruct (snd (scan (selectEvent_ p) (descriptors f) (Z.of_nat k + 1) t))
        as [[[j r'] t']|]; [|exact I8].
      destruct I8 as (I8 & kj & J1 & J2 & J3 & J4 & J5 & J6).
      split; [exact I8|]. exists kj.
      repeat split; auto; try apply J2.
      rewrite J5. now apply sameStore_fields_length.
Qed.

Lemma scan_lists (ev : EventSelectExpression) (ds : list XCDFFieldDescriptor)
    (rs : list Record_) :
  forall k,
    match snd (scan ev ds k rs) with
    | None =>
        consultationsOf ev ds k rs = fst (scan ev ds k rs) /\
        acceptedOf ev ds k rs = []
    | Some (j, r, t) =>
        consultationsOf ev ds k rs
        = fst (scan ev ds k rs) ++ consultationsOf ev ds (j + 1) t /\
        acceptedOf ev ds k rs = (j, r) :: acceptedOf ev ds (j + 1) t /\
        (length t < length rs)%nat
    end.
Proof.
  unfold consultationsOf, acceptedOf.
  induction rs as [|r t IH]; intros k; simpl; [auto|].
  destruct (ev (byName ds r)) eqn:V; simpl.
  - repeat split; auto.
  - specialize (IH (k + 1)).
    destruct (snd (scan ev ds (k + 1) t)) as [[[j r'] t']|].
    + destruct IH as (A & B & C). rewrite A, B. repeat split; auto.
    + destruct IH as (A & B). rewrite A, B. auto.
Qed.

Lemma sameStore_allRecords (f f' : XCDFFile) :
  sameStore f f' -> allRecords f' = allRecords f.
Proof. intros (B & _). unfold allRecords. now rewrite B. Qed.

(** A whole iteration by an iterator whose total is the record count, on a
    well-formed file with the cursor before record [k]. *)
Lemma iterate_loop_exact (fuel : nat) :
  forall (rest : list Record_) (p : XCDFRecordIterator) (f : XCDFFile)
         (k : nat),
    wf_file f = true -> atPos f k -> skipn k (allRecords f) = rest ->
    Z.of_nat (length (allRecords f)) <= INT_MAX ->
    iTotal_ p = Z.of_nat (length (allRecords f)) ->
    (rest <> [] -> iCurrent_ p < iTotal_ p) ->
    (length rest < fuel)%nat ->
    exists o,
      iterate_loop fuel p f = Some o /\
      it_consulted o
      = consultationsOf (selectEvent_ p) (descriptors f) (Z.of_nat k) rest /\
      map fst (it_yielded o)
      = map fst (acceptedOf (selectEvent_ p) (descriptors f) (Z.of_nat k) rest)
      /\
      (selectField_ p = None ->
       it_yielded o
       = map (fun jr => (fst jr, tupleOfRecord (snd jr)))
             (acceptedOf (selectEvent_ p) (descriptors f) (Z.of_nat k) rest))
      /\
      it_end o = PyRaise PyExc_StopIteration /\
      wf_file (it_file o) = true /\ sameStore f (it_file o) /\
      atPos (it_file o) 0.
Proof.
  induction fuel as [|fuel IH]; intros rest p f k W P Hrest HI HT HC Hfuel;
    [lia|].
  cbn [iterate_loop]. unfold XCDFRecordIterator_iternext.
  destruct (iternext_loop_exact rest p f k [] (S (length (remaining f)))
              W P Hrest HI HT HC)
    as (o & H1 & H2 & H3 & H4 & H5 & H6 & H7 & H8).
  { rewrite (proj1 P), Hrest. lia. }
  rewrite H1. simpl app in H7.
  pose proof (scan_lists (selectEvent_ p) (descriptors f) rest (Z.of_nat k))
    as SL.
  destruct (snd (scan (selectEvent_ p) (descriptors f) (Z.of_nat k) rest))
    as [[[j r] t]|].
  - destruct H8 as (H8 & kj & J1 & J2 & J3 & J4 & J5 & J6).
    destruct SL as (SL1 & SL2 & SL3).
    rewrite H8.
    pose proof (sameStore_allRecords _ _ H6) as A.
    destruct (IH t (out_iter o) (out_file o) (S kj) H5 J2)
      as (r' & I1 & I2 & I3 & I4 & I5 & I6 & I7 & I8).
    { now rewrite A. }
    { now rewrite A. }
    { now rewrite H2, A. }
    { intros NE. rewrite J6, H2, HT, J1.
      pose proof (length_skipn (S kj) (allRecords f)) as L.
      rewrite J3 in L. destruct t; [congruence|]. simpl in L. lia. }
    { lia. }
    rewrite I1. eexists. split; [reflexivity|]. simpl.
    assert (D : descriptors (out_file o) = descriptors f) by apply H6.
    rewrite H4, D in I2, I3. rewrite H3, H4, D in I4.
    replace (Z.of_nat (S kj)) with (j + 1) in I2, I3, I4 by lia.
    split; [rewrite H7, I2, SL1; reflexivity|].
    split; [rewrite I3, SL2, J6; reflexivity|].
    split.
    { intros SF. rewrite (I4 SF), SL2, J6. simpl. f_equal. f_equal.
      unfold surfaced. rewrite SF.
      apply recordTuple_combine with (ds := descriptors f); [exact J4|].
      now rewrite descriptors_length. }
    split; [exact I5|]. split; [exact I6|].
    split; [eapply sameStore_trans; eauto | exact I8].
  - destruct H8 as (H8 & H9). destruct SL as (SL1 & SL2).
    rewrite H8. eexists. split; [reflexivity|]. simpl.
    rewrite SL1, SL2, H7.
    split; [reflexivity|]. split; [reflexivity|]. split; [reflexivity|].
    split; [reflexivity|]. split; [exact H5|]. split; [exact H6 | exact H9].
Qed.

(** The ids a list of numbered records carries. *)
Lemma numbered_ids (rs : list Record_) :
  forall k, map fst (numbered k rs)
            = map (fun i => k + Z.of_nat i) (seq 0 (length rs)).
Proof.
  induction rs as [|r t IH]; intros k; simpl; [reflexivity|].
  f_equal; [lia|]. rewrite IH, <- seq_shift, map_map.
  apply map_ext. intros i. lia.
Qed.

Lemma numbered_nth (rs : list Record_) :
  forall k i r, nth_error rs i = Some r ->
                nth_error (numbered k rs) i = Some (k + Z.of_nat i, r).
Proof.
  induction rs as [|x t IH]; intros k [|i] r H; simpl in *; try discriminate.
  - inversion H. f_equal. f_equal. lia.
  - rewrite (IH (k + 1) i r H). f_equal. f_equal. lia.
Qed.

(** An iteration from the start of a well-formed file. *)
Lemma iterate_from_start (f : XCDFFile)
    (select : EventSelectExpression) (fields : option FieldsByNameSelector) :
  wf_file f = true -> atPos f 0 -> GetEventCount f <= INT_MAX ->
  exists o,
    iterate (XCDFRecord_iterator f select fields) f = Some o /\
    it_consulted o = consultationsOf select (descriptors f) 0 (allRecords f) /\
    map fst (it_consulted o)
    = map Z.of_nat (seq 0 (length (allRecords f))) /\
    map fst (it_yielded o)
    = map fst (acceptedOf select (descriptors f) 0 (allRecords f)) /\
    (fields = None ->
     it_yielded o
     = map (fun jr => (fst jr, tupleOfRecord (snd jr)))
           (acceptedOf select (descriptors f) 0 (allRecords f))) /\
    it_end o = PyRaise PyExc_StopIteration /\
    atPos (it_file o) 0.
Proof.
  intros W P HI. destruct (wf_file_inv f W) as (_ & _ & C & _).
  unfold GetEventCount in HI.
  assert (T : int_of (GetEventCount f) = Z.of_nat (length (allRecords f))).
  { unfold GetEventCount. rewrite int_of_small; [exact C|].
    unfold INT_MIN. lia. }
  unfold iterate.
  destruct (iterate_loop_exact (S (length (remaining f))) (allRecords f)
              (XCDFRecord_iterator f select fields) f 0 W P eq_refl)
    as (o & H1 & H2 & H3 & H4 & H5 & H6 & H7 & H8).
  { lia. }
  { simpl. exact T. }
  { intros NE. simpl. rewrite T.
    destruct (allRecords f); [congruence|]. simpl. lia. }
  { rewrite (proj1 P). simpl. lia. }
  exists o. simpl in H2, H3, H4.
  split; [exact H1|]. split; [exact H2|].
  split.
  { rewrite H2. unfold consultationsOf. rewrite map_map. simpl.
    rewrite <- numbered_ids with (k := 0). reflexivity. }
  split; [exact H3|]. split; [exact H4|]. split; [exact H5 | exact H8].
Qed.

Lemma numbered_In (rs : list Record_) :
  forall k j r,
    In (j, r) (numbered k rs) <->
    exists i, j = k + Z.of_nat i /\ nth_error rs i = Some r.
Proof.
  induction rs as [|x t IH]; intros k j r; simpl.
  - split; [tauto|]. intros ([|i] & _ & H); discriminate.
  - rewrite IH. split.
    + intros [H|(i & H1 & H2)].
      * inversion H; subst. exists 0%nat. split; [lia|reflexivity].
      * exists (S i). split; [lia|exact H2].
    + intros ([|i] & H1 & H2); simpl in H2.
      * left. inversion H2; subst. f_equal. lia.
      * right. exists i. split; [lia|exact H2].
Qed.

(** ** Iterations from any place of the cursor *)

Lemma surfaced_selectField (p q : XCDFRecordIterator) (g : XCDFFile) :
  selectField_ p = selectField_ q -> surfaced p g = surfaced q g.
Proof. unfold surfaced. now intros ->. Qed.

Lemma acceptedOf_always (ev : EventSelectExpression)
    (ds : list XCDFFieldDescriptor) (rs : list Record_) :
  (forall v, ev v = true) ->
  forall k, acceptedOf ev ds k rs = numbered k rs.
Proof.
  intros A k. unfold acceptedOf.
  induction (numbered k rs) as [|x l IH]; simpl; [reflexivity|].
  now rewrite A, IH.
Qed.

Lemma numbered_length (rs : list Record_) :
  forall k, length (numbered k rs) = length rs.
Proof. induction rs as [|r t IH]; intros k; simpl; auto. Qed.

(** The counter of the iterator stays below the total: after a [next()]
    it is the id of a record of the file, or what it was. *)
Lemma iternext_loop_current (fuel : nat) :
  forall (p : XCDFRecordIterator) (f : XCDFFile) (k : nat)
         (log : list Consultation) (o : NextOutcome),
    wf_file f = true -> atPos f k ->
    Z.of_nat (length (allRecords f)) <= INT_MAX ->
    iTotal_ p = Z.of_nat (length (allRecords f)) ->
    iCurrent_ p < iTotal_ p ->
    iternext_loop fuel p f log = Some o ->
    iCurrent_ (out_iter o) < iTotal_ p.
Proof.
  induction fuel as [|fuel IH]; intros p f k log o W P HI HT HC H;
    [discriminate|].
  cbn [iternext_loop] in H.
  rewrite (proj2 (Z.ltb_lt _ _) HC) in H.
  destruct (wf_file_inv f W) as (R & _ & _ & _).
  pose proof (Read_spec f R) as HR.
  destruct (remaining f) as [|r t] eqn:Hrem.
  - rewrite HR in H. cbn [Z.ltb Z.compare] in H. inversion H; subst o.
    exact HC.
  - destruct HR as (b & pos & H1 & H2 & H3). rewrite H1 in H.
    cbn [Z.ltb Z.compare] in H.
    set (f1 := afterRead f b pos r) in *.
    destruct (atPos_afterRead f k b pos r t P Hrem H2) as [P1 N1].
    pose proof (afterRead_sameStore f b pos r H3) as S1. fold f1 in S1, P1.
    pose proof (wf_file_sameStore _ _ W S1) as W1.
    assert (K : (k < length (allRecords f))%nat)
      by (apply nth_error_Some; congruence).
    assert (EV : int_of (GetCurrentEventNumber f1) = Z.of_nat k).
    { unfold GetCurrentEventNumber. rewrite (proj2 P1).
      rewrite int_of_small; unfold INT_MIN, INT_MAX in *; lia. }
    cbn [iCurrent_ iTotal_ selectField_ selectEvent_] in H.
    rewrite EV in H.
    replace (Z.of_nat k <? 0) with false in H
      by (symmetry; apply Z.ltb_ge; lia).
    destruct (SelectEvent (selectEvent_ p) f1); cbn [negb] in H.
    + destruct (selectField_ p); inversion H; subst o; simpl; lia.
    + assert (HC1 : Z.of_nat k < iTotal_ p) by lia.
      exact (IH (mkIterator E (Z.of_nat k) (iTotal_ p) (selectField_ p)
                            (selectEvent_ p))
                f1 (S k) _ o W1 P1 HI HT HC1 H).
Qed.

(** What a whole iteration leaves in the iterator, and the file each
    surfaced tuple was taken from. *)
Lemma iterate_loop_more (fuel : nat) :
  forall (rest : list Record_) (p : XCDFRecordIterator) (f : XCDFFile)
         (k : nat) (o : IterationOutcome),
    wf_file f = true -> atPos f k -> skipn k (allRecords f) = rest ->
    Z.of_nat (length (allRecords f)) <= INT_MAX ->
    iTotal_ p = Z.of_nat (length (allRecords f)) ->
    (rest <> [] -> iCurrent_ p < iTotal_ p) ->
    iterate_loop fuel p f = Some o ->
    iTotal_ (it_iter o) = iTotal_ p /\
    selectField_ (it_iter o) = selectField_ p /\
    selectEvent_ (it_iter o) = selectEvent_ p /\
    (iCurrent_ p < iTotal_ p -> iCurrent_ (it_iter o) < iTotal_ p) /\
    Forall2
      (fun y jr =>
         fst y = fst jr /\
         exists g, snd y = surfaced p g /\
                   fields_ g = combine (descriptors f) (snd jr) /\
                   GetCurrentEventNumber g = fst jr /\ sameStore f g)
      (it_yielded o)
      (acceptedOf (selectEvent_ p) (descriptors f) (Z.of_nat k) rest).
Proof.
  induction fuel as [|fuel IH]; intros rest p f k o W P Hrest HI HT HC H;
    [discriminate|].
  cbn [iterate_loop] in H. unfold XCDFRecordIterator_iternext in H.
  destruct (iternext_loop_exact rest p f k [] (S (length (remaining f)))
              W P Hrest HI HT HC)
    as (o1 & H1 & H2 & H3 & H4 & H5 & H6 & H7 & H8).
  { rewrite (proj1 P), Hrest. lia. }
  pose proof (fun C => iternext_loop_current _ p f k [] o1 W P HI HT C H1)
    as CU.
  rewrite H1 in H.
  pose proof (scan_lists (selectEvent_ p) (descriptors f) rest (Z.of_nat k))
    as SL.
  destruct (snd (scan (selectEvent_ p) (descriptors f) (Z.of_nat k) rest))
    as [[[j r] t]|].
  - destruct H8 as (H8 & kj & J1 & J2 & J3 & J4 & J5 & J6).
    destruct SL as (SL1 & SL2 & SL3).
    rewrite H8 in H.
    pose proof (sameStore_allRecords _ _ H6) as A.
    destruct (iterate_loop fuel (out_iter o1) (out_file o1)) as [r'|] eqn:I;
      [|discriminate].
    inversion H; subst o; clear H. cbn [it_iter it_yielded].
    assert (D : descriptors (out_file o1) = descriptors f) by apply H6.
    assert (NE : t <> [] -> iCurrent_ (out_iter o1) < iTotal_ (out_iter o1)).
    { intros NE. rewrite J6, H2, HT, J1.
      pose proof (length_skipn (S kj) (allRecords f)) as L.
      rewrite J3 in L. destruct t; [congruence|]. simpl in L. lia. }
    destruct (IH t (out_iter o1) (out_file o1) (S kj) r' H5 J2)
      as (I1 & I2 & I3 & I4 & I5); auto.
    { now rewrite A. }
    { now rewrite A. }
    { now rewrite H2, A. }
    split; [congruence|]. split; [congruence|]. split; [congruence|].
    split.
    { intros C. rewrite <- H2. apply I4. rewrite H2. now apply CU. }
    rewrite SL2. constructor.
    + cbn [fst snd]. split; [exact J6|].
      exists (out_file o1). split; [reflexivity|].
      split; [exact J4|]. split; [|exact H6].
      unfold GetCurrentEventNumber. rewrite (proj2 J2). lia.
    + rewrite H4, D in I5.
      replace (Z.of_nat (S kj)) with (j + 1) in I5 by lia.
      eapply Forall2_impl; [|exact I5].
      intros y jr (Y1 & g & Y2 & Y3 & Y4 & Y5). split; [exact Y1|].
      exists g. split; [rewrite Y2; now apply surfaced_selectField|].
      split; [exact Y3|]. split; [exact Y4|].
      eapply sameStore_trans; eauto.
  - destruct H8 as (H8 & H9). destruct SL as (SL1 & SL2).
    rewrite H8 in H. inversion H; subst o; clear H.
    cbn [it_iter it_yielded]. rewrite SL2.
    split; [exact H2|]. split; [exact H3|]. split; [exact H4|].
    split; [exact CU | constructor].
Qed.

(** An iteration on a well-formed file with the cursor before record
    [k], by an iterator whose total is the record count. *)
Lemma iterate_at (p : XCDFRecordIterator) (f : XCDFFile) (k : nat) :
  wf_file f = true -> atPos f k -> GetEventCount f <= INT_MAX ->
  iTotal_ p = GetEventCount f ->
  (skipn k (allRecords f) <> [] -> iCurrent_ p < iTotal_ p) ->
  exists o,
    iterate p f = Some o /\
    it_consulted o
    = consultationsOf (selectEvent_ p) (descriptors f) (Z.of_nat k)
                      (skipn k (allRecords f)) /\
    (selectField_ p = None ->
     it_yielded o
     = map (fun jr => (fst jr, tupleOfRecord (snd jr)))
           (acceptedOf (selectEvent_ p) (descriptors f) (Z.of_nat k)
                       (skipn k (allRecords f)))) /\
    Forall2
      (fun y jr =>
         fst y = fst jr /\
         exists g, snd y = surfaced p g /\
                   fields_ g = combine (descriptors f) (snd jr) /\
                   GetCurrentEventNumber g = fst jr /\ sameStore f g)
      (it_yielded o)
      (acceptedOf (selectEvent_ p) (descriptors f) (Z.of_nat k)
                  (skipn k (allRecords f))) /\
    it_end o = PyRaise PyExc_StopIteration /\
    wf_file (it_file o) = true /\ sameStore f (it_file o) /\
    atPos (it_file o) 0 /\
    iTotal_ (it_iter o) = iTotal_ p /\
    selectField_ (it_iter o) = selectField_ p /\
    selectEvent_ (it_iter o) = selectEvent_ p /\
    (iCurrent_ p < iTotal_ p -> iCurrent_ (it_iter o) < iTotal_ p).
Proof.
  intros W P HI HT HC. destruct (wf_file_inv f W) as (_ & _ & C & _).
  unfold GetEventCount in HI, HT. rewrite C in HI, HT.
  unfold iterate.
  assert (FU : (length (skipn k (allRecords f)) < S (length (remaining f)))%nat)
    by (rewrite (proj1 P); lia).
  destruct (iterate_loop_exact (S (length (remaining f)))
              (skipn k (allRecords f)) p f k W P eq_refl HI HT HC FU)
    as (o & H1 & H2 & H3 & H4 & H5 & H6 & H7 & H8).
  destruct (iterate_loop_more (S (length (remaining f)))
              (skipn k (allRecords f)) p f k o W P eq_refl HI HT HC H1)
    as (M1 & M2 & M3 & M4 & M5).
  exists o. auto 15.
Qed.



(* ===================================================================== *)
(** * Random access through [getRecord]                                   *)
(* ===================================================================== *)

Lemma mask_nonneg (o : PyObject) : 0 <= PyInt_AsUnsignedLongLongMask o.
Proof.
  unfold PyInt_AsUnsignedLongLongMask, UINT64_MOD.
  destruct (integerOf o); [apply Z.mod_pos_bound|]; lia.
Qed.

Lemma mask_small (i : Z) :
  0 <= i < UINT64_MOD -> PyInt_AsUnsignedLongLongMask (PyInt i) = i.
Proof. intros H. simpl. now apply Z.mod_small. Qed.

(** [Seek] says yes only to an id inside the file. *)
Lemma Seek_true_in_range (f f1 : XCDFFile) (id : Z) :
  Seek f id = Ok (true, f1) -> 0 <= id < eventCount_ f.
Proof.
  intros H.
  destruct (Z.ltb_spec id 0) as [A|A];
    [rewrite Seek_out_of_range in H by lia; discriminate|].
  destruct (Z.leb_spec (eventCount_ f) id) as [B|B];
    [rewrite Seek_out_of_range in H by lia; discriminate|].
  lia.
Qed.

(** [getRecord] on an id inside a well-formed file: the tuple of that
    record, and the file rewound. *)
Lemma getRecord_in_range (self : pyxcdf_XCDFFile) (f : XCDFFile) (i : Z) :
  file_ self = Some f -> wf_file f = true -> 0 <= i < GetEventCount f ->
  exists f1 r,
    Seek f i = Ok (true, f1) /\ sameStore f f1 /\
    nth_error (allRecords f) (Z.to_nat i) = Some r /\
    XCDFFile_getRecord self [PyInt i]
    = (PyReturn (tupleOfRecord r),
       mkPyFile (filename_ self) (Some (Rewind f1))).
Proof.
  intros F W I. destruct (wf_file_inv f W) as (_ & _ & _ & U).
  unfold GetEventCount in I.
  destruct (Seek_spec f i W I) as (f1 & r & S1 & S2 & S3 & S4 & S5 & S6).
  exists f1, r. split; [exact S1|]. split; [exact S2|]. split; [exact S4|].
  unfold XCDFFile_getRecord. cbn [parse_O_O]. rewrite F.
  rewrite mask_small by lia. rewrite S1.
  rewrite (recordTuple_combine f1 (descriptors f) r S5)
    by (now rewrite descriptors_length).
  reflexivity.
Qed.

(** C2, as the code has it: an id whose 64-bit value is not below the
    record count makes the engine's [Seek] answer false with the file
    untouched, and [getRecord] turns that answer into the exception
    [XCDFException] with the text [Invalid event number <id>]; the cursor
    and everything else in the file stay as they were. *)
Theorem C2_getRecord_out_of_range_raises (self : pyxcdf_XCDFFile)
    (f : XCDFFile) (args : list PyObject) (recordId : PyObject)
    (fields : option PyObject) :
  file_ self = Some f ->
  parse_O_O args = Some (recordId, fields) ->
  GetEventCount f <= PyInt_AsUnsignedLongLongMask recordId ->
  Seek f (PyInt_AsUnsignedLongLongMask recordId) = Ok (false, f) /\
  XCDFFile_getRecord self args
  = (PyRaise (pyxcdf_XCDFException
                (invalidEventNumber (PyInt_AsUnsignedLongLongMask recordId))),
     self).
Proof.
  intros F Pa I.
  assert (S0 : Seek f (PyInt_AsUnsignedLongLongMask recordId) = Ok (false, f))
    by (apply Seek_out_of_range; now right).
  split; [exact S0|].
  unfold XCDFFile_getRecord. rewrite Pa, F, S0.
  destruct self as [fn fl]. simpl in *. now subst fl.
Qed.


(** C8: whenever [getRecord] returns a record from a well-formed file, it
    has called [Rewind] on the file [Seek] left and the cursor stands before
    record 0 with no record counted as read, so an iteration started
    afterwards (the record count fitting its [int] counters) consults and
    surfaces the records from the first one on, whichever record was
    fetched. *)
Theorem C8_getRecord_rewinds (self self' : pyxcdf_XCDFFile) (f : XCDFFile)
    (args : list PyObject) (t : PyObject) :
  file_ self = Some f -> wf_file f = true ->
  XCDFFile_getRecord self args = (PyReturn t, self') ->
  exists f1 f',
    Seek f (PyInt_AsUnsignedLongLongMask (hd Py_None args)) = Ok (true, f1) /\
    f' = Rewind f1 /\ file_ self' = Some f' /\
    wf_file f' = true /\ atPos f' 0 /\ GetCurrentEventNumber f' = -1 /\
    remaining f' = allRecords f /\
    (GetEventCount f <= INT_MAX ->
     forall select fields,
     exists o,
       iterate (XCDFRecord_iterator f' select fields) f' = Some o /\
       it_consulted o
       = consultationsOf select (descriptors f) 0 (allRecords f) /\
       map fst (it_yielded o)
       = map fst (acceptedOf select (descriptors f) 0 (allRecords f))).
Proof.
  intros F W G.
  assert (K : exists f1,
             Seek f (PyInt_AsUnsignedLongLongMask (hd Py_None args))
             = Ok (true, f1) /\
             self' = mkPyFile (filename_ self) (Some (Rewind f1))).
  { unfold XCDFFile_getRecord in G.
    destruct args as [|a [|b [|c args]]]; cbn [parse_O_O] in G;
      try discriminate; rewrite F in G; cbn [hd];
      (destruct (Seek f (PyInt_AsUnsignedLongLongMask a))
         as [[[|] f1]|e]; [| discriminate | discriminate]);
      exists f1; (split; [reflexivity|]).
    - now inversion G.
    - destruct (PyString_AsString b) as [csv|]; [|discriminate].
      destruct (FieldsByNameSelector_new csv f1); [|discriminate].
      now inversion G. }
  destruct K as (f1 & S1 & ->).
  pose proof (Seek_true_in_range _ _ _ S1) as I.
  destruct (Seek_spec f _ W I) as (f1' & r & S1' & S2 & _).
  rewrite S1 in S1'. inversion S1'; subst f1'.
  pose proof (wf_file_sameStore _ _ W S2) as W1.
  destruct (Rewind_spec f1 W1) as [S3 P3].
  pose proof (wf_file_sameStore _ _ W1 S3) as W2.
  pose proof (sameStore_trans _ _ _ S2 S3) as S4.
  exists f1, (Rewind f1). split; [exact S1|]. split; [reflexivity|].
  split; [reflexivity|]. split; [exact W2|]. split; [exact P3|].
  split; [unfold GetCurrentEventNumber; rewrite (proj2 P3); reflexivity|].
  split.
  { rewrite (proj1 P3). simpl. now apply sameStore_allRecords. }
  intros HI select fields.
  assert (HI2 : GetEventCount (Rewind f1) <= INT_MAX).
  { unfold GetEventCount in *. now replace (eventCount_ (Rewind f1))
      with (eventCount_ f) by (symmetry; apply S4). }
  destruct (iterate_from_start (Rewind f1) select fields
              W2 P3 HI2) as (o & H1 & H2 & _ & H3 & _).
  exists o. rewrite (sameStore_allRecords _ _ S4) in H2, H3.
  replace (descriptors (Rewind f1)) with (descriptors f) in H2, H3
    by (symmetry; apply S4).
  auto.
Qed.

(* ===================================================================== *)
(** * Declaring fields through [addField]                                 *)
(* ===================================================================== *)

Lemma allocateField_declare (f : XCDFFile) (t : XCDFFieldType)
    (nameStr : string) (reso : PyObject) (parent : string) :
  allocateField f t nameStr reso parent
  = declareField f nameStr t (resolutionOf t reso) (parentOfCString parent).
Proof. destruct t; reflexivity. Qed.

Lemma schemaErrorCondition_dec (f : XCDFFile) (name : string)
    (t : XCDFFieldType) (res : Q) (parent : option string) :
  schemaErrorCondition f name t res parent \/
  ~ schemaErrorCondition f name t res parent.
Proof.
  unfold schemaErrorCondition.
  destruct (nameUsed f name), (parentOk f parent), (badResolution t res),
    (recordCommitted f); try (left; tauto);
    right; intros [H|[H|[H|H]]]; discriminate.
Qed.

(** [declareField] refuses a file open for reading; on another file it
    refuses for the four reasons and for nothing else, and otherwise
    appends the field. *)
Lemma declareField_spec (f : XCDFFile) (name : string) (t : XCDFFieldType)
    (res : Q) (parent : option string) :
  (readOnly f = true ->
   declareField f name t res parent = Throw InvalidModeError) /\
  (readOnly f = false ->
   schemaErrorCondition f name t res parent ->
   declareField f name t res parent = Throw SchemaError) /\
  (readOnly f = false ->
   ~ schemaErrorCondition f name t res parent ->
   declareField f name t res parent = Ok (withField f name t res parent)).
Proof.
  unfold schemaErrorCondition, declareField, withField.
  destruct (readOnly f); (split; [|split]); intros M; try discriminate M;
    try reflexivity;
    destruct (nameUsed f name), (parentOk f parent), (badResolution t res),
      (recordCommitted f); simpl; intros H; try reflexivity;
    try (exfalso; apply H; tauto);
    try (exfalso; destruct H as [H|[H|[H|H]]]; discriminate).
Qed.

Lemma declareField_appends (f f1 : XCDFFile) (name : string)
    (t : XCDFFieldType) (res : Q) (par : option string) :
  declareField f name t res par = Ok f1 ->
  f1 = withField f name t res par.
Proof.
  intros H. unfold declareField in H.
  destruct (readOnly f); [discriminate|].
  destruct (nameUsed f name); [discriminate|].
  destruct (negb (parentOk f par)); [discriminate|].
  destruct (badResolution t res); [discriminate|].
  destruct (recordCommitted f); [discriminate|].
  now inversion H.
Qed.

Lemma nameUsed_iff (f : XCDFFile) (name : string) :
  nameUsed f name = true <->
  exists d, In d (descriptors f) /\ fd_name d = name.
Proof.
  unfold nameUsed, findField. split.
  - destruct (find _ _) as [d|] eqn:F; [|discriminate]. intros _.
    apply find_some in F. exists d. split; [apply F|].
    now apply String.eqb_eq.
  - intros (d & H1 & H2).
    destruct (find _ _) as [d'|] eqn:F; [reflexivity|].
    pose proof (find_none _ _ F d H1) as N. simpl in N.
    apply String.eqb_neq in N. congruence.
Qed.

Lemma NoDup_snoc (A : Type) (l : list A) (x : A) :
  NoDup l -> ~ In x l -> NoDup (l ++ [x]).
Proof.
  induction l as [|a l IH]; intros ND NI; simpl.
  - constructor; [intros []|constructor].
  - inversion ND as [|a' l' Ha Hl]; subst. constructor.
    + intros H. apply in_app_or in H. destruct H as [H|[H|[]]]; [tauto|].
      subst. apply NI. now left.
    + apply IH; [assumption|]. intros H. apply NI. now right.
Qed.

(** The registry stays name-unique. *)
Lemma declareField_names_unique (f f' : XCDFFile) (name : string)
    (t : XCDFFieldType) (res : Q) (parent : option string) :
  NoDup (map fd_name (descriptors f)) ->
  declareField f name t res parent = Ok f' ->
  NoDup (map fd_name (descriptors f')).
Proof.
  intros ND H. unfold declareField in H.
  destruct (readOnly f); [discriminate|].
  destruct (nameUsed f name) eqn:U; [discriminate|].
  destruct (negb (parentOk f parent)); [discriminate|].
  destruct (badResolution t res); [discriminate|].
  destruct (recordCommitted f); [discriminate|].
  inversion H; subst f'. unfold descriptors. simpl.
  rewrite !map_app. simpl. fold (descriptors f).
  apply NoDup_snoc; [exact ND|].
  intros In'. apply in_map_iff in In'. destruct In' as (d & D1 & D2).
  assert (N : nameUsed f name = true) by (apply nameUsed_iff; eauto).
  congruence.
Qed.

(** The case a narrowed type value selects when it is an enumerator's. *)
Lemma switchFieldType_recognised (ftype : Z) (t0 : XCDFFieldType) :
  ftype = int_of (typeCode t0) ->
  exists t, switchFieldType ftype = Some t /\ int_of (typeCode t) = ftype.
Proof.
  intros H. unfold switchFieldType.
  destruct (Z.eqb_spec ftype (int_of (typeCode XCDF_UNSIGNED_INTEGER)));
    [eauto|].
  destruct (Z.eqb_spec ftype (int_of (typeCode XCDF_SIGNED_INTEGER)));
    [eauto|].
  destruct (Z.eqb_spec ftype (int_of (typeCode XCDF_FLOATING_POINT)));
    [eauto|].
  destruct t0; congruence.
Qed.

Lemma switchFieldType_default (ftype : Z) :
  (forall t, ftype <> int_of (typeCode t)) -> switchFieldType ftype = None.
Proof.
  intros H. unfold switchFieldType.
  rewrite (proj2 (Z.eqb_neq _ _) (H XCDF_UNSIGNED_INTEGER)).
  rewrite (proj2 (Z.eqb_neq _ _) (H XCDF_SIGNED_INTEGER)).
  rewrite (proj2 (Z.eqb_neq _ _) (H XCDF_FLOATING_POINT)).
  reflexivity.
Qed.

Lemma PyString_AsString_clean (o : PyObject) (s : string) :
  PyString_AsString o = Some s -> PyString_AsString_error o = None.
Proof. destruct o; simpl; intros H; try discriminate; reflexivity. Qed.

Lemma returnWith_clean (o : PyObject) : returnWith o None = PyReturn o.
Proof. reflexivity. Qed.

Lemma returnWith_not_raise (o : PyObject) (p : option ConversionError)
    (e : PyErr) : returnWith o p <> PyRaise e.
Proof. destruct p; discriminate. Qed.

(** [addField] once its arguments are parsed and its type recognised. *)
Lemma addField_recognised (self : pyxcdf_XCDFFile) (f : XCDFFile)
    (args : list PyObject) (name type reso : PyObject)
    (pnam : option PyObject) (nameStr parent : string) (t : XCDFFieldType) :
  file_ self = Some f ->
  parse_OOO_O args = Some (name, type, reso, pnam) ->
  PyString_AsString name = Some nameStr ->
  parentBuffer pnam = Some parent ->
  switchFieldType (int_of (PyInt_AsLong type)) = Some t ->
  XCDFFile_addField self args
  = match allocateField f t nameStr reso parent with
    | Throw e => (PyRaise (pyxcdf_XCDFException (GetMessage e)), self)
    | Ok f1 =>
        (returnWith Py_True
           (latest (PyInt_AsLong_error type) (resolutionError t reso)),
         mkPyFile (filename_ self) (Some f1))
    end.
Proof.
  intros F Pa N B S. unfold XCDFFile_addField.
  rewrite F, Pa, B, S, N, (PyString_AsString_clean _ _ N).
  destruct (PyInt_AsLong_error type); reflexivity.
Qed.



End Bindings.

(* ===================================================================== *)
(** * The field iterator and the method [fields]                          *)
(* ===================================================================== *)

Section MoreBindings.
Context {E : Externals}.

(** One [next()] of the field iterator is one [next()] of the record
    iterator that has its counters, its selector and the default
    selection. *)
Lemma fieldnext_as_recordnext (p : XCDFFieldIterator.t) (f : XCDFFile)
    (s : FieldsByNameSelector) :
  XCDFFieldIterator.selector_ p = Some s ->
  exists o,
    XCDFRecordIterator_iternext (asRecordIterator p) f = Some o /\
    out_result o = fo_result (XCDFFieldIterator_iternext p f) /\
    out_iter o = asRecordIterator (fo_iter (XCDFFieldIterator_iternext p f)) /\
    out_file o = fo_file (XCDFFieldIterator_iternext p f) /\
    XCDFFieldIterator.selector_ (fo_iter (XCDFFieldIterator_iternext p f))
    = Some s.
Proof.
  intros S. unfold XCDFRecordIterator_iternext, XCDFFieldIterator_iternext.
  cbn [iternext_loop]. unfold asRecordIterator.
  cbn [iCurrent_ iTotal_ selectField_ selectEvent_].
  destruct (XCDFFieldIterator.iCurrent_ p <? XCDFFieldIterator.iTotal_ p).
  2:{ eexists. split; [reflexivity|]. simpl. auto. }
  destruct (Read f) as [[n f1]|e].
  2:{ eexists. split; [reflexivity|]. simpl. auto. }
  destruct (0 <? n).
  2:{ eexists. split; [reflexivity|]. simpl. auto. }
  cbn [XCDFFieldIterator.iCurrent_ XCDFFieldIterator.selector_].
  destruct (int_of (GetCurrentEventNumber f1) <? 0).
  { eexists. split; [reflexivity|]. simpl. auto. }
  unfold SelectEvent, selectAll. cbn [negb]. rewrite S.
  eexists. split; [reflexivity|]. simpl. auto.
Qed.

Lemma iterate_loop_fields (fuel : nat) :
  forall (p : XCDFFieldIterator.t) (f : XCDFFile),
    XCDFFieldIterator.selector_ p <> None ->
    match iterateFields_loop fuel p f,
          iterate_loop fuel (asRecordIterator p) f with
    | Some r, Some o =>
        it_yielded o = fit_yielded r /\ it_end o = fit_end r /\
        it_iter o = asRecordIterator (fit_iter r) /\ it_file o = fit_file r
    | None, None => True
    | _, _ => False
    end.
Proof.
  induction fuel as [|fuel IH]; intros p f S; [exact I|].
  destruct (XCDFFieldIterator.selector_ p) as [s|] eqn:Sp; [|congruence].
  destruct (fieldnext_as_recordnext p f s Sp) as (o & H1 & H2 & H3 & H4 & H5).
  cbn [iterateFields_loop iterate_loop]. rewrite H1, H2.
  destruct (fo_result (XCDFFieldIterator_iternext p f)) as [t|e|t e|].
  - rewrite H3, H4.
    specialize (IH (fo_iter (XCDFFieldIterator_iternext p f))
                   (fo_file (XCDFFieldIterator_iternext p f))).
    rewrite H5 in IH. specialize (IH ltac:(discriminate)).
    destruct (iterateFields_loop fuel _ _) as [r|], (iterate_loop fuel _ _)
      as [o'|]; try contradiction; [|exact I].
    destruct IH as (A & B & C & D). simpl. rewrite A. auto.
  - simpl. auto.
  - simpl. auto.
  - simpl. auto.
Qed.

(** X1: an iteration by a field iterator that has a selector is, on every
    file, the iteration by the record iterator with the same counters, the
    same selector and the default selection: both end, with the same
    tuples under the same record numbers in the same order, the same final
    result, and the file and the counters left the same. *)
Theorem X1_fields_iteration_is_records_iteration (p : XCDFFieldIterator.t)
    (f : XCDFFile) :
  XCDFFieldIterator.selector_ p <> None ->
  exists r o,
    iterateFields p f = Some r /\
    iterate (asRecordIterator p) f = Some o /\
    fit_yielded r = it_yielded o /\ fit_end r = it_end o /\
    fit_file r = it_file o /\ asRecordIterator (fit_iter r) = it_iter o.
Proof.
  intros HS. destruct (iterate_total (asRecordIterator p) f) as (o & Ho).
  pose proof (iterate_loop_fields (S (length (remaining f))) p f HS) as H.
  unfold iterate in Ho. unfold iterateFields, iterate. rewrite Ho in *.
  destruct (iterateFields_loop _ p f) as [r|]; [|contradiction].
  destruct H as (A & B & C & D). exists r, o. auto 10.
Qed.

(* ===================================================================== *)
(** * Iterators run again, and run from where the cursor stands           *)
(* ===================================================================== *)

Lemma seq_from (k m : nat) :
  forall a,
    map (fun i => Z.of_nat k + Z.of_nat i) (seq a m)
    = map Z.of_nat (seq (k + a) m).
Proof.
  induction m as [|m IH]; intros a; simpl; [reflexivity|].
  f_equal; [lia|]. rewrite IH. now replace (k + S a)%nat with (S (k + a)) by lia.
Qed.

Lemma consultationsOf_ids (ev : EventSelectExpression)
    (ds : list XCDFFieldDescriptor) (k : nat) (rs : list Record_) :
  map fst (consultationsOf ev ds (Z.of_nat k) rs)
  = map Z.of_nat (seq k (length rs)).
Proof.
  unfold consultationsOf. rewrite map_map. simpl.
  rewrite numbered_ids, seq_from. now rewrite Nat.add_0_r.
Qed.

Lemma fresh_total (f : XCDFFile) :
  wf_file f = true -> GetEventCount f <= INT_MAX ->
  int_of (GetEventCount f) = GetEventCount f /\
  GetEventCount f = Z.of_nat (length (allRecords f)).
Proof.
  intros W HI. destruct (wf_file_inv f W) as (_ & _ & C & _).
  unfold GetEventCount in *. split; [|exact C].
  apply int_of_small. unfold INT_MIN. lia.
Qed.

(** X2: [fields(name)] on a well-formed file at its start, the record
    count fitting the [int] counters: when the selector's constructor
    throws, the method raises [XCDFException] with the engine's message;
    otherwise the iterator it returns surfaces one tuple per record, under
    the numbers 0, 1, ..., each being the selector's tuple of the file with
    that record loaded, then raises [StopIteration] with the file
    rewound. *)
Theorem X2_fields_yields_every_record (self : pyxcdf_XCDFFile) (f : XCDFFile)
    (fieldName : PyObject) (csv : string) :
  file_ self = Some f -> wf_file f = true -> atPos f 0 ->
  GetEventCount f <= INT_MAX ->
  PyString_AsString fieldName = Some csv ->
  match FieldsByNameSelector_new csv f with
  | Throw e =>
      XCDFField_iterator self fieldName
      = IterRaise (pyxcdf_XCDFException (GetMessage e))
  | Ok s =>
      exists it r,
        XCDFField_iterator self fieldName = IterOk it /\
        iterateFields it f = Some r /\
        Forall2
          (fun y jr =>
             fst y = fst jr /\
             exists g, snd y = FieldsByNameSelector_GetTuple s g /\
                       fields_ g = combine (descriptors f) (snd jr) /\
                       GetCurrentEventNumber g = fst jr /\ sameStore f g)
          (fit_yielded r) (numbered 0 (allRecords f)) /\
        fit_end r = PyRaise PyExc_StopIteration /\
        atPos (fit_file r) 0
  end.
Proof.
  intros F W P HI N. unfold XCDFField_iterator. rewrite F, N.
  destruct (FieldsByNameSelector_new csv f) as [s|e]; [|reflexivity].
  set (it := XCDFFieldIterator.make E 0 (int_of (GetEventCount f)) (Some s)).
  destruct (fresh_total f W HI) as [T C].
  destruct (iterate_at (asRecordIterator it) f 0 W P HI) as
    (o & H1 & _ & _ & H4 & H5 & _ & _ & H8 & _).
  { exact T. }
  { intros NE. simpl. rewrite T, C.
    simpl in NE. destruct (allRecords f); [congruence|]. simpl. lia. }
  pose proof (iterate_loop_fields (S (length (remaining f))) it f
                ltac:(discriminate)) as L.
  unfold iterate in H1. rewrite H1 in L.
  exists it. unfold iterateFields.
  destruct (iterateFields_loop _ it f) as [r|]; [|contradiction].
  destruct L as (A & B & _ & D). exists r.
  split; [reflexivity|]. split; [reflexivity|].
  rewrite <- A, <- B, <- D.
  simpl skipn in H4.
  rewrite acceptedOf_always in H4 by reflexivity.
  auto.
Qed.


(** X4: [records] does not rewind.  On a well-formed file of at most
    [INT_MAX] records, an iterator made while the cursor stands before
    record [k] consults the records [k], [k+1], ... only and surfaces the
    accepted ones among them; the records before [k] are not seen.  It
    ends with [StopIteration] and the file rewound. *)
Theorem X4_records_starts_at_the_cursor (f : XCDFFile) (k : nat)
    (select : EventSelectExpression) :
  wf_file f = true -> atPos f k -> GetEventCount f <= INT_MAX ->
  exists o,
    iterate (XCDFRecord_iterator f select None) f = Some o /\
    map fst (it_consulted o)
    = map Z.of_nat (seq k (length (allRecords f) - k)) /\
    it_consulted o
    = consultationsOf select (descriptors f) (Z.of_nat k)
                      (skipn k (allRecords f)) /\
    it_yielded o
    = map (fun jr => (fst jr, tupleOfRecord (snd jr)))
          (acceptedOf select (descriptors f) (Z.of_nat k)
                      (skipn k (allRecords f))) /\
    it_end o = PyRaise PyExc_StopIteration /\
    atPos (it_file o) 0.
Proof.
  intros W P HI. destruct (fresh_total f W HI) as [T C].
  destruct (iterate_at (XCDFRecord_iterator f select None) f k W P HI T) as
    (o & H1 & H2 & H3 & _ & H5 & _ & _ & H8 & _).
  { intros NE. simpl. rewrite T, C.
    destruct (allRecords f); [destruct k; simpl in NE; congruence|].
    simpl. lia. }
  exists o. split; [exact H1|]. split.
  { rewrite H2. simpl selectEvent_.
    rewrite consultationsOf_ids, length_skipn. reflexivity. }
  split; [exact H2|]. split; [exact (H3 eq_refl)|]. split; assumption.
Qed.

(* ===================================================================== *)
(** * Random access, call after call                                      *)
(* ===================================================================== *)

(** X5: calls of [getRecord] one after the other on a well-formed file,
    wherever its cursor stands, with ids inside the file in any order and
    with repetitions: every call returns the tuple of the record of its
    id; the store is untouched and after the last call the cursor stands
    before record 0. *)
Theorem X5_getRecord_in_any_order (ids : list Z) :
  forall (self : pyxcdf_XCDFFile) (f : XCDFFile),
    file_ self = Some f -> wf_file f = true ->
    Forall (fun i => 0 <= i < GetEventCount f) ids ->
    Forall2
      (fun i res =>
         exists r, nth_error (allRecords f) (Z.to_nat i) = Some r /\
                   res = PyReturn (tupleOfRecord r))
      ids (fst (getRecords self ids)) /\
    exists f',
      file_ (snd (getRecords self ids)) = Some f' /\
      sameStore f f' /\ wf_file f' = true /\ (ids <> [] -> atPos f' 0).
Proof.
  induction ids as [|i rest IH]; intros self f F W R.
  - simpl. split; [constructor|]. exists f.
    split; [exact F|]. split; [apply sameStore_refl|]. split; [exact W|].
    congruence.
  - inversion R as [|i' rest' Ri Rrest]; subst.
    destruct (getRecord_in_range self f i F W Ri) as (f1 & r & _ & S1 & N & G).
    pose proof (wf_file_sameStore _ _ W S1) as W1.
    destruct (Rewind_spec f1 W1) as [S2 P2].
    pose proof (wf_file_sameStore _ _ W1 S2) as W2.
    pose proof (sameStore_trans _ _ _ S1 S2) as S3.
    cbn [getRecords]. rewrite G. cbn [fst snd].
    destruct (IH (mkPyFile (filename_ self) (Some (Rewind f1))) (Rewind f1)
                 eq_refl W2) as (I1 & f' & I2 & I3 & I4 & I5).
    { eapply Forall_impl; [|exact Rrest]. intros a Ha. unfold GetEventCount in *.
      now replace (eventCount_ (Rewind f1)) with (eventCount_ f)
        by (symmetry; apply S3). }
    rewrite (sameStore_allRecords _ _ S3) in I1.
    split.
    + constructor; [exists r; auto | exact I1].
    + exists f'. split; [exact I2|].
      split; [eapply sameStore_trans; eauto|]. split; [exact I4|].
      intros _. destruct rest as [|j rest].
      * simpl in I2. inversion I2; subst f'. exact P2.
      * apply I5. discriminate.
Qed.

(** X6: when [getRecord] has found its record and the constructor of the
    selector for its field list throws, the call raises [XCDFException]
    with the engine's message and the file is not rewound: record [i]
    stays loaded, the cursor stands behind it, and an iteration started
    then consults the records after [i] only. *)
Theorem X6_getRecord_failed_selection_keeps_the_cursor (self : pyxcdf_XCDFFile)
    (f f1 : XCDFFile) (i : Z) (fl : PyObject) (csv : string)
    (e : XCDFException) :
  file_ self = Some f -> wf_file f = true ->
  Seek f i = Ok (true, f1) ->
  PyString_AsString fl = Some csv ->
  FieldsByNameSelector_new csv f1 = Throw e ->
  XCDFFile_getRecord self [PyInt i; fl]
  = (PyRaise (pyxcdf_XCDFException (GetMessage e)),
     mkPyFile (filename_ self) (Some f1)) /\
  GetCurrentEventNumber f1 = i /\
  remaining f1 = skipn (Z.to_nat i + 1) (allRecords f) /\
  (GetEventCount f <= INT_MAX ->
   forall select,
   exists o,
     iterate (XCDFRecord_iterator f1 select None) f1 = Some o /\
     map fst (it_consulted o)
     = map Z.of_nat (seq (Z.to_nat i + 1)
                         (length (allRecords f) - (Z.to_nat i + 1))) /\
     it_yielded o
     = map (fun jr => (fst jr, tupleOfRecord (snd jr)))
           (acceptedOf select (descriptors f) (i + 1)
                       (skipn (Z.to_nat i + 1) (allRecords f)))).
Proof.
  intros F W SK N T.
  pose proof (Seek_true_in_range _ _ _ SK) as I.
  destruct (wf_file_inv f W) as (_ & _ & _ & U).
  destruct (Seek_spec f i W I) as (f1' & r & S1 & S2 & S3 & _).
  rewrite SK in S1. inversion S1; subst f1'. clear S1.
  pose proof (wf_file_sameStore _ _ W S2) as W1.
  pose proof (sameStore_allRecords _ _ S2) as A.
  split; [|split; [|split]].
  - unfold XCDFFile_getRecord. cbn [parse_O_O]. rewrite F.
    rewrite mask_small by lia. rewrite SK, N, T. reflexivity.
  - unfold GetCurrentEventNumber. rewrite (proj2 S3). lia.
  - rewrite (proj1 S3), A. reflexivity.
  - intros HI select.
    assert (HI1 : GetEventCount f1 <= INT_MAX).
    { unfold GetEventCount in *. now replace (eventCount_ f1)
        with (eventCount_ f) by (symmetry; apply S2). }
    destruct (fresh_total f1 W1 HI1) as [T1 C1].
    destruct (iterate_at (XCDFRecord_iterator f1 select None) f1
                (Z.to_nat i + 1) W1 S3 HI1 T1) as
      (o & H1 & H2 & H3 & _).
    { intros NE. simpl. rewrite T1, C1.
      destruct (allRecords f1); [|simpl; lia].
      destruct (Z.to_nat i + 1)%nat; simpl in NE; congruence. }
    exists o. split; [exact H1|].
    simpl selectEvent_ in *. rewrite A in *.
    replace (descriptors f1) with (descriptors f) in * by (symmetry; apply S2).
    split.
    + rewrite H2, consultationsOf_ids, length_skipn. reflexivity.
    + rewrite (H3 eq_refl).
      now replace (Z.of_nat (Z.to_nat i + 1)) with (i + 1) by lia.
Qed.

(* ===================================================================== *)
(** * The getters                                                         *)
(* ===================================================================== *)

Lemma long_of_small (z : Z) : LONG_MIN <= z <= LONG_MAX -> long_of z = z.
Proof.
  unfold long_of, LONG_MIN, LONG_MAX. intros H.
  rewrite Z.mod_small by lia. lia.
Qed.


(** X8: a record count above [INT_MAX] (up to 2^32) is not positive once
    stored in the iterator's [int] total: the first [next()] rewinds and
    raises [StopIteration] without reading, so the iteration surfaces no
    record and consults the evaluator on none. *)
Theorem X8_iteration_is_empty_beyond_INT_MAX (f : XCDFFile)
    (select : EventSelectExpression) (fields : option FieldsByNameSelector) :
  INT_MAX < GetEventCount f <= 2 * INT_MAX + 2 ->
  iterate (XCDFRecord_iterator f select fields) f
  = Some (mkIteration E [] [] (PyRaise PyExc_StopIteration)
                      (XCDFRecord_iterator f select fields) (Rewind f)).
Proof.
  intros H. unfold iterate. cbn [iterate_loop].
  unfold XCDFRecordIterator_iternext. cbn [iternext_loop].
  unfold XCDFRecord_iterator at 1 2. cbn [iCurrent_ iTotal_].
  replace (0 <? int_of (GetEventCount f)) with false; [reflexivity|].
  symmetry. apply Z.ltb_ge. unfold int_of, INT_MIN, INT_MAX in *.
  Z.div_mod_to_equations. lia.
Qed.

(* ===================================================================== *)
(** * The tuple setter beyond one pass                                    *)
(* ===================================================================== *)

Lemma set_nth_length (A : Type) (l : list A) :
  forall i x, length (set_nth l i x) = length l.
Proof.
  induction l as [|a l IH]; intros [|i] x; simpl; auto.
Qed.

Lemma nth_error_set_nth_eq (A : Type) (l : list A) :
  forall i x, (i < length l)%nat -> nth_error (set_nth l i x) i = Some x.
Proof.
  induction l as [|a l IH]; intros [|i] x H; simpl in *; try lia; auto.
  apply IH. lia.
Qed.

Lemma nth_error_set_nth_neq (A : Type) (l : list A) :
  forall i j x, i <> j -> nth_error (set_nth l i x) j = nth_error l j.
Proof.
  induction l as [|a l IH]; intros [|i] [|j] x H; simpl; auto; try congruence.
Qed.

Lemma mod_apart (n k m : nat) :
  (k < m)%nat -> (m < k + n)%nat -> (k mod n <> m mod n)%nat.
Proof.
  intros H1 H2 Heq.
  pose proof (Nat.div_mod_eq k n) as Dk.
  pose proof (Nat.div_mod_eq m n) as Dm.
  rewrite Heq in Dk.
  assert (Hq : (k / n < m / n)%nat) by nia.
  nia.
Qed.

(** X9: a setter for [n] slots, [n] above 0, called on any number of
    fields (the counts fitting its [int] members): the tuple keeps its [n]
    slots, call number [k] writes slot [k mod n], so that after the calls
    a slot holds the entry of the last field that fell on it, and a slot
    no call fell on is still NULL. *)
Theorem X9_TupleSetter_writes_slot_k_mod_n (n : nat) (flds : list XCDFField) :
  (0 < n)%nat -> Z.of_nat n <= INT_MAX ->
  Z.of_nat (length flds) <= INT_MAX ->
  let ts := fold_left TupleSetter_call flds (TupleSetter_new (Z.of_nat n)) in
  nfields_ ts = Z.of_nat n /\
  ifield_ ts = Z.of_nat (length flds) /\
  length (tuple_ ts) = n /\
  (forall k fld,
     nth_error flds k = Some fld -> (length flds <= k + n)%nat ->
     nth_error (tuple_ ts) (k mod n) = Some (Some (slotOf fld))) /\
  (forall j, (length flds <= j < n)%nat -> nth_error (tuple_ ts) j = Some None).
Proof.
  intros Hn Hi. induction flds as [|x l IH] using rev_ind; intros Hl ts.
  - subst ts. simpl. unfold PyTuple_New. rewrite Nat2Z.id, repeat_length.
    repeat split; auto.
    + intros [|k] fld H; discriminate.
    + intros j Hj. apply nth_error_repeat. lia.
  - subst ts. rewrite fold_left_app. cbn [fold_left].
    set (t0 := fold_left TupleSetter_call l (TupleSetter_new (Z.of_nat n)))
      in *.
    rewrite length_app in Hl. cbn [length] in Hl.
    cbv zeta in IH. destruct (IH ltac:(lia)) as (I1 & I2 & I3 & I4 & I5).
    rewrite TupleSetter_call_slot. cbn [nfields_ ifield_ tuple_].
    rewrite I1, I2.
    assert (M : Z.rem (Z.of_nat (length l)) (Z.of_nat n)
                = Z.of_nat (length l mod n)).
    { rewrite Z.rem_mod_nonneg by lia. now rewrite Nat2Z.inj_mod. }
    pose proof (Nat.mod_upper_bound (length l) n ltac:(lia)) as UB.
    rewrite M. unfold PyTuple_SetItem.
    replace ((0 <=? Z.of_nat (length l mod n)) &&
             (Z.of_nat (length l mod n) <? Z.of_nat (length (tuple_ t0))))
      with true.
    2:{ symmetry. apply andb_true_iff.
        split; [apply Z.leb_le | apply Z.ltb_lt]; lia. }
    cbn [snd]. rewrite Nat2Z.id, length_app. cbn [length].
    split; [reflexivity|]. split; [lia|].
    split; [now rewrite set_nth_length|]. split.
    + intros k fld Hk Hlen.
      destruct (Nat.eq_dec k (length l)) as [->|Hne].
      * rewrite nth_error_app2, Nat.sub_diag in Hk by lia.
        inversion Hk; subst fld.
        apply nth_error_set_nth_eq. lia.
      * assert (Hlt : (k < length l)%nat).
        { assert (k < length (l ++ [x]))%nat
            by (apply nth_error_Some; congruence).
          rewrite length_app in *. simpl in *. lia. }
        rewrite nth_error_app1 in Hk by exact Hlt.
        rewrite nth_error_set_nth_neq.
        -- apply I4; [exact Hk | lia].
        -- intros Heq. symmetry in Heq. revert Heq.
           apply mod_apart; lia.
    + intros j Hj. rewrite nth_error_set_nth_neq; [apply I5; lia|].
      rewrite Nat.mod_small by lia. lia.
Qed.

(* ===================================================================== *)
(** * The registry under any calls of [addField]                          *)
(* ===================================================================== *)

(** One call of [addField]: either the object is as before and True was
    not returned, or True was returned and the engine has declared one
    field. *)
Lemma addField_step (self : pyxcdf_XCDFFile) (f : XCDFFile)
    (args : list PyObject) :
  file_ self = Some f ->
  (returnedTrue (fst (XCDFFile_addField self args)) = false /\
   snd (XCDFFile_addField self args) = self) \/
  (returnedTrue (fst (XCDFFile_addField self args)) = true /\
   exists name t res par f1,
     declareField f name t res par = Ok f1 /\
     snd (XCDFFile_addField self args)
     = mkPyFile (filename_ self) (Some f1)).
Proof.
  intros F. unfold XCDFFile_addField. rewrite F.
  destruct (parse_OOO_O args) as [[[[name type] reso] pnam]|]; [|now left].
  destruct (parentBuffer pnam) as [parent|]; [|now left].
  destruct (switchFieldType (int_of (PyInt_AsLong type))) as [t|].
  2:{ left. split; [|reflexivity]. cbn [fst].
      destruct (latest _ _); reflexivity. }
  destruct (PyString_AsString name) as [nameStr|]; [|now left].
  rewrite allocateField_declare.
  destruct (declareField f nameStr t (resolutionOf t reso)
              (parentOfCString parent)) as [f1|e] eqn:D; [|now left].
  right. split.
  - cbn [fst]. destruct (latest _ _); reflexivity.
  - simpl. eauto 10.
Qed.

(** X10: calls of [addField] one after the other on an open file, with
    any arguments, none of them running into undefined behaviour: the
    fields declared before stay in place and in order, the registry grows
    at its end by one empty field per call that returned True (also when
    it did so with the error of an unchecked conversion still set) and by
    nothing else, the names stay distinct, and the records, the seek table,
    the record count and the cursor are untouched. *)
Theorem X10_addField_only_appends (calls : list (list PyObject)) :
  forall (self : pyxcdf_XCDFFile) (f : XCDFFile),
    file_ self = Some f -> NoDup (map fd_name (descriptors f)) ->
    Forall (fun r => r <> PyUndefined) (fst (addFields self calls)) ->
    exists f' added,
      snd (addFields self calls) = mkPyFile (filename_ self) (Some f') /\
      fields_ f' = fields_ f ++ added /\
      length added
      = length (filter returnedTrue (fst (addFields self calls))) /\
      Forall (fun df => snd df = emptyField (fd_type (fst df))) added /\
      NoDup (map fd_name (descriptors f')) /\
      blocks_ f' = blocks_ f /\ seekTable_ f' = seekTable_ f /\
      eventCount_ f' = eventCount_ f /\
      blockIndex_ f' = blockIndex_ f /\ posInBlock_ f' = posInBlock_ f /\
      eventNumber_ f' = eventNumber_ f.
Proof.
  induction calls as [|args rest IH]; intros self f F ND DEF.
  - exists f, []. simpl. rewrite app_nil_r.
    destruct self as [fn fl]. simpl in *. subst fl.
    repeat split; auto.
  - cbn [addFields fst snd] in *.
    inversion DEF as [|r0 l0 _ DEF']; subst.
    destruct (addField_step self f args F) as [[R S]|(R & name & t & res & par
                                                      & f1 & D & S)].
    + rewrite S in *. cbn [filter]. rewrite R. exact (IH self f F ND DEF').
    + rewrite S in *. cbn [filter]. rewrite R.
      pose proof (declareField_names_unique f f1 name t res par ND D) as ND1.
      apply declareField_appends in D. subst f1.
      destruct (IH (mkPyFile (filename_ self)
                      (Some (withField f name t res par)))
                   (withField f name t res par) eq_refl ND1 DEF')
        as (f' & added & H1 & H2 & H3 & H4 & H5 & H6 & H7 & H8 & H9 & H10
            & H11).
      exists f', ((mkDescriptor name t res par, emptyField t) :: added).
      cbn [filename_] in H1.
      split; [exact H1|]. split.
      { rewrite H2. unfold withField. simpl. now rewrite <- app_assoc. }
      split; [cbn [length]; now rewrite H3|].
      split; [constructor; [reflexivity | exact H4]|].
      split; [exact H5|]. auto 10.
Qed.

End MoreBindings.

(* ===================================================================== *)
(** * The method [records]                                                *)
(* ===================================================================== *)

Section Records.
Context {E : Externals} {SP : SelectionParser}.

(** X11: [records()] without arguments builds its evaluator from the
    expression [true]; when the parser reads that as a selection that
    accepts everything, the iterator it returns surfaces, on a well-formed
    file of at most [INT_MAX] records at its start, every record as the
    tuple of all its fields, in file order, and ends with [StopIteration]
    and the file rewound.  An expression the parser refuses makes
    [records] raise [XCDFException] with the parser's message, the field
    list not being looked at. *)
Theorem X11_records_by_default_yields_every_record (self : pyxcdf_XCDFFile)
    (f : XCDFFile) (ev : EventSelectExpression) :
  file_ self = Some f -> wf_file f = true -> atPos f 0 ->
  GetEventCount f <= INT_MAX ->
  EventSelectExpression_new "true" f = Ok ev -> (forall v, ev v = true) ->
  (exists it o,
     pyxcdf_records self [] [] = IterOk it /\
     iterate it f = Some o /\
     it_yielded o
     = map (fun jr => (fst jr, tupleOfRecord (snd jr)))
           (numbered 0 (allRecords f)) /\
     it_end o = PyRaise PyExc_StopIteration /\
     atPos (it_file o) 0) /\
  (forall expr fl e,
     EventSelectExpression_new expr f = Throw e ->
     pyxcdf_records self [PyString expr; fl] []
     = IterRaise (pyxcdf_XCDFException (GetMessage e)) /\
     pyxcdf_records self [] [("fields"%string, fl);
                             ("select"%string, PyString expr)]
     = IterRaise (pyxcdf_XCDFException (GetMessage e))).
Proof.
  intros F W P HI EV A. split.
  - destruct (fresh_total f W HI) as [T C].
    destruct (iterate_at (XCDFRecord_iterator f ev None) f 0 W P HI T)
      as (o & H1 & _ & H3 & _ & H5 & _ & _ & H8 & _).
    { intros NE. simpl. rewrite T, C. simpl in NE.
      destruct (allRecords f); [congruence|]. simpl. lia. }
    exists (XCDFRecord_iterator f ev None), o.
    split.
    { unfold pyxcdf_records. rewrite F. cbn [parse_kw_OO forallb kwArg find].
      now rewrite EV. }
    split; [exact H1|]. split; [|split; assumption].
    rewrite (H3 eq_refl). simpl.
    now rewrite acceptedOf_always by exact A.
  - intros expr fl e T. unfold pyxcdf_records. rewrite F.
    split.
    + cbn [parse_kw_OO forallb kwArg find PyString_AsString].
      now rewrite T.
    + cbn. now rewrite T.
Qed.

End Records.

(* ===================================================================== *)
(** * A file with more records than a C [int] counts                      *)
(* ===================================================================== *)

Lemma forallb_repeat (A : Type) (p : A -> bool) (x : A) (n : nat) :
  p x = true -> forallb p (repeat x n) = true.
Proof. intros H. induction n as [|n IH]; simpl; [reflexivity|]. now rewrite H. Qed.

Lemma manyRecords_allRecords (n : nat) :
  allRecords (manyRecords n) = repeat [UnsignedField [1]] n.
Proof. unfold allRecords, manyRecords. simpl. apply app_nil_r. Qed.

Lemma manyRecords_wf (n : nat) :
  Z.of_nat n < UINT64_MOD -> wf_file (manyRecords n) = true.
Proof.
  intros H. unfold wf_file. rewrite manyRecords_allRecords.
  rewrite forallb_repeat by reflexivity.
  rewrite repeat_length.
  unfold manyRecords. cbn [blocks_ seekTable_ eventCount_ forallb
                            buildSeekTable seekTable_eqb].
  unfold countOk, SeekEntry_eqb. cbn [blk_count blk_records se_first se_offset].
  rewrite repeat_length, Nat.eqb_refl, !Z.eqb_refl.
  rewrite (proj2 (Z.ltb_lt _ _) H). reflexivity.
Qed.

Lemma manyRecords_atPos (n : nat) : atPos (manyRecords n) 0.
Proof. split; reflexivity. Qed.

Lemma manyRecords_first (n : nat) :
  (0 < n)%nat ->
  nth_error (allRecords (manyRecords n)) 0 = Some [UnsignedField [1]].
Proof.
  intros H. rewrite manyRecords_allRecords. destruct n; [lia|reflexivity].
Qed.

Lemma beyondInt_count : Z.of_nat beyondInt = INT_MAX + 1.
Proof. unfold beyondInt. apply Z2Nat.id. unfold INT_MAX. lia. Qed.

Section BeyondInt.
Context {E : Externals}.

(** With a record count above [INT_MAX], up to 2^32, the total the
    iterator keeps is not positive and the iteration is over at once. *)
Lemma iterate_count_beyond_int (f : XCDFFile)
    (select : EventSelectExpression) (fields : option FieldsByNameSelector) :
  INT_MAX < GetEventCount f <= 2 * INT_MAX + 2 ->
  iterate (XCDFRecord_iterator f select fields) f
  = Some (mkIteration E [] [] (PyRaise PyExc_StopIteration)
                      (XCDFRecord_iterator f select fields) (Rewind f)).
Proof.
  intros H. unfold iterate. cbn [iterate_loop].
  unfold XCDFRecordIterator_iternext. cbn [iternext_loop].
  unfold XCDFRecord_iterator at 1 2. cbn [iCurrent_ iTotal_].
  replace (0 <? int_of (GetEventCount f)) with false; [reflexivity|].
  symmetry. apply Z.ltb_ge. unfold int_of, INT_MIN, INT_MAX in *.
  Z.div_mod_to_equations. lia.
Qed.

End BeyondInt.

(* ===================================================================== *)
(** * The theorems at work on the sample file                             *)
(* ===================================================================== *)

#[local] Existing Instance sampleExternals.

(** C2 as the specification words it, read on [getRecord], fails: record
    3 of a file of three records is out of range, the engine's [Seek]
    answers false, and the call does not return False but raises. *)
Lemma C2_counterexample :
  GetEventCount sampleFile <= 3 /\
  Seek sampleFile 3 = Ok (false, sampleFile) /\
  XCDFFile_getRecord samplePyFile [PyInt 3]
  = (PyRaise (pyxcdf_XCDFException "Invalid event number 3"), samplePyFile) /\
  fst (XCDFFile_getRecord samplePyFile [PyInt 3]) <> PyReturn Py_False.
Proof.
  split; [vm_compute; discriminate|]. split; [reflexivity|].
  split; [reflexivity|]. vm_compute. discriminate.
Qed.

(** An id is taken modulo 2^64: -1 is out of range as 2^64 - 1, while
    -2^64 is record 0. *)
Example getRecord_masks_its_id :
  fst (XCDFFile_getRecord samplePyFile [PyInt (-1)])
  = PyRaise (pyxcdf_XCDFException "Invalid event number 18446744073709551615")
  /\
  fst (XCDFFile_getRecord samplePyFile [PyInt (- 2 ^ 64)])
  = fst (XCDFFile_getRecord samplePyFile [PyInt 0]).
Proof. split; reflexivity. Qed.

Lemma C2_witness :
  file_ samplePyFile = Some sampleFile /\
  parse_O_O [PyInt 3] = Some (PyInt 3, None) /\
  GetEventCount sampleFile <= PyInt_AsUnsignedLongLongMask (PyInt 3) /\
  (Seek sampleFile (PyInt_AsUnsignedLongLongMask (PyInt 3))
   = Ok (false, sampleFile) /\
   XCDFFile_getRecord samplePyFile [PyInt 3]
   = (PyRaise (pyxcdf_XCDFException
                 (invalidEventNumber
                    (PyInt_AsUnsignedLongLongMask (PyInt 3)))),
      samplePyFile)).
Proof.
  split; [reflexivity|]. split; [reflexivity|].
  split; [vm_compute; discriminate|].
  apply (C2_getRecord_out_of_range_raises samplePyFile sampleFile
           [PyInt 3] (PyInt 3) None);
    [reflexivity | reflexivity | vm_compute; discriminate].
Defined.





(** The sample iteration spelled out: three consultations, the record
    without a hit held back. *)
Example sample_iteration :
  option_map (fun o => (map fst (it_yielded o), it_consulted o, it_end o))
    (iterate (XCDFRecord_iterator sampleFile sampleSelect None) sampleFile)
  = Some ([0; 2], [(0, true); (1, false); (2, true)],
          PyRaise PyExc_StopIteration).
Proof. reflexivity. Qed.



(** The four refusals and an acceptance on files open for writing or
    appending, and the refusal of a file open for reading. *)
Example addField_refusals :
  fst (XCDFFile_addField emptyPyFile [PyString "e"; PyInt 2; PyFloat 0])
  = PyRaise (pyxcdf_XCDFException "SchemaError") /\
  fst (XCDFFile_addField emptyPyFile
         [PyString "pe"; PyInt 2; PyFloat 1; PyString "nhit"])
  = PyRaise (pyxcdf_XCDFException "SchemaError") /\
  fst (XCDFFile_addField (mkPyFile (PyString "more.xcd") (Some appendFile))
         [PyString "e"; PyInt 2; PyFloat 1])
  = PyRaise (pyxcdf_XCDFException "SchemaError") /\
  fst (XCDFFile_addField
         (mkPyFile (PyString "new.xcd")
            (Some (withField emptyFile "nhit" XCDF_UNSIGNED_INTEGER 1 None)))
         [PyString "nhit"; PyInt 1; PyInt 1])
  = PyRaise (pyxcdf_XCDFException "SchemaError") /\
  fst (XCDFFile_addField
         (mkPyFile (PyString "new.xcd")
            (Some (withField emptyFile "nhit" XCDF_UNSIGNED_INTEGER 1 None)))
         [PyString "pe"; PyInt 2; PyFloat (1 # 100); PyString "nhit"])
  = PyReturn Py_True /\
  XCDFFile_addField (mkPyFile (PyString "old.xcd") (Some emptyReadFile))
    [PyString "e"; PyInt 2; PyFloat 1]
  = (PyRaise (pyxcdf_XCDFException "InvalidModeError"),
     mkPyFile (PyString "old.xcd") (Some emptyReadFile)).
Proof. repeat split; reflexivity. Qed.

(** Conversions that fail and are not checked: a float for the resolution
    of an unsigned field and 2^63 for that of a signed one leave their
    error set while the field is declared and True returned; an integer
    too large for a double becomes the resolution -1.0, which the engine
    refuses. *)
Example addField_unchecked_resolution :
  XCDFFile_addField emptyPyFile [PyString "n"; PyInt 0; PyFloat (1 # 2)]
  = (PyReturnWithError Py_True ConvTypeError,
     mkPyFile (PyString "new.xcd")
       (Some (withField emptyFile "n" XCDF_UNSIGNED_INTEGER
                (inject_Z (2 ^ 64 - 1)) None))) /\
  XCDFFile_addField emptyPyFile [PyString "s"; PyInt 1; PyInt (2 ^ 63)]
  = (PyReturnWithError Py_True ConvOverflowError,
     mkPyFile (PyString "new.xcd")
       (Some (withField emptyFile "s" XCDF_SIGNED_INTEGER
                (inject_Z (-1)) None))) /\
  XCDFFile_addField emptyPyFile [PyString "e"; PyInt 2; PyInt (10 ^ 400)]
  = (PyRaise (pyxcdf_XCDFException "SchemaError"), emptyPyFile).
Proof. repeat split; vm_compute; reflexivity. Qed.

Lemma C7_witness :
  wf_file sampleFile = true /\
  ((remaining sampleFile = [] ->
    exists o,
      XCDFRecordIterator_iternext
        (XCDFRecord_iterator sampleFile sampleSelect None) sampleFile
      = Some o /\
      out_result o = PyRaise PyExc_StopIteration /\
      out_file o = Rewind sampleFile) /\
   (forall msg,
      PyRaise PyExc_StopIteration <> PyRaise (pyxcdf_XCDFException msg)) /\
   exists o,
     iterate (XCDFRecord_iterator sampleFile sampleSelect None) sampleFile
     = Some o /\
     it_end o = PyRaise PyExc_StopIteration /\
     Z.of_nat (length (it_yielded o)) <= GetEventCount sampleFile).
Proof.
  split; [reflexivity|].
  apply (C7_iteration_ends_with_StopIteration
           (XCDFRecord_iterator sampleFile sampleSelect None) sampleFile).
  reflexivity.
Defined.

Lemma C8_witness :
  file_ samplePyFile = Some sampleFile /\ wf_file sampleFile = true /\
  XCDFFile_getRecord samplePyFile [PyInt 2]
  = (PyReturn (PyTuple [Some (PyInt 1); Some (PyFloat (1 # 2))]),
     snd (XCDFFile_getRecord samplePyFile [PyInt 2])) /\
  exists f1 f',
    Seek sampleFile (PyInt_AsUnsignedLongLongMask (hd Py_None [PyInt 2]))
    = Ok (true, f1) /\
    f' = Rewind f1 /\
    file_ (snd (XCDFFile_getRecord samplePyFile [PyInt 2])) = Some f' /\
    wf_file f' = true /\ atPos f' 0 /\ GetCurrentEventNumber f' = -1 /\
    remaining f' = allRecords sampleFile /\
    (GetEventCount sampleFile <= INT_MAX ->
     forall select fields,
     exists o,
       iterate (XCDFRecord_iterator f' select fields) f' = Some o /\
       it_consulted o
       = consultationsOf select (descriptors sampleFile) 0
                         (allRecords sampleFile) /\
       map fst (it_yielded o)
       = map fst (acceptedOf select (descriptors sampleFile) 0
                             (allRecords sampleFile))).
Proof.
  split; [reflexivity|]. split; [reflexivity|]. split; [reflexivity|].
  apply (C8_getRecord_rewinds samplePyFile
           (snd (XCDFFile_getRecord samplePyFile [PyInt 2])) sampleFile
           [PyInt 2] (PyTuple [Some (PyInt 1); Some (PyFloat (1 # 2))]));
    reflexivity.
Defined.

(** After fetching the last record, an iteration still starts at the
    first. *)
Example iteration_after_getRecord :
  match file_ (snd (XCDFFile_getRecord samplePyFile [PyInt 2])) with
  | Some f' =>
      option_map (fun o => map fst (it_yielded o))
        (iterate (XCDFRecord_iterator f' selectAll None) f')
  | None => None
  end = Some [0; 1; 2].
Proof. reflexivity. Qed.



(** Type 7 is none of the sample's codes 0, 1, 2: False, nothing declared
    and no exception set; each of the three codes declares a field of its
    type and returns True. *)
Example addField_by_type :
  (forall t, int_of (PyInt_AsLong (PyInt 7)) <> int_of (typeCode t)) /\
  XCDFFile_addField emptyPyFile [PyString "nhit"; PyInt 7; PyInt 1]
  = (PyReturn Py_False, emptyPyFile) /\
  XCDFFile_addField emptyPyFile [PyString "nhit"; PyInt 0; PyInt 1]
  = (PyReturn Py_True,
     mkPyFile (PyString "new.xcd")
       (Some (withField emptyFile "nhit" XCDF_UNSIGNED_INTEGER 1 None))) /\
  XCDFFile_addField emptyPyFile [PyString "dt"; PyInt 1; PyInt 1]
  = (PyReturn Py_True,
     mkPyFile (PyString "new.xcd")
       (Some (withField emptyFile "dt" XCDF_SIGNED_INTEGER 1 None))) /\
  XCDFFile_addField emptyPyFile [PyString "e"; PyInt 2; PyFloat (1 # 10)]
  = (PyReturn Py_True,
     mkPyFile (PyString "new.xcd")
       (Some (withField emptyFile "e" XCDF_FLOATING_POINT (1 # 10) None))).
Proof.
  split; [intros [] H; discriminate H|]. repeat split; reflexivity.
Qed.

(** A type or a name that does not convert: the default case still
    returns False, with the error of the conversion set.  The cast to the
    enumeration keeps the low 32 bits, so 2^32 counts as code 0. *)
Example addField_unchecked_type :
  XCDFFile_addField emptyPyFile [PyString "nhit"; PyInt (2 ^ 70); PyInt 1]
  = (PyReturnWithError Py_False ConvOverflowError, emptyPyFile) /\
  XCDFFile_addField emptyPyFile [PyString "nhit"; PyString "0"; PyInt 1]
  = (PyReturnWithError Py_False ConvTypeError, emptyPyFile) /\
  XCDFFile_addField emptyPyFile [PyInt 5; PyInt 7; PyInt 1]
  = (PyReturnWithError Py_False ConvTypeError, emptyPyFile) /\
  XCDFFile_addField emptyPyFile [PyString "nhit"; PyInt (2 ^ 32); PyInt 1]
  = (PyReturn Py_True,
     mkPyFile (PyString "new.xcd")
       (Some (withField emptyFile "nhit" XCDF_UNSIGNED_INTEGER 1 None))).
Proof. repeat split; vm_compute; reflexivity. Qed.

Lemma C10_witness :
  nth_error (fields_ (loadedSample 1)) 1
  = Some (pe, FloatingPointField []) /\
  GetSize (FloatingPointField []) = 0 /\
  exists items,
    recordTuple (loadedSample 1) = PyTuple items /\
    length items = length (fields_ (loadedSample 1)) /\
    nth_error items 1 = Some (Some Py_None).
Proof.
  split; [reflexivity|]. split; [reflexivity|].
  apply (C10_empty_field_is_None (loadedSample 1) 1 pe
           (FloatingPointField [])); reflexivity.
Defined.

(** Record 1 of the sample has no [pe] value: its tuple is [(0, None)]. *)
Example empty_vector_is_None :
  recordTuple (loadedSample 1) = PyTuple [Some (PyInt 0); Some Py_None].
Proof. reflexivity. Qed.

(* ===================================================================== *)
(** * The further properties at work on the sample file                   *)
(* ===================================================================== *)

#[local] Existing Instance sampleParser.

Lemma X1_witness :
  XCDFFieldIterator.selector_
    (XCDFFieldIterator.make sampleExternals 0 3 (Some "pe"%string)) <> None /\
  exists r o,
    iterateFields
      (XCDFFieldIterator.make sampleExternals 0 3 (Some "pe"%string))
      sampleFile = Some r /\
    iterate
      (asRecordIterator
         (XCDFFieldIterator.make sampleExternals 0 3 (Some "pe"%string)))
      sampleFile = Some o /\
    fit_yielded r = it_yielded o /\ fit_end r = it_end o /\
    fit_file r = it_file o /\ asRecordIterator (fit_iter r) = it_iter o.
Proof.
  split; [discriminate|].
  apply (X1_fields_iteration_is_records_iteration
           (XCDFFieldIterator.make sampleExternals 0 3 (Some "pe"%string))
           sampleFile).
  discriminate.
Defined.

Lemma X2_witness :
  file_ samplePyFile = Some sampleFile /\ wf_file sampleFile = true /\
  atPos sampleFile 0 /\ GetEventCount sampleFile <= INT_MAX /\
  PyString_AsString (PyString "pe") = Some "pe"%string /\
  match FieldsByNameSelector_new "pe" sampleFile with
  | Throw e =>
      XCDFField_iterator samplePyFile (PyString "pe")
      = IterRaise (pyxcdf_XCDFException (GetMessage e))
  | Ok s =>
      exists it r,
        XCDFField_iterator samplePyFile (PyString "pe") = IterOk it /\
        iterateFields it sampleFile = Some r /\
        Forall2
          (fun y jr =>
             fst y = fst jr /\
             exists g, snd y = FieldsByNameSelector_GetTuple s g /\
                       fields_ g = combine (descriptors sampleFile) (snd jr) /\
                       GetCurrentEventNumber g = fst jr /\
                       sameStore sampleFile g)
          (fit_yielded r) (numbered 0 (allRecords sampleFile)) /\
        fit_end r = PyRaise PyExc_StopIteration /\
        atPos (fit_file r) 0
  end.
Proof.
  split; [reflexivity|]. split; [reflexivity|]. split; [split; reflexivity|].
  split; [vm_compute; discriminate|]. split; [reflexivity|].
  apply (X2_fields_yields_every_record samplePyFile sampleFile
           (PyString "pe") "pe");
    [reflexivity | reflexivity | split; reflexivity
     | vm_compute; discriminate | reflexivity].
Defined.

(** The field [pe] of the three sample records, and a name the selector
    refuses. *)
Example fields_on_the_sample :
  match XCDFField_iterator samplePyFile (PyString "pe") with
  | IterOk it => option_map fit_yielded (iterateFields it sampleFile)
  | _ => None
  end
  = Some [ (0, PyTuple [Some (PyTuple [Some (PyFloat (111 # 100));
                                       Some (PyFloat (222 # 100));
                                       Some (PyFloat (333 # 100))])]);
           (1, PyTuple [Some (PyTuple [])]);
           (2, PyTuple [Some (PyFloat (1 # 2))]) ] /\
  XCDFField_iterator samplePyFile (PyString "energy")
  = IterRaise (pyxcdf_XCDFException "SchemaError").
Proof. split; reflexivity. Qed.


(** The same iterator run twice over the sample: records 0 and 2 both
    times. *)
Example sample_iterated_twice :
  match iterate (XCDFRecord_iterator sampleFile sampleSelect None) sampleFile
  with
  | Some o1 =>
      option_map (fun o2 => (map fst (it_yielded o1), map fst (it_yielded o2)))
                 (iterate (it_iter o1) (it_file o1))
  | None => None
  end = Some ([0; 2], [0; 2]).
Proof. reflexivity. Qed.

Lemma X4_witness :
  wf_file (loadedSample 0) = true /\ atPos (loadedSample 0) 1 /\
  GetEventCount (loadedSample 0) <= INT_MAX /\
  exists o,
    iterate (XCDFRecord_iterator (loadedSample 0) selectAll None)
            (loadedSample 0) = Some o /\
    map fst (it_consulted o)
    = map Z.of_nat (seq 1 (length (allRecords (loadedSample 0)) - 1)) /\
    it_consulted o
    = consultationsOf selectAll (descriptors (loadedSample 0)) (Z.of_nat 1)
                      (skipn 1 (allRecords (loadedSample 0))) /\
    it_yielded o
    = map (fun jr => (fst jr, tupleOfRecord (snd jr)))
          (acceptedOf selectAll (descriptors (loadedSample 0)) (Z.of_nat 1)
                      (skipn 1 (allRecords (loadedSample 0)))) /\
    it_end o = PyRaise PyExc_StopIteration /\
    atPos (it_file o) 0.
Proof.
  split; [reflexivity|]. split; [split; reflexivity|].
  split; [vm_compute; discriminate|].
  apply (X4_records_starts_at_the_cursor (loadedSample 0) 1 selectAll);
    [reflexivity | split; reflexivity | vm_compute; discriminate].
Defined.

(** With record 0 read already, a new iterator surfaces records 1 and 2
    only. *)
Example iteration_from_the_cursor :
  option_map (fun o => map fst (it_yielded o))
    (iterate (XCDFRecord_iterator (loadedSample 0) selectAll None)
             (loadedSample 0))
  = Some [1; 2].
Proof. reflexivity. Qed.

Lemma X5_witness :
  file_ samplePyFile = Some sampleFile /\ wf_file sampleFile = true /\
  Forall (fun i => 0 <= i < GetEventCount sampleFile) [2; 0; 2] /\
  Forall2
    (fun i res =>
       exists r, nth_error (allRecords sampleFile) (Z.to_nat i) = Some r /\
                 res = PyReturn (tupleOfRecord r))
    [2; 0; 2] (fst (getRecords samplePyFile [2; 0; 2])) /\
  exists f',
    file_ (snd (getRecords samplePyFile [2; 0; 2])) = Some f' /\
    sameStore sampleFile f' /\ wf_file f' = true /\
    ([2; 0; 2] <> [] -> atPos f' 0).
Proof.
  assert (R : Forall (fun i => 0 <= i < GetEventCount sampleFile) [2; 0; 2]).
  { repeat (constructor; [vm_compute; split; [discriminate|reflexivity]|]).
    constructor. }
  split; [reflexivity|]. split; [reflexivity|]. split; [exact R|].
  apply (X5_getRecord_in_any_order [2; 0; 2] samplePyFile sampleFile);
    [reflexivity | reflexivity | exact R].
Defined.

Lemma X6_witness :
  file_ samplePyFile = Some sampleFile /\ wf_file sampleFile = true /\
  Seek sampleFile 0 = Ok (true, loadedSample 0) /\
  PyString_AsString (PyString "energy") = Some "energy"%string /\
  FieldsByNameSelector_new "energy" (loadedSample 0) = Throw SchemaError /\
  XCDFFile_getRecord samplePyFile [PyInt 0; PyString "energy"]
  = (PyRaise (pyxcdf_XCDFException (GetMessage SchemaError)),
     mkPyFile (filename_ samplePyFile) (Some (loadedSample 0))) /\
  GetCurrentEventNumber (loadedSample 0) = 0 /\
  remaining (loadedSample 0)
  = skipn (Z.to_nat 0 + 1) (allRecords sampleFile) /\
  (GetEventCount sampleFile <= INT_MAX ->
   forall select,
   exists o,
     iterate (XCDFRecord_iterator (loadedSample 0) select None)
             (loadedSample 0) = Some o /\
     map fst (it_consulted o)
     = map Z.of_nat (seq (Z.to_nat 0 + 1)
                         (length (allRecords sampleFile) - (Z.to_nat 0 + 1)))
     /\
     it_yielded o
     = map (fun jr => (fst jr, tupleOfRecord (snd jr)))
           (acceptedOf select (descriptors sampleFile) (0 + 1)
                       (skipn (Z.to_nat 0 + 1) (allRecords sampleFile)))).
Proof.
  split; [reflexivity|]. split; [reflexivity|]. split; [reflexivity|].
  split; [reflexivity|]. split; [reflexivity|].
  apply (X6_getRecord_failed_selection_keeps_the_cursor samplePyFile
           sampleFile (loadedSample 0) 0 (PyString "energy") "energy"
           SchemaError); reflexivity.
Defined.

(** After the failed call the next iteration misses record 0; after a
    call that succeeds it does not. *)
Example iteration_after_failed_getRecord :
  match file_ (snd (XCDFFile_getRecord samplePyFile
                      [PyInt 0; PyString "energy"])) with
  | Some f' =>
      option_map (fun o => map fst (it_yielded o))
        (iterate (XCDFRecord_iterator f' selectAll None) f')
  | None => None
  end = Some [1; 2] /\
  match file_ (snd (XCDFFile_getRecord samplePyFile
                      [PyInt 0; PyString "pe"])) with
  | Some f' =>
      option_map (fun o => map fst (it_yielded o))
        (iterate (XCDFRecord_iterator f' selectAll None) f')
  | None => None
  end = Some [0; 1; 2].
Proof. split; reflexivity. Qed.


(** The getters on the sample. *)
Example getters_on_the_sample :
  XCDFFile_getcount samplePyFile = PyReturn (PyInt 3) /\
  XCDFFile_getnfields samplePyFile = PyReturn (PyInt 2) /\
  XCDFFile_getfilename samplePyFile = PyReturn (PyString "sample.xcd").
Proof. repeat split; reflexivity. Qed.

Lemma X8_witness :
  INT_MAX < GetEventCount (mkFile [] [] [] (INT_MAX + 1) 0 0 (-1) OpenForRead)
  <= 2 * INT_MAX + 2 /\
  iterate (XCDFRecord_iterator (mkFile [] [] [] (INT_MAX + 1) 0 0 (-1) OpenForRead)
                               selectAll None)
          (mkFile [] [] [] (INT_MAX + 1) 0 0 (-1) OpenForRead)
  = Some (mkIteration sampleExternals [] [] (PyRaise PyExc_StopIteration)
            (XCDFRecord_iterator (mkFile [] [] [] (INT_MAX + 1) 0 0 (-1) OpenForRead)
                                 selectAll None)
            (Rewind (mkFile [] [] [] (INT_MAX + 1) 0 0 (-1) OpenForRead))).
Proof.
  split; [vm_compute; split; [reflexivity | discriminate]|].
  apply (X8_iteration_is_empty_beyond_INT_MAX
           (mkFile [] [] [] (INT_MAX + 1) 0 0 (-1) OpenForRead) selectAll None).
  vm_compute. split; [reflexivity | discriminate].
Defined.

Lemma X9_witness :
  (0 < 2)%nat /\ Z.of_nat 2 <= INT_MAX /\
  Z.of_nat (length threeFields) <= INT_MAX /\
  let ts := fold_left TupleSetter_call
              threeFields
              (TupleSetter_new (Z.of_nat 2)) in
  nfields_ ts = Z.of_nat 2 /\
  ifield_ ts
  = Z.of_nat (length threeFields) /\
  length (tuple_ ts) = 2%nat /\
  (forall k fld,
     nth_error threeFields k
     = Some fld ->
     (length threeFields
      <= k + 2)%nat ->
     nth_error (tuple_ ts) (k mod 2) = Some (Some (slotOf fld))) /\
  (forall j,
     (length threeFields
      <= j < 2)%nat ->
     nth_error (tuple_ ts) j = Some None).
Proof.
  split; [lia|]. split; [vm_compute; discriminate|].
  split; [vm_compute; discriminate|].
  apply (X9_TupleSetter_writes_slot_k_mod_n 2
           threeFields);
    [lia | vm_compute; discriminate | vm_compute; discriminate].
Defined.

(** Three fields into two slots: the third overwrites the first. *)
Example three_fields_two_slots :
  tuple_ (fold_left TupleSetter_call
            threeFields
            (TupleSetter_new 2))
  = [Some (PyInt (-1)); Some Py_None].
Proof. reflexivity. Qed.

Lemma X10_witness :
  file_ emptyPyFile = Some emptyFile /\
  NoDup (map fd_name (descriptors emptyFile)) /\
  Forall (fun r => r <> PyUndefined)
    (fst (addFields emptyPyFile
            [ [PyString "nhit"; PyInt 0; PyInt 1];
              [PyString "nhit"; PyInt 1; PyInt 1];
              [PyString "pe"; PyInt 7; PyFloat (1 # 100)];
              [PyString "pe"; PyInt 2; PyFloat (1 # 100); PyString "nhit"];
              [PyString "pe"] ])) /\
  exists f' added,
    snd (addFields emptyPyFile
           [ [PyString "nhit"; PyInt 0; PyInt 1];
             [PyString "nhit"; PyInt 1; PyInt 1];
             [PyString "pe"; PyInt 7; PyFloat (1 # 100)];
             [PyString "pe"; PyInt 2; PyFloat (1 # 100); PyString "nhit"];
             [PyString "pe"] ])
    = mkPyFile (filename_ emptyPyFile) (Some f') /\
    fields_ f' = fields_ emptyFile ++ added /\
    length added
    = length
        (filter returnedTrue
           (fst (addFields emptyPyFile
                   [ [PyString "nhit"; PyInt 0; PyInt 1];
                     [PyString "nhit"; PyInt 1; PyInt 1];
                     [PyString "pe"; PyInt 7; PyFloat (1 # 100)];
                     [PyString "pe"; PyInt 2; PyFloat (1 # 100);
                      PyString "nhit"];
                     [PyString "pe"] ]))) /\
    Forall (fun df => snd df = emptyField (fd_type (fst df))) added /\
    NoDup (map fd_name (descriptors f')) /\
    blocks_ f' = blocks_ emptyFile /\ seekTable_ f' = seekTable_ emptyFile /\
    eventCount_ f' = eventCount_ emptyFile /\
    blockIndex_ f' = blockIndex_ emptyFile /\
    posInBlock_ f' = posInBlock_ emptyFile /\
    eventNumber_ f' = eventNumber_ emptyFile.
Proof.
  assert (D : Forall (fun r => r <> PyUndefined)
                (fst (addFields emptyPyFile
                        [ [PyString "nhit"; PyInt 0; PyInt 1];
                          [PyString "nhit"; PyInt 1; PyInt 1];
                          [PyString "pe"; PyInt 7; PyFloat (1 # 100)];
                          [PyString "pe"; PyInt 2; PyFloat (1 # 100);
                           PyString "nhit"];
                          [PyString "pe"] ]))).
  { vm_compute. repeat (constructor; [discriminate|]). constructor. }
  split; [reflexivity|]. split; [constructor|]. split; [exact D|].
  apply (X10_addField_only_appends
           [ [PyString "nhit"; PyInt 0; PyInt 1];
             [PyString "nhit"; PyInt 1; PyInt 1];
             [PyString "pe"; PyInt 7; PyFloat (1 # 100)];
             [PyString "pe"; PyInt 2; PyFloat (1 # 100); PyString "nhit"];
             [PyString "pe"] ]
           emptyPyFile emptyFile);
    [reflexivity | constructor | exact D].
Defined.

(** Five calls, two fields declared: the results and the registry. *)
Example addField_five_calls :
  fst (addFields emptyPyFile
         [ [PyString "nhit"; PyInt 0; PyInt 1];
           [PyString "nhit"; PyInt 1; PyInt 1];
           [PyString "pe"; PyInt 7; PyFloat (1 # 100)];
           [PyString "pe"; PyInt 2; PyFloat (1 # 100); PyString "nhit"];
           [PyString "pe"] ])
  = [ PyReturn Py_True;
      PyRaise (pyxcdf_XCDFException "SchemaError");
      PyReturn Py_False;
      PyReturn Py_True;
      PyRaise (PyExc_TypeError
                 "addField(name, type, resolution, [parent name])") ] /\
  option_map (fun f => map fd_name (descriptors f))
    (file_ (snd (addFields emptyPyFile
                   [ [PyString "nhit"; PyInt 0; PyInt 1];
                     [PyString "nhit"; PyInt 1; PyInt 1];
                     [PyString "pe"; PyInt 7; PyFloat (1 # 100)];
                     [PyString "pe"; PyInt 2; PyFloat (1 # 100);
                      PyString "nhit"];
                     [PyString "pe"] ])))
  = Some ["nhit"%string; "pe"%string].
Proof. split; reflexivity. Qed.

Lemma X11_witness :
  file_ samplePyFile = Some sampleFile /\ wf_file sampleFile = true /\
  atPos sampleFile 0 /\ GetEventCount sampleFile <= INT_MAX /\
  EventSelectExpression_new "true" sampleFile = Ok selectAll /\
  (exists it o,
     pyxcdf_records samplePyFile [] [] = IterOk it /\
     iterate it sampleFile = Some o /\
     it_yielded o
     = map (fun jr => (fst jr, tupleOfRecord (snd jr)))
           (numbered 0 (allRecords sampleFile)) /\
     it_end o = PyRaise PyExc_StopIteration /\
     atPos (it_file o) 0) /\
  (forall expr fl e,
     EventSelectExpression_new expr sampleFile = Throw e ->
     pyxcdf_records samplePyFile [PyString expr; fl] []
     = IterRaise (pyxcdf_XCDFException (GetMessage e)) /\
     pyxcdf_records samplePyFile []
       [("fields"%string, fl); ("select"%string, PyString expr)]
     = IterRaise (pyxcdf_XCDFException (GetMessage e))).
Proof.
  split; [reflexivity|]. split; [reflexivity|]. split; [split; reflexivity|].
  split; [vm_compute; discriminate|]. split; [reflexivity|].
  apply (X11_records_by_default_yields_every_record samplePyFile sampleFile
           selectAll);
    [reflexivity | reflexivity | split; reflexivity
     | vm_compute; discriminate | reflexivity | reflexivity].
Defined.

(** [records] on the sample: the arguments by position and by name, too
    many of them, and an expression the parser refuses. *)
Example records_on_the_sample :
  pyxcdf_records samplePyFile [PyString "false"] []
  = pyxcdf_records samplePyFile [] [("select"%string, PyString "false")] /\
  pyxcdf_records samplePyFile [PyString "true"; PyString "pe"; Py_None] []
  = IterRaise (PyExc_TypeError recordsUsage) /\
  pyxcdf_records samplePyFile [PyString "nhit >"; Py_None] []
  = IterRaise (pyxcdf_XCDFException "SchemaError") /\
  pyxcdf_records (mkPyFile (PyString "") None) [] []
  = IterRaise (PyExc_AttributeError "file: not open").
Proof. repeat split; reflexivity. Qed.
